(** * EchoPilot / Codessa AI Workbench: the API client and the bulk policy scan

    A shallow embedding of
      - [src/api/apiClient.ts]   (class [CodessaApiClient]) and
      - [src/policy/diagnosticsProvider.ts] (method [checkAllPolicies])
    together with the properties the specification states about them.

    Conventions.  JavaScript values that cross the HTTP boundary are kept
    as a JSON value type; an operation that can throw returns a
    [Completion]; objects used as string-keyed maps (HTTP header tables,
    the diagnostics collection) are [gmap]s; asynchronous behaviour is a
    history of events delivered one at a time by the single-threaded
    event loop, each handled to completion before the next. *)

From stdpp Require Import base option list gmap strings fin_maps.
From Stdlib Require Import ZArith Lia.

Local Open Scope string_scope.
Local Open Scope list_scope.
Set Warnings "-register-all".

(** ** JavaScript values and the few coercions the client relies on *)

Module Js.

(** A thrown [Error] object: its [name] and [message]. *)
Record Error := MkError { name : string; message : string }.

(** [new Error(msg)] *)
Definition new_Error (msg : string) : Error := MkError "Error" msg.

(** [TypeError] raised by a property read on [undefined] or [null];
    the message text is the engine's. *)
Definition TypeError_read (of_ prop : string) : Error :=
  MkError "TypeError"
    ("Cannot read properties of " +:+ of_ +:+ " (reading '" +:+ prop +:+ "')").

Definition TypeError_primitive : Error :=
  MkError "TypeError" "Cannot convert object to primitive value".

(** [Error.prototype.toString], which is what a template literal
    [`${error}`] applies to an error object. *)
Definition Error_toString (e : Error) : string :=
  match name e, message e with
  | "", m => m
  | n, "" => n
  | n, m => n +:+ ": " +:+ m
  end.

(** Normal or abrupt completion of an expression. *)
Inductive Completion (A : Type) : Type :=
| Normal (a : A)
| Throw (e : Error).
Arguments Normal {A} a.
Arguments Throw {A} e.

Definition bind {A B} (c : Completion A) (k : A -> Completion B) : Completion B :=
  match c with
  | Normal a => k a
  | Throw e => Throw e
  end.

(** The values [JSON.parse] produces, plus [undefined] (the result of
    reading a missing property).  A number is kept as the text
    Number-to-String conversion gives for it: the client never computes
    with numbers, it can only append them to a string. *)
Inductive value : Type :=
| Undefined
| Null
| Bool (b : bool)
| Number (repr : string)
| Str (s : string)
| Array (elems : list value)
| Object (props : list (string * value)).

(** Own property of an object built by [JSON.parse]. *)
Fixpoint lookup (props : list (string * value)) (key : string) : option value :=
  match props with
  | [] => None
  | (k, v) :: rest => if String.eqb k key then Some v else lookup rest key
  end.

(** The own properties of an object after its member [key] has come to
    hold [v]. *)
Fixpoint with_member (props : list (string * value)) (key : string) (v : value)
  : list (string * value) :=
  match props with
  | [] => []
  | (k, x) :: rest =>
      if String.eqb k key then (k, v) :: rest
      else (k, x) :: with_member rest key v
  end.

(** [v.key], for the keys the client reads ([type], [content],
    [action]): none of them is an array index, [length], or a member of
    a built-in prototype, so on primitives, arrays and objects without
    that own property the read gives [undefined]; on [undefined] and
    [null] it throws. *)
Definition get (v : value) (key : string) : Completion value :=
  match v with
  | Undefined => Throw (TypeError_read "undefined" key)
  | Null => Throw (TypeError_read "null" key)
  | Object props => Normal (default Undefined (lookup props key))
  | _ => Normal Undefined
  end.

(** [v === s] for a string literal [s]. *)
Definition strict_equals_string (v : value) (s : string) : bool :=
  match v with
  | Str s' => String.eqb s' s
  | _ => false
  end.

(** ToString of a value, as string concatenation applies it.  A plain
    object prints as [[object Object]] unless it carries an own
    (hence non-callable) [toString] property, in which case the
    conversion throws; arrays join their elements with commas, [null]
    and [undefined] elements printing as the empty string. *)
Fixpoint to_string (v : value) : Completion string :=
  match v with
  | Undefined => Normal "undefined"
  | Null => Normal "null"
  | Bool true => Normal "true"
  | Bool false => Normal "false"
  | Number repr => Normal repr
  | Str s => Normal s
  | Array elems =>
      bind
        ((fix items (l : list value) : Completion (list string) :=
            match l with
            | [] => Normal []
            | e :: rest =>
                bind (match e with
                      | Undefined | Null => Normal ""
                      | _ => to_string e
                      end)
                     (fun s => bind (items rest) (fun ss => Normal (s :: ss)))
            end) elems)
        (fun ss => Normal (String.concat "," ss))
  | Object props =>
      match lookup props "toString" with
      | Some _ => Throw TypeError_primitive
      | None => Normal "[object Object]"
      end
  end.

(** [s + v] (and [s += v]) for a string [s]. *)
Definition add_string (s : string) (v : value) : Completion string :=
  bind (to_string v) (fun t => Normal (s +:+ t)).

(** Truthiness of a string. *)
Definition truthy_string (s : string) : bool :=
  match s with
  | "" => false
  | _ => true
  end.

(** ToBoolean of a value.  A number is kept by its Number-to-String
    text, which is [0] for both zeros and [NaN] for a NaN. *)
Definition truthy (v : value) : bool :=
  match v with
  | Undefined | Null => false
  | Bool b => b
  | Number repr => negb (String.eqb repr "0" || String.eqb repr "NaN")
  | Str s => truthy_string s
  | Array _ | Object _ => true
  end.

(** Arithmetic on whole numbers.  A JavaScript number is a double: the
    whole numbers below 2^53 in magnitude are all doubles, and from
    there on the doubles between 2^k and 2^(k+1) lie 2^(k-52) apart.
    [to_double z] is the double nearest to the whole number [z], ties
    going to the even significand; the sum and the difference of two
    whole doubles are the exact result rounded in this way. *)
Definition to_double (z : Z) : Z :=
  let a := Z.abs z in
  if (a <? 2 ^ 53)%Z then z
  else
    let ulp := (2 ^ (Z.log2 a - 52))%Z in
    let q := (a / ulp)%Z in
    let r := (a mod ulp)%Z in
    let q' := if (2 * r <? ulp)%Z then q
              else if (ulp <? 2 * r)%Z then (q + 1)%Z
              else if Z.even q then q else (q + 1)%Z in
    (Z.sgn z * (q' * ulp))%Z.

(** [a + b] and [a - b] on whole doubles. *)
Definition plus (a b : Z) : Z := to_double (a + b).
Definition minus (a b : Z) : Z := to_double (a - b).

End Js.

(** ** The axios instance, as far as the client touches it *)

Module Axios.

(** [instance.defaults]: [defaults.headers] holds the entries given to
    [axios.create]; [defaults.headers.common] is the table applied to
    every method. *)
Record Instance := MkInstance {
  baseURL : option string;
  timeout : Z;
  headers : gmap string string;
  headers_common : gmap string string
}.

(** The configuration object literal handed to [axios.create]. *)
Record CreateConfig := MkCreateConfig {
  cc_timeout : Z;
  cc_headers : gmap string string
}.

(** The library's own [defaults.headers.common]. *)
Definition library_common : gmap string string :=
  {[ "Accept" := "application/json, text/plain, */*" ]}.

(** [axios.create(config)]: the library defaults overlaid with
    [config]; the library sets no base URL. *)
Definition create (c : CreateConfig) : Instance :=
  {| baseURL := None;
     timeout := cc_timeout c;
     headers := cc_headers c;
     headers_common := library_common |}.

Definition set_baseURL (u : string) (i : Instance) : Instance :=
  {| baseURL := Some u;
     timeout := timeout i;
     headers := headers i;
     headers_common := headers_common i |}.

(** [instance.defaults.headers.common[k] = v] *)
Definition set_common (k v : string) (i : Instance) : Instance :=
  {| baseURL := baseURL i;
     timeout := timeout i;
     headers := headers i;
     headers_common := <[ k := v ]> (headers_common i) |}.

(** What one [instance.post(url, body)] hands to the transport: the
    instance defaults merged into the request, entries of
    [defaults.headers] taking precedence over [common]. *)
Record Request (Body : Type) := MkRequest {
  req_baseURL : option string;
  req_url : string;
  req_headers : gmap string string;
  req_body : Body
}.
Arguments MkRequest {Body}.
Arguments req_baseURL {Body}.
Arguments req_url {Body}.
Arguments req_headers {Body}.
Arguments req_body {Body}.

Definition post {Body} (i : Instance) (url : string) (body : Body) : Request Body :=
  {| req_baseURL := baseURL i;
     req_url := url;
     req_headers := headers i ∪ headers_common i;
     req_body := body |}.

End Axios.

(** ** The API client: configuration *)

Module ApiClient.

(** [interface CodessaConfig] *)
Record CodessaConfig := MkConfig {
  apiEndpoint : string;
  apiKey : string;
  streamResponses : bool
}.

(** The host's settings provider,
    [vscode.workspace.getConfiguration('codessa')]: each setting is set
    or unset. *)
Record WorkspaceConfiguration := MkSettings {
  setting_apiEndpoint : option string;
  setting_apiKey : option string;
  setting_streamResponses : option bool
}.

(** [vscodeConfig.get(key, defaultValue)] *)
Definition get {A} (setting : option A) (defaultValue : A) : A :=
  default defaultValue setting.

(** The object [this]: [client] is [undefined] until the constructor
    assigns it, [config] until [updateConfiguration] has run once. *)
Record CodessaApiClient := MkClient {
  client : option Axios.Instance;
  config : option CodessaConfig
}.

(** [this.config.apiKey ? `Bearer ${this.config.apiKey}` : ''] *)
Definition authorization (c : CodessaConfig) : string :=
  if Js.truthy_string (apiKey c) then "Bearer " +:+ apiKey c else "".

Definition updateConfiguration
    (vscodeConfig : WorkspaceConfiguration) (this : CodessaApiClient)
  : CodessaApiClient :=
  let config' :=
    {| apiEndpoint := get (setting_apiEndpoint vscodeConfig) "https://api.codessa.dev";
       apiKey := get (setting_apiKey vscodeConfig) "";
       streamResponses := get (setting_streamResponses vscodeConfig) true |} in
  {| client :=
       match client this with
       | Some c =>
           Some (Axios.set_common "Authorization" (authorization config')
                   (Axios.set_baseURL (apiEndpoint config') c))
       | None => None
       end;
     config := Some config' |}.

(** [this] on entry to the constructor. *)
Definition uninitialised : CodessaApiClient :=
  {| client := None; config := None |}.

Definition create_config : Axios.CreateConfig :=
  {| Axios.cc_timeout := 30000;
     Axios.cc_headers :=
       {[ "Content-Type" := "application/json";
          "User-Agent" := "VSCode-Codessa-Extension/0.1.0" ]} |}.

(** [constructor()]: first [this.updateConfiguration()], then
    [this.client = axios.create({...})]. *)
Definition constructor (vscodeConfig : WorkspaceConfiguration) : CodessaApiClient :=
  let this := updateConfiguration vscodeConfig uninitialised in
  {| client := Some (Axios.create create_config);
     config := config this |}.

(** The objects a program can hold: built by the constructor, then
    refreshed any number of times. *)
Inductive constructed : CodessaApiClient -> Prop :=
| constructed_new s : constructed (constructor s)
| constructed_update s this :
    constructed this -> constructed (updateConfiguration s this).

(** The header table handed to [new EventSource(url, {headers})]. *)
Definition eventsource_headers (c : CodessaConfig) : gmap string string :=
  {[ "Authorization" := authorization c;
     "Content-Type" := "application/json" ]}.

(** ** The API client: chat requests *)

(** [interface ChatRequest] *)
Record ChatContext := MkChatContext {
  workspaceRoot : option string;
  activeFile : option string;
  selectedText : option string;
  openFiles : option (list string)
}.

Record ChatRequest := MkChatRequest {
  message : string;
  context : option ChatContext;
  stream : option bool
}.

(** The object literal [{...request, stream: b}] *)
Definition with_stream (request : ChatRequest) (b : bool) : ChatRequest :=
  {| message := message request;
     context := context request;
     stream := Some b |}.

(** What a caller-supplied callback does when invoked: it returns
    (possibly with asynchronous work still to finish, e.g. the promise
    of an [async] handler) or it throws. *)
Inductive CallbackOutcome :=
| Returned (work_pending : bool)
| Threw (e : Js.Error).

(** What [console.error] is given besides its label. *)
Inductive LogDetail :=
| Caught (e : Js.Error)
| ErrorEvent.

(** The externally visible effects of the client, in program order. *)
Inductive Effect :=
| NewEventSource (url : string) (hdrs : gmap string string)
| Post (req : Axios.Request ChatRequest)
| OnChunk (chunk : Js.value) (out : CallbackOutcome)
| OnAction (action : Js.value) (out : CallbackOutcome)
| ConsoleError (label : string) (detail : LogDetail)
| EventSourceClose.

(** A callback is any function of its argument whose behaviour may
    depend on everything that has happened so far. *)
Definition Callback := list Effect -> Js.value -> CallbackOutcome.

(** The promise built by [new Promise((resolve, reject) => ...)]. *)
Inductive PromiseState :=
| Pending
| Fulfilled (v : Js.value)
| Rejected (e : Js.Error).

(** The variables the handlers of [streamChatMessage] close over, the
    state of the promise and of the [EventSource], and the effects
    performed so far. *)
Record StreamState := MkStream {
  fullContent : string;
  actions : list Js.value;
  promise : PromiseState;
  closed : bool;
  trace : list Effect
}.

Definition set_fullContent (s : string) (st : StreamState) : StreamState :=
  {| fullContent := s; actions := actions st; promise := promise st;
     closed := closed st; trace := trace st |}.

(** The response that holds the array [actions], once the array holds
    [acts]. *)
Definition shared_actions (acts : list Js.value) (p : PromiseState) : PromiseState :=
  match p with
  | Fulfilled (Js.Object props) =>
      Fulfilled (Js.Object (Js.with_member props "actions" (Js.Array acts)))
  | _ => p
  end.

(** [actions.push(a)].  The array is not only a variable of the
    executor: the done branch, after it has called [close()], fulfils
    the promise with [{ content: fullContent, actions }], and that
    object holds the array itself, not a copy of it.  So once the stream
    has been closed and the promise fulfilled, a push shows in the
    [actions] member of the response; on a stream that has not been
    closed there is no response yet. *)
Definition push_action (a : Js.value) (st : StreamState) : StreamState :=
  let acts := actions st ++ [a] in
  {| fullContent := fullContent st; actions := acts;
     promise := if closed st then shared_actions acts (promise st) else promise st;
     closed := closed st; trace := trace st |}.

Definition add_effect (e : Effect) (st : StreamState) : StreamState :=
  {| fullContent := fullContent st; actions := actions st;
     promise := promise st; closed := closed st; trace := trace st ++ [e] |}.

(** [eventSource.close()] *)
Definition close (st : StreamState) : StreamState :=
  {| fullContent := fullContent st; actions := actions st;
     promise := promise st; closed := true;
     trace := trace st ++ [EventSourceClose] |}.

Definition settle (p : PromiseState) (st : StreamState) : StreamState :=
  {| fullContent := fullContent st; actions := actions st;
     promise := match promise st with Pending => p | settled => settled end;
     closed := closed st; trace := trace st |}.

(** [resolve(v)] and [reject(e)]: only the first call settles. *)
Definition resolve (v : Js.value) : StreamState -> StreamState := settle (Fulfilled v).
Definition reject (e : Js.Error) : StreamState -> StreamState := settle (Rejected e).

(** The object literal [{ content: fullContent, actions }] *)
Definition chat_response (content : string) (acts : list Js.value) : Js.value :=
  Js.Object [("content", Js.Str content); ("actions", Js.Array acts)].

(** Statements of a handler body: they update the state and complete
    normally or throw. *)
Definition Handler (A : Type) : Type := StreamState -> StreamState * Js.Completion A.

Definition ret {A} (a : A) : Handler A := fun st => (st, Js.Normal a).

Definition hbind {A B} (m : Handler A) (k : A -> Handler B) : Handler B :=
  fun st =>
    match m st with
    | (st', Js.Normal a) => k a st'
    | (st', Js.Throw e) => (st', Js.Throw e)
    end.

Notation "'let*' x ':=' m 'in' k" := (hbind m (fun x => k))
  (at level 10, x name, m at level 100, k at level 200).
Notation "'do' m 'then' k" := (hbind m (fun _ => k))
  (at level 10, m at level 100, k at level 200).

(** An expression that reads no state. *)
Definition eval {A} (c : Js.Completion A) : Handler A := fun st => (st, c).

Definition read {A} (f : StreamState -> A) : Handler A := fun st => (st, Js.Normal (f st)).

Definition update (f : StreamState -> StreamState) : Handler unit :=
  fun st => (f st, Js.Normal tt).

(** [try { body } catch (error) { handler }] *)
Definition try_catch (body : Handler unit) (handler : Js.Error -> Handler unit)
  : Handler unit :=
  fun st =>
    match body st with
    | (st', Js.Normal _) => (st', Js.Normal tt)
    | (st', Js.Throw e) => handler e st'
    end.

(** A call [f(arg)] of a callback, as a statement. *)
Definition call (record : Js.value -> CallbackOutcome -> Effect)
    (f : Callback) (arg : Js.value) : Handler unit :=
  fun st =>
    let out := f (trace st) arg in
    let st' := add_effect (record arg out) st in
    match out with
    | Returned _ => (st', Js.Normal tt)
    | Threw e => (st', Js.Throw e)
    end.

(** [event.data] of a [MessageEvent], through [JSON.parse]: the parser is
    the platform's, so a message is represented by what parsing its data
    gives, a value or a [SyntaxError]. *)
Inductive MessageEvent :=
| Unparseable (e : Js.Error)
| Parsed (data : Js.value).

Definition JSON_parse (event : MessageEvent) : Js.Completion Js.value :=
  match event with
  | Unparseable e => Js.Throw e
  | Parsed data => Js.Normal data
  end.

(** [eventSource.onmessage] *)
Definition onmessage (onChunk : Callback) (onAction : option Callback)
    (event : MessageEvent) : Handler unit :=
  try_catch
    (let* data := eval (JSON_parse event) in
     let* type := eval (Js.get data "type") in
     if Js.strict_equals_string type "content" then
       let* content := eval (Js.get data "content") in
       let* full := read fullContent in
       let* full' := eval (Js.add_string full content) in
       do update (set_fullContent full') then
       call OnChunk onChunk content
     else
       match Js.strict_equals_string type "action", onAction with
       | true, Some onAction =>
           let* action := eval (Js.get data "action") in
           do update (push_action action) then
           call OnAction onAction action
       | _, _ =>
           if Js.strict_equals_string type "done" then
             do update close then
             let* full := read fullContent in
             let* acts := read actions in
             update (resolve (chat_response full acts))
           else ret tt
       end)
    (fun error => update (add_effect (ConsoleError "Error parsing stream data:" (Caught error)))).

(** [eventSource.onerror] *)
Definition onerror (st : StreamState) : StreamState :=
  let st := add_effect (ConsoleError "EventSource error:" ErrorEvent) st in
  let st := close st in
  reject (Js.new_Error "Stream connection failed") st.

(** What the event loop can deliver to one streaming call, one item at a
    time: a server-sent message, a transport error of the stream, the
    rejection of the init POST, and the completion of the work that the
    [k]-th [onAction] invocation left pending.  (Fulfilment of the init
    POST is not listed: no continuation is attached to it.) *)
Inductive Event :=
| Message (event : MessageEvent)
| StreamError
| InitRejected (e : Js.Error)
| ActionWorkSettled (k : nat).

(** One turn of the event loop: the handler installed for the event
    runs.  Neither handler looks at whether [close()] has been called,
    and an [EventSource] still hands over what it had received before
    the call, so a history can hold messages after a close and they are
    handled like any other.  The only continuation attached to the init
    POST is [.catch(reject)]; nothing is attached to what [onAction]
    returns. *)
Definition step (onChunk : Callback) (onAction : option Callback)
    (st : StreamState) (ev : Event) : StreamState :=
  match ev with
  | Message event => fst (onmessage onChunk onAction event st)
  | StreamError => onerror st
  | InitRejected e => reject e st
  | ActionWorkSettled _ => st
  end.

Definition run (onChunk : Callback) (onAction : option Callback)
    (history : list Event) (st : StreamState) : StreamState :=
  fold_left (step onChunk onAction) history st.

(** The executor of the promise in [streamChatMessage], up to the point
    where it returns: the stream is opened, the handlers are installed,
    the init POST is issued.  Without a client the POST expression throws
    inside the executor, which rejects the promise. *)
Definition streamChatMessage (this : CodessaApiClient) (cfg : CodessaConfig)
    (request : ChatRequest) : StreamState :=
  let url := apiEndpoint cfg +:+ "/chat/stream" in
  let st := {| fullContent := ""; actions := []; promise := Pending;
               closed := false;
               trace := [NewEventSource url (eventsource_headers cfg)] |} in
  match client this with
  | Some c =>
      add_effect (Post (Axios.post c "/chat/stream/init" (with_stream request true))) st
  | None => reject (Js.TypeError_read "undefined" "post") st
  end.

(** The result of a whole call: what was done and how the promise ended
    up. *)
Record Outcome := MkOutcome {
  effects : list Effect;
  result : PromiseState
}.

(** [sendChatMessageSync]; [respond] is the transport: the body of the
    response to a request, or the error the POST rejects with. *)
Definition sendChatMessageSync (this : CodessaApiClient)
    (respond : Axios.Request ChatRequest -> Js.Completion Js.value)
    (request : ChatRequest) : Outcome :=
  let failed (sent : list Effect) (error : Js.Error) :=
    {| effects := sent ++ [ConsoleError "Error sending chat message:" (Caught error)];
       result := Rejected (Js.new_Error
                   ("Failed to send chat message: " +:+ Js.Error_toString error)) |} in
  match client this with
  | None => failed [] (Js.TypeError_read "undefined" "post")
  | Some c =>
      let req := Axios.post c "/chat" (with_stream request false) in
      match respond req with
      | Js.Normal data => {| effects := [Post req]; result := Fulfilled data |}
      | Js.Throw error => failed [Post req] error
      end
  end.

(** The environment of one call: the transport, and for a streaming call
    the events that follow. *)
Record Network := MkNetwork {
  respond : Axios.Request ChatRequest -> Js.Completion Js.value;
  history : list Event
}.

(** [sendChatMessage(request, onChunk?, onAction?)] *)
Definition sendChatMessage (this : CodessaApiClient) (net : Network)
    (request : ChatRequest) (onChunk : option Callback) (onAction : option Callback)
  : Outcome :=
  match config this with
  | None =>
      {| effects := [];
         result := Rejected (Js.TypeError_read "undefined" "streamResponses") |}
  | Some cfg =>
      match streamResponses cfg, onChunk with
      | true, Some onChunk =>
          let st := run onChunk onAction (history net)
                        (streamChatMessage this cfg request) in
          {| effects := trace st; result := promise st |}
      | _, _ => sendChatMessageSync this (respond net) request
      end
  end.

(** *** Vocabulary for the properties of the streaming reader *)

(** The [type] discriminator of a message, when reading it succeeds. *)
Definition type_of (event : MessageEvent) : option Js.value :=
  match event with
  | Parsed data =>
      match Js.get data "type" with
      | Js.Normal type => Some type
      | Js.Throw _ => None
      end
  | Unparseable _ => None
  end.

Definition has_type (s : string) (event : MessageEvent) : bool :=
  match type_of event with
  | Some type => Js.strict_equals_string type s
  | None => false
  end.

(** The member [key] of a message's envelope. *)
Definition payload (key : string) (event : MessageEvent) : Js.value :=
  match event with
  | Parsed data =>
      match Js.get data key with
      | Js.Normal v => v
      | Js.Throw _ => Js.Undefined
      end
  | Unparseable _ => Js.Undefined
  end.

(** [{type: "content", content: c}] with a string [c]. *)
Definition content_envelope (c : string) (event : MessageEvent) : Prop :=
  has_type "content" event = true /\ payload "content" event = Js.Str c.

(** [{type: "action", action: a}] *)
Definition action_envelope (a : Js.value) (event : MessageEvent) : Prop :=
  has_type "action" event = true /\ payload "action" event = a.

(** [{type: "done"}] *)
Definition done_envelope (event : MessageEvent) : Prop :=
  has_type "done" event = true.

(** A payload that is not valid JSON, or whose type discriminator is none
    of [content], [action], [done] (or cannot be read at all). *)
Definition unrecognised (event : MessageEvent) : bool :=
  negb (has_type "content" event || has_type "action" event || has_type "done" event).

(** The actions carried by the action envelopes of a sequence, in order. *)
Definition actions_of (events : list MessageEvent) : list Js.value :=
  omap (fun event =>
          if has_type "action" event then Some (payload "action" event) else None)
       events.

(** The arguments [onChunk] was invoked with, in order. *)
Definition chunk_calls (es : list Effect) : list Js.value :=
  omap (fun e => match e with OnChunk v _ => Some v | _ => None end) es.

(** The arguments [onAction] was invoked with, in order. *)
Definition action_calls (es : list Effect) : list Js.value :=
  omap (fun e => match e with OnAction v _ => Some v | _ => None end) es.

(** The callback invocations, both kinds, in order. *)
Inductive Invocation :=
| Chunk (v : Js.value)
| Action (v : Js.value).

Definition invocations (es : list Effect) : list Invocation :=
  omap (fun e =>
          match e with
          | OnChunk v _ => Some (Chunk v)
          | OnAction v _ => Some (Action v)
          | _ => None
          end) es.

(** The entries written with [console.error]. *)
Definition logged (es : list Effect) : list (string * LogDetail) :=
  omap (fun e => match e with ConsoleError l d => Some (l, d) | _ => None end) es.

(** How often the stream was opened, and how often closed. *)
Definition opens (es : list Effect) : nat :=
  length (omap (fun e => match e with NewEventSource u _ => Some u | _ => None end) es).

Definition closes (es : list Effect) : nat :=
  length (omap (fun e => match e with EventSourceClose => Some tt | _ => None end) es).

(** The POSTs issued. *)
Definition posts (es : list Effect) : list (Axios.Request ChatRequest) :=
  omap (fun e => match e with Post r => Some r | _ => None end) es.

(** For each [onAction] invocation so far, in order, whether it left
    work pending. *)
Definition action_work (es : list Effect) : list bool :=
  omap (fun e =>
          match e with
          | OnAction _ (Returned pending) => Some pending
          | OnAction _ (Threw _) => Some false
          | _ => None
          end) es.

(** The invocations whose work the event loop has reported complete. *)
Definition settled_in (history : list Event) : list nat :=
  omap (fun ev => match ev with ActionWorkSettled k => Some k | _ => None end) history.

(** The [onAction] invocations (by position) whose returned work is
    still outstanding after the effects [es], given the completions
    [settled]. *)
Definition outstanding_work (es : list Effect) (settled : list nat) : list nat :=
  filter (fun k => action_work es !! k = Some true /\ k ∉ settled)
         (seq 0 (length (action_work es))).

(** Back-pressure, as a property of one run: whenever a message is
    handled, no work returned by an earlier [onAction] invocation is
    outstanding. *)
Definition awaits_action_work (onChunk : Callback) (onAction : option Callback)
    (start : StreamState) (history : list Event) : Prop :=
  forall pre event post,
    history = pre ++ Message event :: post ->
    closed (run onChunk onAction pre start) = false ->
    outstanding_work (trace (run onChunk onAction pre start)) (settled_in pre) = [].

(** What two states of a streaming call have in common when they differ
    at most in what was logged and in how callbacks completed. *)
Definition core (st : StreamState)
  : string * list Js.value * PromiseState * bool * list Invocation :=
  (fullContent st, actions st, promise st, closed st, invocations (trace st)).

(** [c1 + c2 + ... + cn] *)
Definition concatenation (cs : list string) : string :=
  foldr String.append "" cs.

(** The state a callback invocation inside the [try] block leaves
    behind: the invocation is recorded, and a throw is caught and
    logged by the [catch] clause. *)
Definition after_call (record : Js.value -> CallbackOutcome -> Effect)
    (f : Callback) (arg : Js.value) (st : StreamState) : StreamState :=
  let out := f (trace st) arg in
  let st' := add_effect (record arg out) st in
  match out with
  | Returned _ => st'
  | Threw e => add_effect (ConsoleError "Error parsing stream data:" (Caught e)) st'
  end.

(** What handling an unrecognised message writes to the console: the
    error caught when parsing or reading the discriminator throws, and
    nothing otherwise. *)
Definition ignored_log (event : MessageEvent) : list Effect :=
  match event with
  | Unparseable e => [ConsoleError "Error parsing stream data:" (Caught e)]
  | Parsed data =>
      match Js.get data "type" with
      | Js.Throw e => [ConsoleError "Error parsing stream data:" (Caught e)]
      | Js.Normal _ => []
      end
  end.

(** Handling a message writes something to the console. *)
Definition logs_message (onChunk : Callback) (onAction : option Callback)
    (st : StreamState) (event : MessageEvent) : Prop :=
  logged (trace (step onChunk onAction st (Message event))) <> logged (trace st).

(** The errors with which the init POST was rejected in a history. *)
Definition init_rejections (history : list Event) : list Js.Error :=
  omap (fun ev => match ev with InitRejected e => Some e | _ => None end) history.

(** An event that is neither a done envelope nor a transport error of
    the stream. *)
Definition neither_done_nor_error (ev : Event) : bool :=
  match ev with
  | Message event => negb (has_type "done" event)
  | StreamError => false
  | InitRejected _ | ActionWorkSettled _ => true
  end.

(** A request carries no [Authorization] header. *)
Definition no_authorization {Body} (req : Axios.Request Body) : Prop :=
  Axios.req_headers req !! "Authorization" = None.

(** The value of the [Authorization] entry for a credential setting. *)
Definition bearer (credential : option string) : string :=
  match credential with
  | None | Some "" => ""
  | Some k => "Bearer " +:+ k
  end.

End ApiClient.

(** ** The bulk policy scan of the diagnostics provider *)

Module Policy.

(** [vscode.Uri], as far as the provider reads it. *)
Record Uri := MkUri { scheme : string; fsPath : string }.

#[global] Instance Uri_eq_dec : EqDecision Uri.
Proof. solve_decision. Defined.

#[global] Instance Uri_countable : Countable Uri :=
  inj_countable' (fun u => (scheme u, fsPath u)) (fun p => MkUri p.1 p.2)
                 (fun u => match u with MkUri _ _ => eq_refl end).

(** [vscode.TextDocument] *)
Record TextDocument := MkDocument {
  uri : Uri;
  fileName : string;
  getText : string;
  languageId : string
}.

(** [interface PolicyCheckRequest] *)
Record PolicyCheckRequest := MkCheckRequest {
  filePath : string;
  content : string;
  language : string
}.

(** [interface PolicyViolation]; positions are whole numbers (whole
    doubles), the fix is an opaque payload. *)
Record PolicyViolation := MkViolation {
  rule : string;
  severity : string;
  message : string;
  line : Z;
  column : Z;
  endLine : option Z;
  endColumn : option Z;
  fix_ : option Js.value
}.

Inductive DiagnosticSeverity := Error | Warning | Information | Hint.

(** [vscode.Range] *)
Record Range := MkRange {
  startLine : Z; startCharacter : Z; endLine' : Z; endCharacter : Z
}.

(** [new vscode.Range(startLine, startCharacter, endLine, endCharacter)]:
    a negative coordinate is an illegal argument; the two ends are put
    in order. *)
Definition new_Range (sl sc el ec : Z) : Js.Completion Range :=
  if ((sl <? 0) || (sc <? 0) || (el <? 0) || (ec <? 0))%Z then
    Js.Throw (Js.new_Error "illegal argument")
  else if ((el <? sl) || ((el =? sl) && (ec <? sc)))%Z then
    Js.Normal (MkRange el ec sl sc)
  else
    Js.Normal (MkRange sl sc el ec).

(** [vscode.Diagnostic] with the fields the provider sets. *)
Record Diagnostic := MkDiagnostic {
  range : Range;
  diag_message : string;
  diag_severity : DiagnosticSeverity;
  source : string;
  code : string;
  diag_fix : option Js.value
}.

Definition mapSeverity (severity : string) : DiagnosticSeverity :=
  if String.eqb severity "error" then Error
  else if String.eqb severity "warning" then Warning
  else if String.eqb severity "info" then Information
  else Hint.

(** [n ? a : b] for an optional number [n]. *)
Definition if_number {A} (n : option Z) (a : Z -> A) (b : A) : A :=
  match n with
  | Some v => if (v =? 0)%Z then b else a v
  | None => b
  end.

(** [if (violation.fix) { diagnostic.fix = violation.fix; }]: the
    member is stored only when it is truthy. *)
Definition stored_fix (fix_ : option Js.value) : option Js.value :=
  match fix_ with
  | Some v => if Js.truthy v then Some v else None
  | None => None
  end.

(** The function mapped over the violations in [updateDiagnostics]. *)
Definition to_diagnostic (violation : PolicyViolation) : Js.Completion Diagnostic :=
  Js.bind
    (new_Range
       (Js.minus (line violation) 1)
       (Js.minus (column violation) 1)
       (if_number (endLine violation) (fun n => Js.minus n 1)
          (Js.minus (line violation) 1))
       (if_number (endColumn violation) (fun n => Js.minus n 1)
          (Js.plus (column violation) 10)))
    (fun range =>
       Js.Normal
         {| range := range;
            diag_message := "[" +:+ rule violation +:+ "] " +:+ message violation;
            diag_severity := mapSeverity (severity violation);
            source := "GitGuard";
            code := rule violation;
            diag_fix := stored_fix (fix_ violation) |}).

(** [violations.map(...)]: the first throwing element aborts the map. *)
Fixpoint map_diagnostics (violations : list PolicyViolation)
  : Js.Completion (list Diagnostic) :=
  match violations with
  | [] => Js.Normal []
  | v :: rest =>
      Js.bind (to_diagnostic v) (fun d =>
      Js.bind (map_diagnostics rest) (fun ds => Js.Normal (d :: ds)))
  end.

(** What the scan does to the outside, in program order.  The numbers of
    the progress and completion messages are kept as numbers. *)
Inductive Effect :=
| ShowWarningMessage (text : string)
| ShowErrorMessage (text : string)
| ShowInformationMessage (completed : nat)
| ProgressOpened (title : string)
| ProgressReport (completed total : nat)
| ProgressClosed
| OpenTextDocument (file : Uri)
| CheckPolicies (request : PolicyCheckRequest)
| ConsoleError (label : string) (error : Js.Error).

(** The host and the backend as the scan meets them.  The cancellation
    token is read at the head of every loop iteration and once after the
    loop, with no suspension between a [break] and that last read: what
    it answers is a function of the number of files completed so far. *)
Record Host := MkHost {
  workspaceFolders : option (list string);
  findFiles : list Uri;
  openTextDocument : Uri -> Js.Completion TextDocument;
  backend : PolicyCheckRequest -> Js.Completion (list PolicyViolation);
  isCancellationRequested : nat -> bool
}.

(** [this.diagnosticCollection] *)
Abbreviation DiagnosticCollection := (gmap Uri (list Diagnostic)).

(** [apiClient.checkPolicies(request)] *)
Definition checkPolicies (host : Host) (request : PolicyCheckRequest)
  : Js.Completion (list PolicyViolation) * list Effect :=
  match backend host request with
  | Js.Normal violations => (Js.Normal violations, [CheckPolicies request])
  | Js.Throw error =>
      (Js.Throw (Js.new_Error ("Failed to check policies: " +:+ Js.Error_toString error)),
       [CheckPolicies request; ConsoleError "Error checking policies:" error])
  end.

(** [updateDiagnostics(uri, violations)] *)
Definition updateDiagnostics (u : Uri) (violations : list PolicyViolation)
    (collection : DiagnosticCollection) : Js.Completion DiagnosticCollection :=
  Js.bind (map_diagnostics violations) (fun diagnostics =>
  Js.Normal (<[ u := diagnostics ]> collection)).

(** [checkDocumentPolicies(document)] *)
Definition checkDocumentPolicies (host : Host) (document : TextDocument)
    (collection : DiagnosticCollection) : DiagnosticCollection * list Effect :=
  if negb (String.eqb (scheme (uri document)) "file") then (collection, [])
  else
    let request := {| filePath := fileName document;
                      content := getText document;
                      language := languageId document |} in
    let (violations, called) := checkPolicies host request in
    let failed (error : Js.Error) :=
      (collection,
       called ++ [ConsoleError "Error checking policies for document:" error;
                  ShowErrorMessage ("Failed to check policies: " +:+ Js.Error_toString error)]) in
    match violations with
    | Js.Throw error => failed error
    | Js.Normal violations =>
        match updateDiagnostics (uri document) violations collection with
        | Js.Normal collection' => (collection', called)
        | Js.Throw error => failed error
        end
    end.

(** The body of one iteration of the loop, after the cancellation test:
    the [try]/[catch] around opening and checking the file. *)
Definition check_file (host : Host) (file : Uri) (collection : DiagnosticCollection)
  : DiagnosticCollection * list Effect :=
  match openTextDocument host file with
  | Js.Normal document =>
      let (collection', done) := checkDocumentPolicies host document collection in
      (collection', OpenTextDocument file :: done)
  | Js.Throw error =>
      (collection,
       [OpenTextDocument file;
        ConsoleError ("Error checking policies for " +:+ fsPath file +:+ ":") error])
  end.

(** [for (const file of files) { ... }] with its counter [completed];
    returns the counter, the collection and the effects. *)
Fixpoint scan (host : Host) (total : nat) (files : list Uri) (completed : nat)
    (collection : DiagnosticCollection) : nat * DiagnosticCollection * list Effect :=
  match files with
  | [] => (completed, collection, [])
  | file :: rest =>
      if isCancellationRequested host completed then (completed, collection, [])
      else
        let (collection1, done) := check_file host file collection in
        let completed1 := S completed in
        let '(completed2, collection2, later) :=
          scan host total rest completed1 collection1 in
        (completed2, collection2,
         done ++ ProgressReport completed1 total :: later)
  end.

(** [checkAllPolicies()]; [withProgress] shows the notification, runs
    the task and removes the notification when the task has finished. *)
Definition checkAllPolicies (host : Host) (collection : DiagnosticCollection)
  : DiagnosticCollection * list Effect :=
  match workspaceFolders host with
  | None => (collection, [ShowWarningMessage "No workspace folder open"])
  | Some _ =>
      let files := findFiles host in
      let total := length files in
      let '(completed, collection', done) := scan host total files 0 collection in
      (collection',
       ProgressOpened "Checking GitGuard Policies" ::
       done ++
       (if negb (isCancellationRequested host completed)
        then [ShowInformationMessage completed] else []) ++
       [ProgressClosed])
  end.

(** Whether the progress notification is on screen after some effects. *)
Definition progress_showing (es : list Effect) : bool :=
  fold_left (fun showing e =>
               match e with
               | ProgressOpened _ => true
               | ProgressClosed => false
               | _ => showing
               end) es false.

(** The files the scan started work on, and the checks it sent. *)
Definition opened (es : list Effect) : list Uri :=
  omap (fun e => match e with OpenTextDocument f => Some f | _ => None end) es.

Definition checks_sent (es : list Effect) : list PolicyCheckRequest :=
  omap (fun e => match e with CheckPolicies r => Some r | _ => None end) es.

(** The same host with a token that is never cancelled. *)
Definition uninterrupted (host : Host) : Host :=
  {| workspaceFolders := workspaceFolders host;
     findFiles := findFiles host;
     openTextDocument := openTextDocument host;
     backend := backend host;
     isCancellationRequested := fun _ => false |}.

(** The check that working on one file sends, if any: the file has to
    open, and to be a [file:] document. *)
Definition request_for (host : Host) (file : Uri) : option PolicyCheckRequest :=
  match openTextDocument host file with
  | Js.Normal document =>
      if String.eqb (scheme (uri document)) "file" then
        Some {| filePath := fileName document;
                content := getText document;
                language := languageId document |}
      else None
  | Js.Throw _ => None
  end.

End Policy.

(** ** The web variants of the client and of the policy provider
       ([src/web/webExtension.ts]) *)

Module Web.
Import ApiClient.

(** The settings the web client reads: those of the base client and
    [webApiEndpoint]. *)
Record WebConfiguration := MkWebSettings {
  codessa : WorkspaceConfiguration;
  setting_webApiEndpoint : option string
}.

(** [a || b] for two settings that are strings when set:
    [config.get('webApiEndpoint') || config.get('apiEndpoint')]. *)
Definition or_setting (a b : option string) : option string :=
  match a with
  | Some s => if Js.truthy_string s then Some s else b
  | None => b
  end.

(** [instance.defaults.baseURL = u], where [u] may be [undefined]. *)
Definition assign_baseURL (u : option string) (i : Axios.Instance) : Axios.Instance :=
  {| Axios.baseURL := u;
     Axios.timeout := Axios.timeout i;
     Axios.headers := Axios.headers i;
     Axios.headers_common := Axios.headers_common i |}.

(** The three assignments under [// Add CORS headers for web requests]. *)
Definition add_cors_headers (i : Axios.Instance) : Axios.Instance :=
  Axios.set_common "Access-Control-Allow-Headers" "Content-Type, Authorization"
    (Axios.set_common "Access-Control-Allow-Methods" "GET, POST, PUT, DELETE, OPTIONS"
       (Axios.set_common "Access-Control-Allow-Origin" "*" i)).

(** [CodessaApiClient.configureWebHeaders(webEndpoint?)] *)
Definition configureWebHeaders (webEndpoint : option string) (this : CodessaApiClient)
  : CodessaApiClient :=
  match client this with
  | Some c =>
      let c1 := match webEndpoint with
                | Some u => if Js.truthy_string u then Axios.set_baseURL u c else c
                | None => c
                end in
      {| client := Some (add_cors_headers c1); config := config this |}
  | None => this
  end.

(** [WebCompatibleApiClient.setupWebCompatibility()]; [isWeb] is
    [vscode.env.uiKind === vscode.UIKind.Web]. *)
Definition setupWebCompatibility (isWeb : bool) (s : WebConfiguration)
    (this : CodessaApiClient) : CodessaApiClient :=
  if isWeb then
    let webEndpoint :=
      or_setting (setting_webApiEndpoint s) (setting_apiEndpoint (codessa s)) in
    match client this with
    | Some c =>
        {| client := Some (add_cors_headers (assign_baseURL webEndpoint c));
           config := config this |}
    | None => this
    end
  else this.

(** [WebCompatibleApiClient.updateConfiguration()]:
    [super.updateConfiguration(); this.setupWebCompatibility()]. *)
Definition updateConfiguration (isWeb : bool) (s : WebConfiguration)
    (this : CodessaApiClient) : CodessaApiClient :=
  setupWebCompatibility isWeb s (ApiClient.updateConfiguration (codessa s) this).

(** [new WebCompatibleApiClient()]: [super()] runs the base constructor,
    whose call [this.updateConfiguration()] is dispatched to the
    override above; then the constructor body calls
    [this.setupWebCompatibility()]. *)
Definition constructor (isWeb : bool) (s : WebConfiguration) : CodessaApiClient :=
  let this := updateConfiguration isWeb s uninitialised in
  let this := {| client := Some (Axios.create create_config);
                 config := config this |} in
  setupWebCompatibility isWeb s this.

(** The web clients a program can hold, for a session that is or is not
    a web session. *)
Inductive constructed (isWeb : bool) : CodessaApiClient -> Prop :=
| constructed_new s : constructed isWeb (constructor isWeb s)
| constructed_update s this :
    constructed isWeb this -> constructed isWeb (updateConfiguration isWeb s this).

(** An entry of [vscode.workspace.textDocuments]. *)
Record OpenDocument := MkOpenDocument {
  document : Policy.TextDocument;
  isUntitled : bool
}.

(** What the web provider does to the outside: what the desktop provider
    does, and its own progress and completion messages (which speak of
    open files). *)
Inductive Effect :=
| Desktop (e : Policy.Effect)
| ProgressReportOpenFiles (completed total : nat)
| ShowInformationOpenFiles (completed : nat).

(** [vscode.workspace.textDocuments.filter(doc => !doc.isUntitled &&
    doc.uri.scheme === 'vscode-vfs')] *)
Definition openDocuments (textDocuments : list OpenDocument) : list Policy.TextDocument :=
  map document
    (List.filter
       (fun doc => negb (isUntitled doc)
                   && String.eqb (Policy.scheme (Policy.uri (document doc))) "vscode-vfs")
       textDocuments).

(** The loop over the open documents in web mode. *)
Fixpoint scan (host : Policy.Host) (total : nat) (documents : list Policy.TextDocument)
    (completed : nat) (collection : Policy.DiagnosticCollection)
  : nat * Policy.DiagnosticCollection * list Effect :=
  match documents with
  | [] => (completed, collection, [])
  | doc :: rest =>
      if Policy.isCancellationRequested host completed then (completed, collection, [])
      else
        let (collection1, done) := Policy.checkDocumentPolicies host doc collection in
        let completed1 := S completed in
        let '(completed2, collection2, later) :=
          scan host total rest completed1 collection1 in
        (completed2, collection2,
         map Desktop done ++ ProgressReportOpenFiles completed1 total :: later)
  end.

(** [WebCompatiblePolicyProvider.checkAllPolicies()] *)
Definition checkAllPolicies (isWeb : bool) (host : Policy.Host)
    (textDocuments : list OpenDocument) (collection : Policy.DiagnosticCollection)
  : Policy.DiagnosticCollection * list Effect :=
  if isWeb then
    let documents := openDocuments textDocuments in
    match documents with
    | [] =>
        (collection,
         [Desktop (Policy.ShowWarningMessage
            "No files are currently open. Please open files to check policies in web mode.")])
    | _ :: _ =>
        let total := length documents in
        let '(completed, collection', done) := scan host total documents 0 collection in
        (collection',
         Desktop (Policy.ProgressOpened "Checking GitGuard Policies (Web Mode)") ::
         done ++
         (if negb (Policy.isCancellationRequested host completed)
          then [ShowInformationOpenFiles completed] else []) ++
         [Desktop Policy.ProgressClosed])
    end
  else
    let (collection', done) := Policy.checkAllPolicies host collection in
    (collection', map Desktop done).

(** The checks a run of the web provider sent. *)
Definition checks_sent (es : list Effect) : list Policy.PolicyCheckRequest :=
  omap (fun e => match e with
                 | Desktop (Policy.CheckPolicies r) => Some r
                 | _ => None
                 end) es.

End Web.

(** ** The message bridge of the Monaco editor panel
       (class [MonacoEditorProvider]) *)

Module Monaco.
Import ApiClient.

(** The [data] of an [ai-assist] message, as the script of the panel
    posts it. *)
Record AssistData := MkAssistData {
  assist_requestId : Js.value;
  prompt : string;
  assist_fileName : string;
  assist_selectedText : string
}.

(** The messages the provider posts to the panel, by their [type]. *)
Inductive WebviewMessage :=
| AiResponse (requestId : Js.value) (response actions : Js.value)
| AiError (requestId : Js.value) (error : string).

(** [s || 'monaco-editor.ts'] *)
Definition file_or_default (s : string) : string :=
  if Js.truthy_string s then s else "monaco-editor.ts".

(** The request [handleAiAssist] builds; [workspaceRoot] is
    [vscode.workspace.workspaceFolders?.[0]?.uri.fsPath]. *)
Definition assist_request (workspaceRoot : option string) (data : AssistData)
  : ChatRequest :=
  {| message := prompt data;
     context := Some {| ApiClient.workspaceRoot := workspaceRoot;
                        activeFile := Some (file_or_default (assist_fileName data));
                        selectedText := Some (assist_selectedText data);
                        openFiles := None |};
     stream := None |}.

(** [handleAiAssist(panel, data)]: what the client did, and what was
    posted to the panel.  [sendChatMessage] is called without
    callbacks. *)
Definition handleAiAssist (this : CodessaApiClient) (net : Network)
    (workspaceRoot : option string) (data : AssistData)
  : list ApiClient.Effect * list WebviewMessage :=
  let out := sendChatMessage this net (assist_request workspaceRoot data) None None in
  let failed (error : Js.Error) := [AiError (assist_requestId data) (Js.message error)] in
  (effects out,
   match result out with
   | Fulfilled response =>
       match Js.get response "content" with
       | Js.Normal content =>
           match Js.get response "actions" with
           | Js.Normal acts => [AiResponse (assist_requestId data) content acts]
           | Js.Throw error => failed error
           end
       | Js.Throw error => failed error
       end
   | Rejected error => failed error
   | Pending => []
   end).

(** The [requestId] a message to the panel carries. *)
Definition requestId_of (m : WebviewMessage) : Js.value :=
  match m with
  | AiResponse r _ _ | AiError r _ => r
  end.

End Monaco.

(** ** The chat participant (class [CodessaChatParticipant]) *)

Module Chat.
Import ApiClient.

(** [vscode.window.activeTextEditor], as far as it is read. *)
Record Editor := MkEditor {
  editor_fileName : string;
  selection_isEmpty : bool;
  selection_text : string
}.

(** The parts of the workspace [gatherWorkspaceContext] looks at;
    folders are given by the [fsPath] of their [uri]. *)
Record Workspace := MkWorkspace {
  workspaceFolders : option (list string);
  activeTextEditor : option Editor;
  textDocuments : list Web.OpenDocument
}.

(** [gatherWorkspaceContext()] *)
Definition gatherWorkspaceContext (w : Workspace) : ChatContext :=
  {| workspaceRoot :=
       match workspaceFolders w with
       | Some (root :: _) => Some root
       | _ => None
       end;
     activeFile :=
       match activeTextEditor w with
       | Some editor => Some (editor_fileName editor)
       | None => None
       end;
     selectedText :=
       match activeTextEditor w with
       | Some editor =>
           if selection_isEmpty editor then None else Some (selection_text editor)
       | None => None
       end;
     openFiles :=
       Some (map (fun doc => Policy.fileName (Web.document doc))
               (List.filter
                  (fun doc => negb (Web.isUntitled doc)
                              && String.eqb
                                   (Policy.scheme (Policy.uri (Web.document doc))) "file")
                  (textDocuments w))) |}.

(** What [handleChatRequest] itself writes to the chat response stream
    and to the console, in order: the progress note, the markdown of the
    chunk callback, and the output of its [catch] clause.  What
    [handleAction] writes while it carries out an action is not part of
    it. *)
Inductive Output :=
| Progress (text : string)
| MarkdownChunk (chunk : Js.value)
| MarkdownText (text : string)
| LogError (label : string) (e : Js.Error).

(** The [catch] clause of [handleChatRequest]; every rejection of the
    client is an [Error] object. *)
Definition render_error (e : Js.Error) : list Output :=
  [LogError "Error in chat request:" e;
   MarkdownText ("❌ **Error**: " +:+ Js.message e)].

(** The continuation of [await this.apiClient.sendChatMessage(...)]: it
    runs once, when the promise has settled, and only a rejection makes
    it write anything.  [awaiting] says whether it has still to run. *)
Definition resume (awaiting : bool) (p : PromiseState) : bool * list Output :=
  if awaiting then
    match p with
    | Pending => (true, [])
    | Fulfilled _ => (false, [])
    | Rejected e => (false, render_error e)
    end
  else (false, []).

(** What the chunk callback [(chunk) => { stream.markdown(chunk); }]
    wrote during some effects of the client: one markdown part for each
    invocation in which [stream.markdown] returned. *)
Definition rendered (new : list Effect) : list Output :=
  omap (fun e => match e with
                 | OnChunk chunk (Returned _) => Some (MarkdownChunk chunk)
                 | _ => None
                 end) new.

(** The handler's output while the events of a streaming call arrive:
    after each event, what the chunk callback rendered during it, then
    the continuation of the [await] if the promise settled during it. *)
Fixpoint follow (markdown handleAction : Callback) (history : list Event)
    (st : StreamState) (awaiting : bool) : list Output :=
  match history with
  | [] => []
  | ev :: rest =>
      let st' := step markdown (Some handleAction) st ev in
      let new := drop (length (trace st)) (trace st') in
      let (awaiting', shown) := resume awaiting (promise st') in
      rendered new ++ shown ++ follow markdown handleAction rest st' awaiting'
  end.

(** The [ChatRequest] built from the prompt. *)
Definition chat_request (w : Workspace) (prompt : string) : ChatRequest :=
  {| message := prompt;
     context := Some (gatherWorkspaceContext w);
     stream := Some true |}.

(** [handleChatRequest(request, context, stream, token)]: the effects of
    the client call it makes, and what it writes.  [markdown] is what
    [stream.markdown(chunk)] does when the chunk callback calls it,
    [handleAction] what the action callback
    [async (action) => { await this.handleAction(action, stream); }]
    does up to the point where it returns its promise. *)
Definition handleChatRequest (this : CodessaApiClient) (net : Network)
    (w : Workspace) (prompt : string) (markdown handleAction : Callback)
  : list Effect * list Output :=
  let request := chat_request w prompt in
  let out := sendChatMessage this net request (Some markdown) (Some handleAction) in
  (effects out,
   Progress "Thinking..." ::
   match config this with
   | Some cfg =>
       if streamResponses cfg then
         let st := streamChatMessage this cfg request in
         let (awaiting, shown) := resume true (promise st) in
         shown ++ follow markdown handleAction (history net) st awaiting
       else snd (resume true (result out))
   | None => snd (resume true (result out))
   end).

(** The error messages written to the chat. *)
Definition errors_shown (out : list Output) : list string :=
  omap (fun o => match o with MarkdownText t => Some t | _ => None end) out.

(** The chunks written to the chat. *)
Definition chunks_shown (out : list Output) : list Js.value :=
  omap (fun o => match o with MarkdownChunk v => Some v | _ => None end) out.

End Chat.

(** ** Further vocabulary for properties of the code *)

Module Observations.

(** Both callbacks supplied, or both left out. *)
Definition same_presence {A B} (a : option A) (b : option B) : bool :=
  match a, b with
  | Some _, Some _ | None, None => true
  | _, _ => false
  end.

(** An optional end coordinate that [new vscode.Range] accepts after
    [updateDiagnostics] has taken one off it (zero counts as absent). *)
Definition end_accepted (n : option Z) : bool :=
  match n with
  | Some v => (0 <=? v)%Z
  | None => true
  end.

(** A violation whose 1-based position gives legal 0-based coordinates. *)
Definition well_positioned (v : Policy.PolicyViolation) : bool :=
  (1 <=? Policy.line v)%Z && (1 <=? Policy.column v)%Z
  && end_accepted (Policy.endLine v) && end_accepted (Policy.endColumn v).

(** [null] or [undefined]: the values a property read throws on. *)
Definition nullish (v : Js.value) : bool :=
  match v with
  | Js.Undefined | Js.Null => true
  | _ => false
  end.

(** The messages of a history, in order. *)
Definition messages_of (history : list ApiClient.Event) : list ApiClient.MessageEvent :=
  omap (fun ev => match ev with ApiClient.Message event => Some event | _ => None end)
       history.

(** What the array [actions] holds after a history: the actions of all
    its action envelopes when an [onAction] callback was supplied,
    nothing otherwise. *)
Definition pushed_actions (onAction : option ApiClient.Callback)
    (history : list ApiClient.Event) : list Js.value :=
  match onAction with
  | Some _ => ApiClient.actions_of (messages_of history)
  | None => []
  end.

(** [Number.isSafeInteger] on a whole number. *)
Definition safe_integer (z : Z) : bool := (Z.abs z <=? 9007199254740991)%Z.

(** An optional number that the conditional operator treats as false. *)
Definition absent_or_zero (n : option Z) : bool :=
  match n with
  | Some v => (v =? 0)%Z
  | None => true
  end.

(** The request [checkDocumentPolicies] builds from a document. *)
Definition request_of (document : Policy.TextDocument) : Policy.PolicyCheckRequest :=
  {| Policy.filePath := Policy.fileName document;
     Policy.content := Policy.getText document;
     Policy.language := Policy.languageId document |}.

(** Projections of the effects of a scan. *)
Definition progress_reports (es : list Policy.Effect) : list (nat * nat) :=
  omap (fun e => match e with
                 | Policy.ProgressReport c t => Some (c, t)
                 | _ => None
                 end) es.

Definition completion_messages (es : list Policy.Effect) : list nat :=
  omap (fun e => match e with
                 | Policy.ShowInformationMessage c => Some c
                 | _ => None
                 end) es.

Definition error_messages (es : list Policy.Effect) : list string :=
  omap (fun e => match e with
                 | Policy.ShowErrorMessage t => Some t
                 | _ => None
                 end) es.

(** The documents that the files of a scan open as. *)
Definition documents_of (host : Policy.Host) (files : list Policy.Uri)
  : list Policy.TextDocument :=
  omap (fun file => match Policy.openTextDocument host file with
                    | Js.Normal document => Some document
                    | Js.Throw _ => None
                    end) files.

(** The completion messages of a run of the web provider. *)
Definition web_completion_messages (es : list Web.Effect) : list nat :=
  omap (fun e => match e with
                 | Web.ShowInformationOpenFiles c => Some c
                 | _ => None
                 end) es.

(** The token answers no at every point where a run over [n] items
    can read it. *)
Definition never_cancelled (host : Policy.Host) (n : nat) : bool :=
  forallb (fun i => negb (Policy.isCancellationRequested host i)) (seq 0 (S n)).

End Observations.

(** ** Concrete values used to exercise the properties *)

Module Examples.
Import ApiClient.

Definition settings_with_key : WorkspaceConfiguration :=
  {| setting_apiEndpoint := None;
     setting_apiKey := Some "test-api-key";
     setting_streamResponses := None |}.

Definition settings_without_key : WorkspaceConfiguration :=
  {| setting_apiEndpoint := None;
     setting_apiKey := Some "";
     setting_streamResponses := None |}.

Definition settings_sync : WorkspaceConfiguration :=
  {| setting_apiEndpoint := None;
     setting_apiKey := Some "test-api-key";
     setting_streamResponses := Some false |}.

Definition hello : ChatRequest :=
  {| message := "Hello, world!"; context := None; stream := None |}.

Definition client_streaming : CodessaApiClient := constructor settings_with_key.

Definition config_streaming : CodessaConfig :=
  {| apiEndpoint := "https://api.codessa.dev";
     apiKey := "test-api-key";
     streamResponses := true |}.

Definition client_sync : CodessaApiClient := constructor settings_sync.

Definition config_sync : CodessaConfig :=
  {| apiEndpoint := "https://api.codessa.dev";
     apiKey := "test-api-key";
     streamResponses := false |}.

Definition content_message (c : string) : MessageEvent :=
  Parsed (Js.Object [("type", Js.Str "content"); ("content", Js.Str c)]).

Definition action_message (a : Js.value) : MessageEvent :=
  Parsed (Js.Object [("type", Js.Str "action"); ("action", a)]).

Definition done_message : MessageEvent :=
  Parsed (Js.Object [("type", Js.Str "done")]).

Definition ping_message : MessageEvent :=
  Parsed (Js.Object [("type", Js.Str "ping")]).

Definition garbled_message : MessageEvent :=
  Unparseable (Js.MkError "SyntaxError" "Unexpected token").

Definition edit_action : Js.value :=
  Js.Object [("type", Js.Str "edit"); ("target", Js.Str "test.ts")].

Definition greeting : Js.value :=
  Js.Object [("content", Js.Str "Hello! How can I help?")].

(** A callback that returns with nothing left to do, and one that
    returns with work still pending (an [async] handler). *)
Definition immediate : Callback := fun _ _ => Returned false.
Definition deferred : Callback := fun _ _ => Returned true.

(** A transport that answers every POST with [greeting], followed by the
    given events. *)
Definition network (events : list Event) : Network :=
  {| respond := fun _ => Js.Normal greeting; history := events |}.

Definition file_a : Policy.Uri := Policy.MkUri "file" "/w/a.ts".
Definition file_b : Policy.Uri := Policy.MkUri "file" "/w/b.ts".
Definition file_c : Policy.Uri := Policy.MkUri "file" "/w/c.ts".

Definition unused_import : Policy.PolicyViolation :=
  {| Policy.rule := "no-unused";
     Policy.severity := "warning";
     Policy.message := "unused import";
     Policy.line := 1;
     Policy.column := 5;
     Policy.endLine := None;
     Policy.endColumn := None;
     Policy.fix_ := None |}.

(** A workspace of three TypeScript files, a backend that reports one
    violation per file, and a user who cancels once two files are done. *)
Definition cancelling_host : Policy.Host :=
  {| Policy.workspaceFolders := Some ["/w"];
     Policy.findFiles := [file_a; file_b; file_c];
     Policy.openTextDocument := fun file =>
       Js.Normal {| Policy.uri := file;
                    Policy.fileName := Policy.fsPath file;
                    Policy.getText := "import x";
                    Policy.languageId := "typescript" |};
     Policy.backend := fun _ => Js.Normal [unused_import];
     Policy.isCancellationRequested := fun completed => Nat.leb 2 completed |}.

(** More values, for the properties beyond the specification. *)

Definition settings_other_endpoint : WorkspaceConfiguration :=
  {| setting_apiEndpoint := Some "https://new-api.codessa.dev";
     setting_apiKey := Some "new-test-key";
     setting_streamResponses := Some false |}.

Definition bare_content_message : MessageEvent :=
  Parsed (Js.Object [("type", Js.Str "content")]).

Definition document_a : Policy.TextDocument :=
  {| Policy.uri := file_a;
     Policy.fileName := "/w/a.ts";
     Policy.getText := "import x";
     Policy.languageId := "typescript" |}.

Definition misplaced_violation : Policy.PolicyViolation :=
  {| Policy.rule := "no-todo";
     Policy.severity := "info";
     Policy.message := "todo left";
     Policy.line := 0;
     Policy.column := 1;
     Policy.endLine := None;
     Policy.endColumn := None;
     Policy.fix_ := None |}.

(** The workspace of [cancelling_host] with a user who never cancels,
    and one whose backend is down. *)
Definition patient_host : Policy.Host := Policy.uninterrupted cancelling_host.

Definition failing_host : Policy.Host :=
  {| Policy.workspaceFolders := Some ["/w"];
     Policy.findFiles := [file_a; file_b; file_c];
     Policy.openTextDocument := Policy.openTextDocument cancelling_host;
     Policy.backend := fun _ => Js.Throw (Js.new_Error "Network Error");
     Policy.isCancellationRequested := fun _ => false |}.

Definition misplacing_host : Policy.Host :=
  {| Policy.workspaceFolders := Some ["/w"];
     Policy.findFiles := [file_a];
     Policy.openTextDocument := Policy.openTextDocument cancelling_host;
     Policy.backend := fun _ => Js.Normal [unused_import; misplaced_violation];
     Policy.isCancellationRequested := fun _ => false |}.

Definition web_settings : Web.WebConfiguration :=
  {| Web.codessa := settings_with_key;
     Web.setting_webApiEndpoint := Some "https://web.codessa.dev" |}.

Definition vfs_a : Web.OpenDocument :=
  {| Web.document :=
       {| Policy.uri := Policy.MkUri "vscode-vfs" "/repo/a.ts";
          Policy.fileName := "/repo/a.ts";
          Policy.getText := "import x";
          Policy.languageId := "typescript" |};
     Web.isUntitled := false |}.

Definition assist_data : Monaco.AssistData :=
  {| Monaco.assist_requestId := Js.Number "1700000000000";
     Monaco.prompt := "Explain this code";
     Monaco.assist_fileName := "";
     Monaco.assist_selectedText := "let x = 1" |}.

Definition workspace : Chat.Workspace :=
  {| Chat.workspaceFolders := Some ["/w"];
     Chat.activeTextEditor := None;
     Chat.textDocuments := [] |}.

End Examples.

(** * Properties *)

(** ** Configuration refresh and the shared request defaults *)

Module Configuration.
Import ApiClient Examples.

Lemma get_unset {A} (d : A) : get None d = d.
Proof. reflexivity. Qed.

Lemma authorization_bearer (s : WorkspaceConfiguration) (cfg : CodessaConfig) :
  apiKey cfg = get (setting_apiKey s) "" ->
  authorization cfg = bearer (setting_apiKey s).
Proof.
  unfold authorization, bearer, get. intros ->.
  destruct (setting_apiKey s) as [[|a k]|]; reflexivity.
Qed.

(** A constructed object always has its client, and refreshing never
    touches the header entries given to [axios.create]. *)
Lemma constructed_client (this : CodessaApiClient) :
  constructed this ->
  exists c cfg, client this = Some c /\ config this = Some cfg
                /\ Axios.headers c = Axios.cc_headers create_config.
Proof.
  induction 1 as [s | s this _ (c & cfg & Hc & Hcfg & Hh)].
  - eexists _, _. repeat split; reflexivity.
  - unfold updateConfiguration. rewrite Hc. eexists _, _.
    repeat split; try reflexivity. exact Hh.
Qed.

Lemma create_headers_no_authorization :
  Axios.cc_headers create_config !! "Authorization" = None.
Proof. reflexivity. Qed.

Lemma post_authorization {Body} (c : Axios.Instance) (url : string) (body : Body) :
  Axios.headers c !! "Authorization" = None ->
  Axios.req_headers (Axios.post c url body) !! "Authorization"
  = Axios.headers_common c !! "Authorization".
Proof. intros H. unfold Axios.post; simpl. by apply lookup_union_r. Qed.

(** C10.  Right after the constructor returns, the defaults of the shared
    HTTP client hold no base URL and no Authorization entry, whatever
    endpoint and credential the settings provider supplied (they are
    held in [config] only); they reach the client's defaults with the
    next call of [updateConfiguration]. *)
Theorem constructor_defaults_unconfigured
    (s s' : WorkspaceConfiguration) (url : string) (body : ChatRequest) :
  exists c cfg c',
    client (constructor s) = Some c
    /\ config (constructor s) = Some cfg
    /\ apiEndpoint cfg = get (setting_apiEndpoint s) "https://api.codessa.dev"
    /\ apiKey cfg = get (setting_apiKey s) ""
    /\ Axios.baseURL c = None
    /\ Axios.headers c !! "Authorization" = None
    /\ Axios.headers_common c !! "Authorization" = None
    /\ no_authorization (Axios.post c url body)
    /\ Axios.req_baseURL (Axios.post c url body) = None
    /\ client (updateConfiguration s' (constructor s)) = Some c'
    /\ Axios.baseURL c' = Some (get (setting_apiEndpoint s') "https://api.codessa.dev")
    /\ Axios.headers_common c' !! "Authorization" = Some (bearer (setting_apiKey s')).
Proof.
  eexists _, _, _. split; [reflexivity|]. split; [reflexivity|].
  split; [reflexivity|]. split; [reflexivity|]. split; [reflexivity|].
  split; [reflexivity|]. split; [reflexivity|]. split; [reflexivity|].
  split; [reflexivity|]. split; [reflexivity|]. split; [reflexivity|].
  simpl. rewrite lookup_insert_eq. f_equal. by apply authorization_bearer.
Qed.

(** C8, as the code has it.  After [updateConfiguration] runs on a
    constructed client, the Authorization entry of the shared defaults is
    rewritten from the credential just read, so no earlier token
    survives.  With an absent or empty credential the entry is the empty
    string, and the POSTs of the client carry an Authorization header
    whose value is the empty string; with a credential they carry
    [Bearer <credential>], and the header table handed to
    [new EventSource] lists the same value. *)
Theorem updateConfiguration_authorization
    (s : WorkspaceConfiguration) (this : CodessaApiClient)
    (url : string) (body : ChatRequest) :
  constructed this ->
  exists c cfg,
    client (updateConfiguration s this) = Some c
    /\ config (updateConfiguration s this) = Some cfg
    /\ Axios.headers_common c !! "Authorization" = Some (bearer (setting_apiKey s))
    /\ Axios.req_headers (Axios.post c url body) !! "Authorization"
       = Some (bearer (setting_apiKey s))
    /\ (forall k, setting_apiKey s = Some k -> k <> "" ->
          Axios.req_headers (Axios.post c url body) !! "Authorization"
          = Some ("Bearer " +:+ k)
          /\ eventsource_headers cfg !! "Authorization" = Some ("Bearer " +:+ k)).
Proof.
  intros Hthis.
  destruct (constructed_client this Hthis) as (c0 & cfg0 & Hc & _ & Hh).
  unfold updateConfiguration. rewrite Hc. eexists _, _.
  split; [reflexivity|]. split; [reflexivity|].
  assert (Hcommon :
    Axios.headers_common
      (Axios.set_common "Authorization"
         (authorization
            (MkConfig (get (setting_apiEndpoint s) "https://api.codessa.dev")
                      (get (setting_apiKey s) "")
                      (get (setting_streamResponses s) true)))
         (Axios.set_baseURL (get (setting_apiEndpoint s) "https://api.codessa.dev") c0))
      !! "Authorization" = Some (bearer (setting_apiKey s))).
  { simpl. rewrite lookup_insert_eq. f_equal. by apply authorization_bearer. }
  assert (Hpost :
    Axios.req_headers
      (Axios.post
         (Axios.set_common "Authorization"
            (authorization
               (MkConfig (get (setting_apiEndpoint s) "https://api.codessa.dev")
                         (get (setting_apiKey s) "")
                         (get (setting_streamResponses s) true)))
            (Axios.set_baseURL (get (setting_apiEndpoint s) "https://api.codessa.dev") c0))
         url body)
      !! "Authorization" = Some (bearer (setting_apiKey s))).
  { rewrite post_authorization; [exact Hcommon|].
    simpl. rewrite Hh. apply create_headers_no_authorization. }
  split; [exact Hcommon|]. split; [exact Hpost|].
  intros k Hk Hne.
  assert (Hb : bearer (setting_apiKey s) = "Bearer " +:+ k).
  { rewrite Hk. by destruct k. }
  split; [by rewrite <- Hb|].
  unfold eventsource_headers. rewrite lookup_insert_eq. f_equal.
  rewrite <- Hb. by apply authorization_bearer.
Qed.

Lemma updateConfiguration_authorization_witness :
  exists c cfg,
    client (updateConfiguration settings_with_key (constructor settings_without_key)) = Some c
    /\ config (updateConfiguration settings_with_key (constructor settings_without_key)) = Some cfg
    /\ Axios.headers_common c !! "Authorization" = Some "Bearer test-api-key"
    /\ Axios.req_headers (Axios.post c "/chat" hello) !! "Authorization"
       = Some "Bearer test-api-key"
    /\ eventsource_headers cfg !! "Authorization" = Some "Bearer test-api-key".
Proof.
  destruct (updateConfiguration_authorization settings_with_key
              (constructor settings_without_key) "/chat" hello (constructed_new _))
    as (c & cfg & Hc & Hcfg & Hcommon & Hpost & Hkey).
  exists c, cfg. split; [exact Hc|]. split; [exact Hcfg|].
  split; [exact Hcommon|]. split; [exact Hpost|].
  apply (Hkey "test-api-key"); [reflexivity|discriminate].
Defined.

(** C8, as the specification words it, fails: after a refresh with an
    empty credential a POST does carry an Authorization header, with
    the empty string as its value. *)
Lemma empty_credential_sends_authorization :
  exists c,
    client (updateConfiguration settings_without_key (constructor settings_with_key)) = Some c
    /\ ~ no_authorization (Axios.post c "/chat" hello)
    /\ Axios.req_headers (Axios.post c "/chat" hello) !! "Authorization" = Some "".
Proof.
  eexists. split; [reflexivity|].
  split; [|vm_compute; reflexivity].
  unfold no_authorization. vm_compute. discriminate.
Qed.

End Configuration.

(** ** The streaming reader *)

Module Streaming.
Import ApiClient Examples.

Lemma append_assoc (a b c : string) : (a +:+ b) +:+ c = a +:+ (b +:+ c).
Proof.
  induction a as [|x a IH]; [reflexivity|].
  change (String x ((a +:+ b) +:+ c) = String x (a +:+ b +:+ c)). by rewrite IH.
Qed.

Lemma append_empty_r (a : string) : a +:+ "" = a.
Proof.
  induction a as [|x a IH]; [reflexivity|].
  change (String x (a +:+ "") = String x a). by rewrite IH.
Qed.

Ltac unfold_handler :=
  cbv [onmessage try_catch hbind eval read update call ret JSON_parse].

(** *** Projections of a trace distribute over its growth *)

Lemma invocations_app es es' :
  invocations (es ++ es') = invocations es ++ invocations es'.
Proof. apply omap_app. Qed.

Lemma chunk_calls_app es es' :
  chunk_calls (es ++ es') = chunk_calls es ++ chunk_calls es'.
Proof. apply omap_app. Qed.

Lemma action_calls_app es es' :
  action_calls (es ++ es') = action_calls es ++ action_calls es'.
Proof. apply omap_app. Qed.

Lemma logged_app es es' : logged (es ++ es') = logged es ++ logged es'.
Proof. apply omap_app. Qed.

Lemma posts_app es es' : posts (es ++ es') = posts es ++ posts es'.
Proof. apply omap_app. Qed.

Lemma opens_app es es' : opens (es ++ es') = opens es + opens es'.
Proof. unfold opens. by rewrite omap_app, length_app. Qed.

Lemma closes_app es es' : closes (es ++ es') = closes es + closes es'.
Proof. unfold closes. by rewrite omap_app, length_app. Qed.

Ltac trace_app :=
  rewrite ?invocations_app, ?chunk_calls_app, ?action_calls_app, ?logged_app,
    ?posts_app, ?opens_app, ?closes_app; simpl;
  rewrite ?app_nil_r, ?Nat.add_0_r.

(** *** One message, by kind of envelope *)

Lemma has_type_Str s event :
  has_type s event = true ->
  exists data, event = Parsed data /\ Js.get data "type" = Js.Normal (Js.Str s).
Proof.
  unfold has_type, type_of. destruct event as [e|data]; [discriminate|].
  destruct (Js.get data "type") as [[]|] eqn:Ht; simpl; try discriminate.
  intros H%String.eqb_eq. subst. eauto.
Qed.

Lemma has_type_other s s' event :
  has_type s event = true -> s <> s' -> has_type s' event = false.
Proof.
  intros (data & -> & H)%has_type_Str Hne. unfold has_type, type_of.
  rewrite H. simpl. by apply String.eqb_neq.
Qed.

Lemma onmessage_content f g event c st :
  content_envelope c event ->
  fst (onmessage f g event st)
  = after_call OnChunk f (Js.Str c) (set_fullContent (fullContent st +:+ c) st).
Proof.
  intros [(data & -> & Ht)%has_type_Str Hp]. unfold payload in Hp.
  unfold_handler. rewrite Ht. simpl.
  destruct (Js.get data "content") as [v|]; [|discriminate]. subst v. simpl.
  unfold after_call. by destruct (f _ _).
Qed.

Lemma onmessage_action f h event a st :
  action_envelope a event ->
  fst (onmessage f (Some h) event st) = after_call OnAction h a (push_action a st).
Proof.
  intros [(data & -> & Ht)%has_type_Str Hp]. unfold payload in Hp.
  unfold_handler. rewrite Ht. simpl.
  destruct (Js.get data "action") as [v|] eqn:Hget; [|by destruct data].
  subst v. simpl. unfold after_call. by destruct (h _ _).
Qed.

Lemma onmessage_action_unhandled f event st :
  has_type "action" event = true ->
  fst (onmessage f None event st) = st.
Proof.
  intros (data & -> & Ht)%has_type_Str. unfold_handler. by rewrite Ht.
Qed.

Lemma onmessage_done f g event st :
  done_envelope event ->
  fst (onmessage f g event st)
  = resolve (chat_response (fullContent st) (actions st)) (close st).
Proof.
  intros (data & -> & Ht)%has_type_Str.
  unfold_handler. rewrite Ht. simpl. by destruct g.
Qed.

Lemma onmessage_unrecognised f g event st :
  unrecognised event = true ->
  fst (onmessage f g event st)
  = MkStream (fullContent st) (actions st) (promise st) (closed st)
             (trace st ++ ignored_log event).
Proof.
  unfold unrecognised, has_type, type_of, ignored_log.
  destruct event as [e|data]; [reflexivity|]. unfold_handler.
  destruct (Js.get data "type") as [ty|] eqn:Ht; [|reflexivity].
  intros H. apply negb_true_iff in H. apply orb_false_iff in H as [H Hd].
  apply orb_false_iff in H as [Hc Ha]. rewrite Hc, Ha, Hd. simpl.
  rewrite app_nil_r. by destruct st, g.
Qed.

(** A content envelope, whatever its [content] member is: only the
    accumulated text and the trace can change. *)
Lemma onmessage_content_any f g event st :
  has_type "content" event = true ->
  let st' := fst (onmessage f g event st) in
  actions st' = actions st /\ promise st' = promise st /\ closed st' = closed st
  /\ action_calls (trace st') = action_calls (trace st)
  /\ opens (trace st') = opens (trace st)
  /\ posts (trace st') = posts (trace st)
  /\ closes (trace st') = closes (trace st).
Proof.
  intros (data & -> & Ht)%has_type_Str. unfold_handler. rewrite Ht. simpl.
  repeat (case_match; simpl in *; simplify_eq); simpl; trace_app; done.
Qed.

(** The two callbacks are the only source of difference between runs
    whose states agree on their [core]. *)
Lemma core_step f g ev st1 st2 :
  core st1 = core st2 -> core (step f g st1 ev) = core (step f g st2 ev).
Proof.
  unfold core. destruct st1 as [f1 a1 p1 c1 t1], st2 as [f2 a2 p2 c2 t2]; simpl.
  intros H. injection H as -> -> -> -> Hi.
  destruct ev as [event| |e|k]; simpl; [| | by rewrite Hi..].
  - unfold_handler; simpl.
    repeat (case_match; cbn in *; simplify_eq);
      unfold invocations in *; cbn; rewrite ?omap_app; cbn;
      rewrite ?app_nil_r, ?Hi; reflexivity.
  - by rewrite !invocations_app, Hi.
Qed.

Lemma core_run f g history st1 st2 :
  core st1 = core st2 -> core (run f g history st1) = core (run f g history st2).
Proof.
  revert st1 st2. induction history as [|ev history IH]; intros st1 st2 H; [exact H|].
  simpl. apply IH. by apply core_step.
Qed.

Lemma run_app f g h1 h2 st :
  run f g (h1 ++ h2) st = run f g h2 (run f g h1 st).
Proof. apply fold_left_app. Qed.


(** *** What a callback invocation changes *)

Lemma after_call_fields record f arg st :
  let st' := after_call record f arg st in
  fullContent st' = fullContent st /\ actions st' = actions st
  /\ promise st' = promise st /\ closed st' = closed st
  /\ exists out log,
       trace st' = trace st ++ record arg out :: log
       /\ Forall (fun e => exists l d, e = ConsoleError l d) log.
Proof.
  unfold after_call. destruct (f (trace st) arg) as [w|e]; simpl;
    repeat split; eexists _, _; split;
    try reflexivity; [constructor | rewrite <- app_assoc; reflexivity | ].
  constructor; [eauto | constructor].
Qed.

Lemma console_only_projections log :
  Forall (fun e => exists l d, e = ConsoleError l d) log ->
  chunk_calls log = [] /\ action_calls log = [] /\ invocations log = []
  /\ posts log = [] /\ opens log = 0 /\ closes log = 0.
Proof.
  induction 1 as [|e log (l & d & ->) _ (? & ? & ? & ? & ? & ?)]; [done|].
  unfold opens, closes in *. cbn. repeat split; try done.
Qed.

Lemma after_OnChunk f arg st :
  let st' := after_call OnChunk f arg st in
  chunk_calls (trace st') = chunk_calls (trace st) ++ [arg]
  /\ action_calls (trace st') = action_calls (trace st)
  /\ posts (trace st') = posts (trace st)
  /\ opens (trace st') = opens (trace st)
  /\ closes (trace st') = closes (trace st).
Proof.
  cbv zeta.
  destruct (after_call_fields OnChunk f arg st) as (_ & _ & _ & _ & out & log & -> & Hlog).
  apply console_only_projections in Hlog as (Hc & Ha & _ & Hp & Ho & Hcl).
  change (trace st ++ OnChunk arg out :: log)
    with (trace st ++ [OnChunk arg out] ++ log).
  trace_app. rewrite Hc, Ha, Hp, Ho, Hcl. cbn. rewrite ?app_nil_r. by rewrite !Nat.add_0_r.
Qed.

Lemma after_OnAction f arg st :
  let st' := after_call OnAction f arg st in
  chunk_calls (trace st') = chunk_calls (trace st)
  /\ action_calls (trace st') = action_calls (trace st) ++ [arg]
  /\ posts (trace st') = posts (trace st)
  /\ opens (trace st') = opens (trace st)
  /\ closes (trace st') = closes (trace st).
Proof.
  cbv zeta.
  destruct (after_call_fields OnAction f arg st) as (_ & _ & _ & _ & out & log & -> & Hlog).
  apply console_only_projections in Hlog as (Hc & Ha & _ & Hp & Ho & Hcl).
  change (trace st ++ OnAction arg out :: log)
    with (trace st ++ [OnAction arg out] ++ log).
  trace_app. rewrite Hc, Ha, Hp, Ho, Hcl. cbn. rewrite ?app_nil_r. by rewrite !Nat.add_0_r.
Qed.


(** *** Runs of messages *)

Lemma step_message_open f g event st :
  closed st = false -> step f g st (Message event) = fst (onmessage f g event st).
Proof. done. Qed.

Lemma run_contents f g cs events st :
  Forall2 content_envelope cs events ->
  closed st = false ->
  let st' := run f g (map Message events) st in
  fullContent st' = fullContent st +:+ concatenation cs
  /\ actions st' = actions st
  /\ promise st' = promise st
  /\ closed st' = false
  /\ chunk_calls (trace st') = chunk_calls (trace st) ++ map Js.Str cs
  /\ action_calls (trace st') = action_calls (trace st).
Proof.
  intros H. revert st.
  induction H as [|c event cs events Hc _ IH]; intros st Hopen; cbv zeta.
  - simpl. rewrite append_empty_r, app_nil_r. done.
  - simpl. rewrite (onmessage_content _ _ _ _ _ Hc).
    set (st0 := set_fullContent (fullContent st +:+ c) st).
    destruct (after_call_fields OnChunk f (Js.Str c) st0) as (Hf & Ha & Hp & Hcl & _).
    destruct (after_OnChunk f (Js.Str c) st0) as (Hcc & Hac & _).
    cbv zeta in *.
    destruct (IH (after_call OnChunk f (Js.Str c) st0)) as (IHf & IHa & IHp & IHc & IHcc & IHac).
    { by rewrite Hcl. }
    fold (run f g (map Message events) (after_call OnChunk f (Js.Str c) st0)).
    rewrite IHf, IHa, IHp, IHc, IHcc, IHac, Hf, Ha, Hp, Hcc, Hac.
    subst st0. simpl. rewrite append_assoc, <- app_assoc. done.
Qed.

Lemma streamChatMessage_constructed this cfg request :
  constructed this ->
  exists c,
    client this = Some c
    /\ streamChatMessage this cfg request
       = MkStream "" [] Pending false
           [NewEventSource (apiEndpoint cfg +:+ "/chat/stream") (eventsource_headers cfg);
            Post (Axios.post c "/chat/stream/init" (with_stream request true))].
Proof.
  intros (c & ? & Hc & _)%Configuration.constructed_client.
  exists c. split; [done|]. unfold streamChatMessage. by rewrite Hc.
Qed.

Lemma sendChatMessage_streaming this cfg net request f g :
  config this = Some cfg ->
  streamResponses cfg = true ->
  sendChatMessage this net request (Some f) g
  = let st := run f g (history net) (streamChatMessage this cfg request) in
    {| effects := trace st; result := promise st |}.
Proof. intros Hcfg Hs. unfold sendChatMessage. by rewrite Hcfg, Hs. Qed.



(** The actions a run keeps: those of the action envelopes when an
    [onAction] callback was supplied, none otherwise. *)
Lemma actions_of_cons event events :
  actions_of (event :: events)
  = (if has_type "action" event then [payload "action" event] else [])
    ++ actions_of events.
Proof. unfold actions_of. cbn. by destruct (has_type "action" event). Qed.

Lemma ignored_log_console event :
  Forall (fun e => exists l d, e = ConsoleError l d) (ignored_log event).
Proof.
  unfold ignored_log. destruct event as [e|data]; [repeat constructor; eauto|].
  destruct (Js.get data "type"); repeat constructor; eauto.
Qed.

Lemma unrecognised_iff event :
  unrecognised event = true
  <-> has_type "content" event = false /\ has_type "action" event = false
      /\ has_type "done" event = false.
Proof.
  unfold unrecognised. rewrite negb_true_iff, !orb_false_iff. tauto.
Qed.

Lemma onmessage_not_done f g event st :
  has_type "done" event = false ->
  let st' := fst (onmessage f g event st) in
  let kept := match g with
              | Some _ => if has_type "action" event then [payload "action" event] else []
              | None => []
              end in
  actions st' = actions st ++ kept
  /\ (promise st' = promise st
      \/ closed st = true /\ promise st' = shared_actions (actions st') (promise st))
  /\ closed st' = closed st
  /\ action_calls (trace st') = action_calls (trace st) ++ kept
  /\ opens (trace st') = opens (trace st)
  /\ posts (trace st') = posts (trace st)
  /\ closes (trace st') = closes (trace st).
Proof.
  intros Hd. cbv zeta.
  destruct (has_type "content" event) eqn:Hc.
  - rewrite (has_type_other _ "action" _ Hc) by done.
    destruct (onmessage_content_any f g event st Hc) as (? & ? & ? & ? & ? & ? & ?).
    cbv zeta in *. destruct g; rewrite !app_nil_r; repeat split; auto.
  - destruct (has_type "action" event) eqn:Ha.
    + destruct g as [h|].
      * rewrite (onmessage_action f h event (payload "action" event) st) by done.
        set (st0 := push_action (payload "action" event) st).
        destruct (after_call_fields OnAction h (payload "action" event) st0)
          as (_ & Hac & Hp & Hcl & _).
        destruct (after_OnAction h (payload "action" event) st0)
          as (_ & Hcalls & Hposts & Hopens & Hcloses).
        cbv zeta in *. rewrite Hac, Hp, Hcl, Hcalls, Hposts, Hopens, Hcloses.
        subst st0. simpl. repeat split; auto.
        destruct (closed st); auto.
      * rewrite onmessage_action_unhandled by done. rewrite !app_nil_r.
        repeat split; auto.
    + rewrite onmessage_unrecognised by (apply unrecognised_iff; done). simpl.
      destruct (console_only_projections _ (ignored_log_console event))
        as (_ & Hac & _ & Hp & Ho & Hcl).
      trace_app. rewrite Hac, Hp, Ho, Hcl.
      destruct g; rewrite ?app_nil_r, ?Nat.add_0_r; repeat split; auto.
Qed.

Lemma onmessage_not_done_open f g event st :
  has_type "done" event = false ->
  closed st = false ->
  promise (fst (onmessage f g event st)) = promise st.
Proof.
  intros Hd Hopen.
  destruct (onmessage_not_done f g event st Hd) as (_ & [H | [H _]] & _); [done|].
  congruence.
Qed.

Lemma shared_actions_rejected acts e : shared_actions acts (Rejected e) = Rejected e.
Proof. done. Qed.

Lemma shared_actions_pending acts : shared_actions acts Pending = Pending.
Proof. done. Qed.

Lemma run_not_done f g events st :
  Forall (fun event => has_type "done" event = false) events ->
  closed st = false ->
  let st' := run f g (map Message events) st in
  let kept := match g with Some _ => actions_of events | None => [] end in
  actions st' = actions st ++ kept
  /\ promise st' = promise st
  /\ closed st' = false
  /\ action_calls (trace st') = action_calls (trace st) ++ kept
  /\ opens (trace st') = opens (trace st)
  /\ posts (trace st') = posts (trace st)
  /\ closes (trace st') = closes (trace st).
Proof.
  intros H. revert st.
  induction H as [|event events Hd _ IH]; intros st Hopen; cbv zeta.
  - simpl. destruct g; rewrite !app_nil_r; done.
  - simpl.
    destruct (onmessage_not_done f g event st Hd)
      as (Ha & Hp & Hcl & Hcalls & Hopens & Hposts & Hcloses).
    cbv zeta in *.
    destruct (IH (fst (onmessage f g event st))) as (IHa & IHp & IHcl & IHcalls & IHo & IHposts & IHc).
    { by rewrite Hcl. }
    cbv zeta in *.
    fold (run f g (map Message events) (fst (onmessage f g event st))).
    rewrite IHa, IHp, IHcl, IHcalls, IHo, IHposts, IHc, Ha, Hcalls, Hopens, Hposts, Hcloses.
    rewrite (onmessage_not_done_open f g event st Hd Hopen).
    destruct g; rewrite <- ?app_assoc, ?app_nil_r; try done.
    by destruct (has_type "action" event).
Qed.


Lemma step_opens_posts f g st ev :
  opens (trace (step f g st ev)) = opens (trace st)
  /\ posts (trace (step f g st ev)) = posts (trace st).
Proof.
  destruct ev as [event| |e|k]; simpl; [| |done..].
  - destruct (has_type "done" event) eqn:Hd.
    + rewrite onmessage_done by done. simpl. trace_app. done.
    + by destruct (onmessage_not_done f g event st Hd) as (_ & _ & _ & _ & -> & -> & _).
  - rewrite <- app_assoc. trace_app. done.
Qed.

Lemma run_opens_posts f g history st :
  opens (trace (run f g history st)) = opens (trace st)
  /\ posts (trace (run f g history st)) = posts (trace st).
Proof.
  revert st. induction history as [|ev history IH]; intros st; [done|].
  simpl. destruct (IH (step f g st ev)) as [-> ->]. apply step_opens_posts.
Qed.

(** A rejected promise stays rejected, with the same error. *)
Lemma step_rejected f g st ev e :
  promise st = Rejected e -> promise (step f g st ev) = Rejected e.
Proof.
  intros Hp. destruct ev as [event| |e'|k]; simpl; rewrite ?Hp; try done.
  destruct (has_type "done" event) eqn:Hd.
  - rewrite onmessage_done by done. simpl. by rewrite Hp.
  - destruct (onmessage_not_done f g event st Hd) as (_ & [-> | [_ ->]] & _);
      by rewrite Hp.
Qed.

Lemma run_rejected f g history st e :
  promise st = Rejected e -> promise (run f g history st) = Rejected e.
Proof.
  revert st. induction history as [|ev history IH]; intros st Hp; [done|].
  simpl. apply IH. by apply step_rejected.
Qed.

(** Nothing undoes a [close()]. *)
Lemma step_closes f g st ev :
  closes (trace st) <= closes (trace (step f g st ev)).
Proof.
  destruct ev as [event| |e|k]; simpl; [| |done..].
  - destruct (has_type "done" event) eqn:Hd.
    + rewrite onmessage_done by done. simpl. trace_app. lia.
    + destruct (onmessage_not_done f g event st Hd) as (_ & _ & _ & _ & _ & _ & ->).
      done.
  - rewrite <- app_assoc. trace_app. lia.
Qed.

Lemma run_closes f g history st :
  closes (trace st) <= closes (trace (run f g history st)).
Proof.
  revert st. induction history as [|ev history IH]; intros st; [done|].
  simpl. etrans; [apply (step_closes f g st ev)|apply IH].
Qed.

(** Before a done envelope or a stream error is handled, only a
    rejection of the init POST can settle the promise, and nothing
    closes the stream. *)
Lemma run_neither_done_nor_error_closes f g pre st :
  Forall (fun ev => neither_done_nor_error ev = true) pre ->
  closes (trace (run f g pre st)) = closes (trace st).
Proof.
  intros H. revert st. induction H as [|ev pre Hev _ IH]; intros st; [done|].
  simpl. rewrite IH. destruct ev as [event| |e|k]; simpl in *; try done.
  apply negb_true_iff in Hev.
  by destruct (onmessage_not_done f g event st Hev) as (_ & _ & _ & _ & _ & _ & ->).
Qed.

Lemma run_neither_done_nor_error f g pre st :
  Forall (fun ev => neither_done_nor_error ev = true) pre ->
  promise st = Pending ->
  promise (run f g pre st) = match head (init_rejections pre) with
                             | Some e => Rejected e
                             | None => Pending
                             end.
Proof.
  intros H. revert st. induction H as [|ev pre Hev _ IH]; intros st Hp; [done|].
  simpl. destruct ev as [event| |e|k]; simpl in *; try done.
  - apply negb_true_iff in Hev. apply IH.
    destruct (onmessage_not_done f g event st Hev) as (_ & [-> | [_ ->]] & _);
      by rewrite Hp.
  - apply run_rejected. simpl. by rewrite Hp.
  - by apply IH.
Qed.

(** C4, as the code has it.  Action envelopes interleaved with content
    envelopes, then a done envelope: when an [onAction] callback was
    supplied, the actions of the response are exactly the actions of the
    action envelopes, in arrival order, and [onAction] was invoked with
    each of them in that order; when none was supplied, action envelopes
    are skipped and the actions of the response are empty. *)
Theorem streamed_actions_kept_in_order
    (this : CodessaApiClient) (cfg : CodessaConfig) (net : Network)
    (request : ChatRequest) (onChunk : Callback) (onAction : option Callback)
    (events : list MessageEvent) (d : MessageEvent) :
  constructed this ->
  config this = Some cfg ->
  streamResponses cfg = true ->
  Forall (fun event => has_type "content" event = true
                       \/ has_type "action" event = true) events ->
  done_envelope d ->
  history net = map Message events ++ [Message d] ->
  let out := sendChatMessage this net request (Some onChunk) onAction in
  let kept := match onAction with Some _ => actions_of events | None => [] end in
  exists content,
    result out = Fulfilled (chat_response content kept)
    /\ Js.get (chat_response content kept) "actions" = Js.Normal (Js.Array kept)
    /\ action_calls (effects out) = kept.
Proof.
  intros Hthis Hcfg Hs Hev Hd Hh. cbv zeta.
  rewrite (sendChatMessage_streaming _ _ _ _ _ _ Hcfg Hs). cbv zeta. simpl.
  destruct (streamChatMessage_constructed this cfg request Hthis) as (c & _ & ->).
  rewrite Hh, run_app.
  assert (Hnd : Forall (fun event => has_type "done" event = false) events).
  { eapply Forall_impl; [exact Hev|]. intros event [H|H];
      eapply has_type_other; eauto; discriminate. }
  match goal with |- context [run _ _ (map Message events) ?st] =>
    destruct (run_not_done onChunk onAction events st Hnd eq_refl)
      as (Ha & Hp & Hc & Hcalls & _);
    set (st1 := run onChunk onAction (map Message events) st) in *
  end.
  cbv zeta in *. simpl. rewrite (onmessage_done _ _ _ _ Hd). simpl.
  rewrite Hp, Ha. simpl. exists (fullContent st1).
  split; [done|]. split; [done|].
  rewrite action_calls_app, Hcalls. simpl. by rewrite app_nil_r.
Qed.

(** C6, as the code has it.  The first transport error of the stream,
    before any done envelope has been handled: the promise ends up
    rejected and stays so whatever arrives later, so no response is
    produced; the error handler closes the stream, which was opened
    once and is not opened again.  The rejection carries the fixed
    message unless the init POST had been rejected before the error:
    then the promise was settled by that rejection, and its error
    stands. *)
Theorem stream_error_rejects
    (this : CodessaApiClient) (cfg : CodessaConfig) (net : Network)
    (request : ChatRequest) (onChunk : Callback) (onAction : option Callback)
    (pre later : list Event) :
  constructed this ->
  config this = Some cfg ->
  streamResponses cfg = true ->
  Forall (fun ev => neither_done_nor_error ev = true) pre ->
  history net = pre ++ StreamError :: later ->
  let out := sendChatMessage this net request (Some onChunk) onAction in
  let at_error := sendChatMessage this (MkNetwork (respond net) (pre ++ [StreamError]))
                    request (Some onChunk) onAction in
  result out
  = Rejected (default (Js.new_Error "Stream connection failed")
                      (head (init_rejections pre)))
  /\ (init_rejections pre = [] ->
      result out = Rejected (Js.new_Error "Stream connection failed"))
  /\ result at_error = result out
  /\ closes (effects at_error) = 1
  /\ last (effects at_error) = Some EventSourceClose
  /\ 1 <= closes (effects out)
  /\ opens (effects out) = 1.
Proof.
  intros Hthis Hcfg Hs Hpre Hh. cbv zeta.
  rewrite !(sendChatMessage_streaming _ _ _ _ _ _ Hcfg Hs). cbv zeta. simpl.
  destruct (streamChatMessage_constructed this cfg request Hthis) as (c & _ & ->).
  rewrite Hh, !run_app.
  match goal with |- context [run _ _ pre ?st] =>
    pose proof (run_neither_done_nor_error onChunk onAction pre st Hpre eq_refl) as Hp;
    assert (Hcl : closes (trace (run onChunk onAction pre st)) = 0)
      by (by rewrite (run_neither_done_nor_error_closes onChunk onAction pre st Hpre));
    assert (Ho : opens (trace (run onChunk onAction pre st)) = 1)
      by (by destruct (run_opens_posts onChunk onAction pre st) as (-> & _));
    set (st1 := run onChunk onAction pre st) in *
  end.
  change (StreamError :: later) with ([StreamError] ++ later). rewrite run_app.
  change (run onChunk onAction [StreamError] st1)
    with (reject (Js.new_Error "Stream connection failed")
            (close (add_effect (ConsoleError "EventSource error:" ErrorEvent) st1))).
  set (st2 := reject _ _).
  assert (Hp2 : promise st2
                = Rejected (default (Js.new_Error "Stream connection failed")
                                    (head (init_rejections pre)))).
  { subst st2. simpl. rewrite Hp. by destruct (head (init_rejections pre)). }
  assert (Hcl2 : closes (trace st2) = 1).
  { subst st2. simpl. rewrite <- app_assoc. trace_app. by rewrite Hcl. }
  assert (Hout : promise (run onChunk onAction later st2)
                 = Rejected (default (Js.new_Error "Stream connection failed")
                                     (head (init_rejections pre))))
    by (by apply run_rejected).
  split; [done|]. split; [by intros Hnone; rewrite Hout, Hnone|].
  split; [by rewrite Hout|]. split; [done|]. split.
  - subst st2. simpl.
    replace (trace st1 ++ [ConsoleError "EventSource error:" ErrorEvent; EventSourceClose])
      with ((trace st1 ++ [ConsoleError "EventSource error:" ErrorEvent])
            ++ [EventSourceClose])
      by (by rewrite <- app_assoc).
    apply last_snoc.
  - split.
    + rewrite <- Hcl2. apply run_closes.
    + destruct (run_opens_posts onChunk onAction later st2) as (-> & _).
      subst st2. simpl. rewrite <- app_assoc. trace_app. by rewrite Ho.
Qed.

(** C7, the part that holds.  A message whose payload is not valid JSON
    or whose type discriminator is none of [content], [action], [done]
    does not abort the stream: with it inserted anywhere in a history,
    the promise ends up the same and the callbacks are invoked with the
    same arguments in the same order.  What is written to the console
    for it is the error caught when parsing it or reading its
    discriminator throws; otherwise nothing is written. *)
Theorem unrecognised_messages_ignored
    (this : CodessaApiClient) (cfg : CodessaConfig) (net : Network)
    (request : ChatRequest) (onChunk : Callback) (onAction : option Callback)
    (pre post : list Event) (x : MessageEvent) :
  config this = Some cfg ->
  streamResponses cfg = true ->
  unrecognised x = true ->
  history net = pre ++ Message x :: post ->
  let out := sendChatMessage this net request (Some onChunk) onAction in
  let out' := sendChatMessage this (MkNetwork (respond net) (pre ++ post))
                request (Some onChunk) onAction in
  result out = result out'
  /\ invocations (effects out) = invocations (effects out')
  /\ forall st,
       logged (trace (fst (onmessage onChunk onAction x st)))
       = logged (trace st) ++ logged (ignored_log x).
Proof.
  intros Hcfg Hs Hx Hh. cbv zeta.
  rewrite !(sendChatMessage_streaming _ _ _ _ _ _ Hcfg Hs). cbv zeta. simpl.
  rewrite Hh, !run_app.
  set (st1 := run onChunk onAction pre _).
  assert (Hcore : core (run onChunk onAction (Message x :: post) st1)
                  = core (run onChunk onAction post st1)).
  { simpl. apply core_run.
    rewrite onmessage_unrecognised by done. unfold core. simpl.
    destruct (console_only_projections _ (ignored_log_console x)) as (_ & _ & Hi & _).
    by rewrite invocations_app, Hi, app_nil_r. }
  unfold core in Hcore. injection Hcore as _ _ Hp _ Hi.
  split; [done|]. split; [done|].
  intros st. rewrite onmessage_unrecognised by done. simpl. by rewrite logged_app.
Qed.

(** C3, as the code has it.  An action envelope that arrives on an open
    stream, with an [onAction] callback supplied: the callback is invoked
    with the action while that envelope is handled, hence before
    anything later is handled, and the action is appended; the reader
    attaches nothing to what the callback returns, so the next message
    is handled as soon as it arrives, and a run is the same whether or
    not the completion of that work is reported in between. *)
Theorem action_handler_invoked_not_awaited
    (onChunk onAction : Callback) (start : StreamState)
    (pre post : list Event) (event next : MessageEvent) (a : Js.value) (k : nat) :
  action_envelope a event ->
  closed (run onChunk (Some onAction) pre start) = false ->
  let before := run onChunk (Some onAction) pre start in
  let after := run onChunk (Some onAction) (pre ++ [Message event]) start in
  action_calls (trace after) = action_calls (trace before) ++ [a]
  /\ actions after = actions before ++ [a]
  /\ promise after = promise before
  /\ closed after = false
  /\ run onChunk (Some onAction) (pre ++ [Message event; Message next]) start
     = fst (onmessage onChunk (Some onAction) next after)
  /\ run onChunk (Some onAction)
         (pre ++ Message event :: ActionWorkSettled k :: post) start
     = run onChunk (Some onAction) (pre ++ Message event :: post) start.
Proof.
  intros Ha Hopen. cbv zeta. rewrite !run_app. simpl.
  rewrite (onmessage_action _ _ _ _ _ Ha).
  set (st0 := push_action a _).
  destruct (after_call_fields OnAction onAction a st0) as (_ & Hac & Hp & Hcl & _).
  destruct (after_OnAction onAction a st0) as (_ & Hcalls & _).
  cbv zeta in *. rewrite Hac, Hp, Hcl, Hcalls. subst st0. simpl. rewrite Hopen.
  done.
Qed.


(** C5 on the code.  When the init POST is rejected, the promise is
    rejected with that failure, but [eventSource.close()] is not called:
    the stream stays open and a message that arrives afterwards is still
    handed to [onChunk]. *)
Theorem init_failure_leaves_stream_open
    (s : WorkspaceConfiguration) (cfg : CodessaConfig) (request : ChatRequest)
    (onChunk : Callback) (onAction : option Callback) (e : Js.Error) (c : string) :
  let st := run onChunk onAction [InitRejected e]
              (streamChatMessage (constructor s) cfg request) in
  let st' := run onChunk onAction [InitRejected e; Message (content_message c)]
               (streamChatMessage (constructor s) cfg request) in
  promise st = Rejected e
  /\ closed st = false
  /\ closes (trace st) = 0
  /\ promise st' = Rejected e
  /\ closed st' = false
  /\ chunk_calls (trace st') = [Js.Str c].
Proof.
  cbv zeta. split; [done|]. split; [done|]. split; [done|].
  assert (Hc : content_envelope c (content_message c)) by done.
  simpl. rewrite (onmessage_content _ _ _ _ _ Hc).
  set (st0 := set_fullContent _ _).
  destruct (after_call_fields OnChunk onChunk (Js.Str c) st0) as (_ & _ & -> & -> & _).
  destruct (after_OnChunk onChunk (Js.Str c) st0) as (-> & _).
  done.
Qed.

(** C2.  [sendChatMessage] takes the streaming path exactly when the
    held configuration has streaming enabled and an [onChunk] callback
    was supplied: then it opens the stream and posts the request to
    [/chat/stream/init].  In every other case it opens no stream and
    issues exactly one POST, to [/chat], whose body is the request with
    [stream: false] merged in, and is fulfilled with the body of the
    response, unchanged (a failed POST rejects with the prefixed
    error). *)
Theorem sendChatMessage_dispatch
    (this : CodessaApiClient) (cfg : CodessaConfig) (net : Network)
    (request : ChatRequest) (onChunk onAction : option Callback) :
  constructed this ->
  config this = Some cfg ->
  let out := sendChatMessage this net request onChunk onAction in
  exists c,
    client this = Some c
    /\ match streamResponses cfg, onChunk with
       | true, Some f =>
           out = {| effects := trace (run f onAction (history net)
                                        (streamChatMessage this cfg request));
                    result := promise (run f onAction (history net)
                                         (streamChatMessage this cfg request)) |}
           /\ opens (effects out) = 1
           /\ posts (effects out)
              = [Axios.post c "/chat/stream/init" (with_stream request true)]
       | _, _ =>
           out = sendChatMessageSync this (respond net) request
           /\ opens (effects out) = 0
           /\ posts (effects out) = [Axios.post c "/chat" (with_stream request false)]
           /\ message (Axios.req_body (Axios.post c "/chat" (with_stream request false)))
              = message request
           /\ context (Axios.req_body (Axios.post c "/chat" (with_stream request false)))
              = context request
           /\ stream (Axios.req_body (Axios.post c "/chat" (with_stream request false)))
              = Some false
           /\ result out
              = match respond net (Axios.post c "/chat" (with_stream request false)) with
                | Js.Normal data => Fulfilled data
                | Js.Throw error =>
                    Rejected (Js.new_Error ("Failed to send chat message: "
                                            +:+ Js.Error_toString error))
                end
       end.
Proof.
  intros Hthis Hcfg. cbv zeta.
  destruct (streamChatMessage_constructed this cfg request Hthis) as (c & Hc & Hst).
  exists c. split; [done|].
  assert (Hsync :
    sendChatMessageSync this (respond net) request
    = sendChatMessageSync this (respond net) request
    /\ opens (effects (sendChatMessageSync this (respond net) request)) = 0
    /\ posts (effects (sendChatMessageSync this (respond net) request))
       = [Axios.post c "/chat" (with_stream request false)]
    /\ message (Axios.req_body (Axios.post c "/chat" (with_stream request false)))
       = message request
    /\ context (Axios.req_body (Axios.post c "/chat" (with_stream request false)))
       = context request
    /\ stream (Axios.req_body (Axios.post c "/chat" (with_stream request false)))
       = Some false
    /\ result (sendChatMessageSync this (respond net) request)
       = match respond net (Axios.post c "/chat" (with_stream request false)) with
         | Js.Normal data => Fulfilled data
         | Js.Throw error =>
             Rejected (Js.new_Error ("Failed to send chat message: "
                                     +:+ Js.Error_toString error))
         end).
  { unfold sendChatMessageSync. rewrite Hc.
    destruct (respond net _); simpl; done. }
  unfold sendChatMessage. rewrite Hcfg.
  destruct (streamResponses cfg), onChunk as [f|]; try exact Hsync.
  split; [done|]. simpl.
  destruct (run_opens_posts f onAction (history net) (streamChatMessage this cfg request))
    as [-> ->].
  rewrite Hst. done.
Qed.

Lemma sendChatMessage_dispatch_witness :
  exists c,
    client client_sync = Some c
    /\ sendChatMessage client_sync (network []) hello (Some immediate) None
       = sendChatMessageSync client_sync (respond (network [])) hello
    /\ opens (effects (sendChatMessage client_sync (network []) hello (Some immediate) None)) = 0
    /\ posts (effects (sendChatMessage client_sync (network []) hello (Some immediate) None))
       = [Axios.post c "/chat" (with_stream hello false)]
    /\ message (Axios.req_body (Axios.post c "/chat" (with_stream hello false)))
       = "Hello, world!"
    /\ context (Axios.req_body (Axios.post c "/chat" (with_stream hello false))) = None
    /\ stream (Axios.req_body (Axios.post c "/chat" (with_stream hello false)))
       = Some false
    /\ result (sendChatMessage client_sync (network []) hello (Some immediate) None)
       = Fulfilled greeting.
Proof.
  apply (sendChatMessage_dispatch client_sync config_sync (network []) hello
           (Some immediate) None).
  - apply constructed_new.
  - reflexivity.
Defined.


Lemma streamed_actions_kept_in_order_witness :
  let out := sendChatMessage client_streaming
               (network [Message (content_message "Hello! ");
                         Message (content_message "How can I help?");
                         Message (action_message edit_action);
                         Message done_message])
               hello (Some immediate) (Some immediate) in
  exists content,
    result out = Fulfilled (chat_response content [edit_action])
    /\ Js.get (chat_response content [edit_action]) "actions"
       = Js.Normal (Js.Array [edit_action])
    /\ action_calls (effects out) = [edit_action].
Proof.
  apply (streamed_actions_kept_in_order client_streaming config_streaming
           (network [Message (content_message "Hello! ");
                     Message (content_message "How can I help?");
                     Message (action_message edit_action);
                     Message done_message])
           hello immediate (Some immediate)
           [content_message "Hello! "; content_message "How can I help?";
            action_message edit_action]
           done_message).
  - apply constructed_new.
  - reflexivity.
  - reflexivity.
  - constructor; [left; reflexivity|].
    constructor; [left; reflexivity|].
    constructor; [right; reflexivity|].
    constructor.
  - reflexivity.
  - reflexivity.
Defined.

(** C4, as the specification words it, fails when no [onAction] callback
    was supplied: the action envelope received is not in the response. *)
Lemma actions_dropped_without_onAction :
  let out := sendChatMessage client_streaming
               (network [Message (action_message edit_action); Message done_message])
               hello (Some immediate) None in
  actions_of [action_message edit_action] = [edit_action]
  /\ result out = Fulfilled (chat_response "" [])
  /\ result out <> Fulfilled (chat_response "" (actions_of [action_message edit_action])).
Proof.
  cbv zeta. split; [reflexivity|]. split; [reflexivity|].
  change (result _) with (Fulfilled (chat_response "" [])).
  change (actions_of _) with [edit_action]. discriminate.
Qed.

Lemma stream_error_rejects_witness :
  let net := network [Message (content_message "Hel"); StreamError;
                      Message (content_message "lo"); Message done_message] in
  let out := sendChatMessage client_streaming net hello (Some immediate) None in
  let at_error := sendChatMessage client_streaming
                    (MkNetwork (respond net)
                       ([Message (content_message "Hel")] ++ [StreamError]))
                    hello (Some immediate) None in
  result out = Rejected (Js.new_Error "Stream connection failed")
  /\ (init_rejections [Message (content_message "Hel")] = [] ->
      result out = Rejected (Js.new_Error "Stream connection failed"))
  /\ result at_error = result out
  /\ closes (effects at_error) = 1
  /\ last (effects at_error) = Some EventSourceClose
  /\ 1 <= closes (effects out)
  /\ opens (effects out) = 1.
Proof.
  apply (stream_error_rejects client_streaming config_streaming
           (network [Message (content_message "Hel"); StreamError;
                     Message (content_message "lo"); Message done_message])
           hello immediate None
           [Message (content_message "Hel")]
           [Message (content_message "lo"); Message done_message]).
  - apply constructed_new.
  - reflexivity.
  - reflexivity.
  - repeat constructor.
  - reflexivity.
Defined.

(** C6, as the specification words it, fails when the init POST has been
    rejected before the stream reports its error: no done envelope has
    been handled, the stream is closed by the error handler, yet the
    promise is rejected with the error of the POST and not with the
    fixed message. *)
Lemma init_failure_preempts_stream_error :
  let out := sendChatMessage client_streaming
               (network [InitRejected (Js.new_Error "Request failed with status code 401");
                         StreamError])
               hello (Some immediate) None in
  Forall (fun ev => neither_done_nor_error ev = true)
         [InitRejected (Js.new_Error "Request failed with status code 401")]
  /\ result out = Rejected (Js.new_Error "Request failed with status code 401")
  /\ result out <> Rejected (Js.new_Error "Stream connection failed")
  /\ closes (effects out) = 1.
Proof.
  cbv zeta. split; [repeat constructor|]. split; [reflexivity|].
  split; [|reflexivity].
  change (result _)
    with (Rejected (Js.new_Error "Request failed with status code 401")).
  discriminate.
Qed.

Lemma unrecognised_messages_ignored_witness :
  let out := sendChatMessage client_streaming
               (network [Message (content_message "a"); Message garbled_message;
                         Message done_message])
               hello (Some immediate) None in
  let out' := sendChatMessage client_streaming
                (MkNetwork (respond (network []))
                   [Message (content_message "a"); Message done_message])
                hello (Some immediate) None in
  result out = result out'
  /\ invocations (effects out) = invocations (effects out')
  /\ forall st,
       logged (trace (fst (onmessage immediate None garbled_message st)))
       = logged (trace st) ++ logged (ignored_log garbled_message).
Proof.
  apply (unrecognised_messages_ignored client_streaming config_streaming
           (network [Message (content_message "a"); Message garbled_message;
                     Message done_message])
           hello immediate None
           [Message (content_message "a")] [Message done_message] garbled_message).
  - reflexivity.
  - reflexivity.
  - reflexivity.
  - reflexivity.
Defined.

(** C7, as the specification words it, fails on the logging: a message
    with an unrecognised type discriminator is ignored without anything
    being written to the console. *)
Lemma unrecognised_type_not_logged :
  unrecognised ping_message = true
  /\ ~ logs_message immediate None
         (streamChatMessage client_streaming config_streaming hello) ping_message.
Proof.
  split; [reflexivity|]. unfold logs_message. intros H. apply H. reflexivity.
Qed.

Lemma action_handler_invoked_not_awaited_witness :
  let start := streamChatMessage client_streaming config_streaming hello in
  let after := run immediate (Some deferred) [Message (action_message edit_action)] start in
  action_calls (trace after) = [edit_action]
  /\ actions after = [edit_action]
  /\ promise after = Pending
  /\ closed after = false
  /\ run immediate (Some deferred)
         [Message (action_message edit_action); Message (content_message "x")] start
     = fst (onmessage immediate (Some deferred) (content_message "x") after)
  /\ run immediate (Some deferred)
         [Message (action_message edit_action); ActionWorkSettled 0; Message done_message]
         start
     = run immediate (Some deferred)
         [Message (action_message edit_action); Message done_message] start.
Proof.
  apply (action_handler_invoked_not_awaited immediate deferred
           (streamChatMessage client_streaming config_streaming hello)
           [] [Message done_message]
           (action_message edit_action) (content_message "x") edit_action 0).
  - split; reflexivity.
  - reflexivity.
Defined.

(** C3, as the specification words it, fails: with an [onAction] handler
    that returns pending work, the reader handles the next envelope (and
    calls [onChunk] for it) while that work is still outstanding. *)
Lemma reader_advances_past_pending_action :
  let start := streamChatMessage client_streaming config_streaming hello in
  let history := [Message (action_message edit_action); Message (content_message "x")] in
  ~ awaits_action_work immediate (Some deferred) start history
  /\ outstanding_work
       (trace (run immediate (Some deferred) [Message (action_message edit_action)] start))
       (settled_in [Message (action_message edit_action)]) = [0]
  /\ chunk_calls (trace (run immediate (Some deferred) history start)) = [Js.Str "x"].
Proof.
  cbv zeta. split; [|split; reflexivity].
  intros H.
  specialize (H [Message (action_message edit_action)] (content_message "x") []
                eq_refl eq_refl).
  vm_compute in H. discriminate.
Qed.

End Streaming.

(** ** The bulk policy scan *)

Module PolicyScan.
Import Policy Examples.

Lemma check_file_uninterrupted host file collection :
  check_file (uninterrupted host) file collection = check_file host file collection.
Proof. reflexivity. Qed.

Lemma checkPolicies_effects host request :
  opened (snd (checkPolicies host request)) = []
  /\ checks_sent (snd (checkPolicies host request)) = [request].
Proof. unfold checkPolicies. by destruct (backend host request). Qed.

Lemma opened_app es es' : opened (es ++ es') = opened es ++ opened es'.
Proof. apply omap_app. Qed.

Lemma checks_sent_app es es' : checks_sent (es ++ es') = checks_sent es ++ checks_sent es'.
Proof. apply omap_app. Qed.

(** Working on one file opens that file and sends at most the one check
    made from its document. *)
Lemma check_file_effects host file collection :
  opened (snd (check_file host file collection)) = [file]
  /\ checks_sent (snd (check_file host file collection))
     = option_list (request_for host file).
Proof.
  unfold check_file, request_for, checkDocumentPolicies.
  destruct (openTextDocument host file) as [document|error]; [|done].
  destruct (String.eqb (scheme (uri document)) "file"); simpl; [|done].
  set (request := MkCheckRequest _ _ _).
  destruct (checkPolicies_effects host request) as [Ho Hc].
  destruct (checkPolicies host request) as [[violations|error] called]; simpl in *.
  - destruct (updateDiagnostics _ _ _); simpl;
      rewrite ?opened_app, ?checks_sent_app, Ho, Hc; done.
  - rewrite ?opened_app, ?checks_sent_app, Ho, Hc; done.
Qed.

(** A scan that is never cancelled works through all its files. *)
Lemma scan_uninterrupted host total files completed collection :
  let '(completed', _, done) :=
    scan (uninterrupted host) total files completed collection in
  completed' = completed + length files
  /\ opened done = files
  /\ checks_sent done = omap (request_for host) files.
Proof.
  revert completed collection.
  induction files as [|file files IH]; intros completed collection; simpl.
  - rewrite Nat.add_0_r. done.
  - rewrite check_file_uninterrupted.
    destruct (check_file_effects host file collection) as [Ho Hc].
    destruct (check_file host file collection) as [collection1 done1]; simpl in *.
    specialize (IH (S completed) collection1).
    destruct (scan (uninterrupted host) total files (S completed) collection1)
      as [[completed2 collection2] later].
    destruct IH as (-> & IHo & IHc).
    rewrite opened_app, checks_sent_app, Ho, Hc. simpl. rewrite IHo, IHc.
    split; [lia|]. split; [done|]. by destruct (request_for host file).
Qed.



Lemma progress_showing_closed es : progress_showing (es ++ [ProgressClosed]) = false.
Proof. unfold progress_showing. by rewrite fold_left_app. Qed.



End PolicyScan.

(** * Properties beyond the specification *)

(** ** Further properties of the configuration *)

Module ClientInvariants.
Import ApiClient Observations Examples.

(** X1.  A refresh replaces the configuration wholesale: whatever an earlier
    refresh applied, the state after a refresh is the one that refresh
    alone produces.  In particular refreshing twice with unchanged
    settings is the same as refreshing once. *)
Theorem updateConfiguration_last_wins (s1 s2 : WorkspaceConfiguration)
    (this : CodessaApiClient) :
  updateConfiguration s2 (updateConfiguration s1 this) = updateConfiguration s2 this
  /\ updateConfiguration s1 (updateConfiguration s1 this) = updateConfiguration s1 this.
Proof.
  assert (H : forall a b,
             updateConfiguration b (updateConfiguration a this) = updateConfiguration b this).
  { intros a b. unfold updateConfiguration. destruct (client this) as [c|]; simpl; [|done].
    f_equal. f_equal. unfold Axios.set_common, Axios.set_baseURL. simpl.
    by rewrite insert_insert_eq. }
  split; apply H.
Qed.

(** What no refresh touches. *)
Lemma constructed_fixed_defaults (this : CodessaApiClient) :
  constructed this ->
  exists c,
    client this = Some c
    /\ Axios.timeout c = 30000%Z
    /\ Axios.headers c = Axios.cc_headers create_config
    /\ Axios.headers_common c !! "Accept" = Some "application/json, text/plain, */*".
Proof.
  induction 1 as [s | s this _ (c & Hc & Ht & Hh & Ha)].
  - eexists. repeat split; reflexivity.
  - unfold updateConfiguration. rewrite Hc. eexists. split; [reflexivity|].
    simpl. repeat split; try done. by rewrite lookup_insert_ne.
Qed.

(** X2.  However often the configuration is refreshed, every request of a
    constructed client is issued with the 30 s timeout and carries the
    [Content-Type], [User-Agent] and [Accept] headers the instance was
    created with. *)
Theorem requests_keep_fixed_headers (this : CodessaApiClient)
    (url : string) (body : ChatRequest) :
  constructed this ->
  exists c,
    client this = Some c
    /\ Axios.timeout c = 30000%Z
    /\ Axios.req_headers (Axios.post c url body) !! "Content-Type" = Some "application/json"
    /\ Axios.req_headers (Axios.post c url body) !! "User-Agent"
       = Some "VSCode-Codessa-Extension/0.1.0"
    /\ Axios.req_headers (Axios.post c url body) !! "Accept"
       = Some "application/json, text/plain, */*".
Proof.
  intros (c & Hc & Ht & Hh & Ha)%constructed_fixed_defaults.
  exists c. split; [done|]. split; [done|]. unfold Axios.post. simpl. rewrite Hh.
  split; [|split].
  - by apply lookup_union_Some_l.
  - by apply lookup_union_Some_l.
  - rewrite lookup_union_r; [done|]. reflexivity.
Qed.

Lemma requests_keep_fixed_headers_witness :
  exists c,
    client (updateConfiguration settings_other_endpoint client_streaming) = Some c
    /\ Axios.timeout c = 30000%Z
    /\ Axios.req_headers (Axios.post c "/chat" hello) !! "Content-Type"
       = Some "application/json"
    /\ Axios.req_headers (Axios.post c "/chat" hello) !! "User-Agent"
       = Some "VSCode-Codessa-Extension/0.1.0"
    /\ Axios.req_headers (Axios.post c "/chat" hello) !! "Accept"
       = Some "application/json, text/plain, */*".
Proof.
  apply (requests_keep_fixed_headers
           (updateConfiguration settings_other_endpoint client_streaming) "/chat" hello).
  apply constructed_update, constructed_new.
Defined.

(** X3.  A streaming call on a client that has just been constructed opens
    the stream against the configured endpoint with the bearer header
    built from the configured credential, while the init POST that is
    meant to start it is issued with no base URL and no Authorization
    header. *)
Theorem fresh_client_stream_and_init_disagree
    (s : WorkspaceConfiguration) (net : Network) (request : ChatRequest)
    (onChunk : Callback) (onAction : option Callback) :
  setting_streamResponses s <> Some false ->
  history net = [] ->
  exists hdrs req,
    effects (sendChatMessage (constructor s) net request (Some onChunk) onAction)
    = [NewEventSource
         (get (setting_apiEndpoint s) "https://api.codessa.dev" +:+ "/chat/stream") hdrs;
       Post req]
    /\ hdrs !! "Authorization" = Some (bearer (setting_apiKey s))
    /\ Axios.req_url req = "/chat/stream/init"
    /\ Axios.req_baseURL req = None
    /\ no_authorization req.
Proof.
  intros Hs Hh. unfold sendChatMessage. simpl.
  assert (Hflag : get (setting_streamResponses s) true = true).
  { destruct (setting_streamResponses s) as [[]|]; done. }
  rewrite Hflag, Hh. simpl. eexists _, _. split; [reflexivity|].
  split; [|done].
  unfold eventsource_headers. rewrite lookup_insert_eq. f_equal.
  by apply Configuration.authorization_bearer.
Qed.

Lemma fresh_client_stream_and_init_disagree_witness :
  exists hdrs req,
    effects (sendChatMessage (constructor settings_with_key) (network []) hello
               (Some immediate) None)
    = [NewEventSource "https://api.codessa.dev/chat/stream" hdrs; Post req]
    /\ hdrs !! "Authorization" = Some "Bearer test-api-key"
    /\ Axios.req_url req = "/chat/stream/init"
    /\ Axios.req_baseURL req = None
    /\ no_authorization req.
Proof.
  apply (fresh_client_stream_and_init_disagree settings_with_key (network []) hello
           immediate None).
  - discriminate.
  - reflexivity.
Defined.

(** X4.  With streaming disabled the callbacks are never invoked, whatever
    the response body holds, and no stream is opened. *)
Theorem synchronous_mode_never_calls_back
    (this : CodessaApiClient) (cfg : CodessaConfig) (net : Network)
    (request : ChatRequest) (onChunk onAction : option Callback) :
  config this = Some cfg ->
  streamResponses cfg = false ->
  let out := sendChatMessage this net request onChunk onAction in
  chunk_calls (effects out) = []
  /\ action_calls (effects out) = []
  /\ opens (effects out) = 0
  /\ length (posts (effects out)) <= 1.
Proof.
  intros Hcfg Hs. cbv zeta. unfold sendChatMessage. rewrite Hcfg, Hs.
  unfold sendChatMessageSync. destruct (client this) as [c|]; [|simpl; repeat split; lia].
  destruct (respond net _); simpl; repeat split; lia.
Qed.

Lemma synchronous_mode_never_calls_back_witness :
  let out := sendChatMessage client_sync (network [Message (content_message "x")]) hello
               (Some immediate) (Some immediate) in
  chunk_calls (effects out) = []
  /\ action_calls (effects out) = []
  /\ opens (effects out) = 0
  /\ length (posts (effects out)) <= 1.
Proof.
  apply (synchronous_mode_never_calls_back client_sync config_sync
           (network [Message (content_message "x")]) hello
           (Some immediate) (Some immediate)).
  - reflexivity.
  - reflexivity.
Defined.

End ClientInvariants.

(** ** Further properties of the streaming reader *)

Module ReaderInvariants.
Import ApiClient Observations Examples.

Ltac unfold_reader :=
  cbv [onmessage try_catch hbind eval read update call ret JSON_parse].

(** A content envelope, whatever its [content] member is. *)
Lemma onmessage_content_value f g event st :
  has_type "content" event = true ->
  fst (onmessage f g event st)
  = match Js.to_string (payload "content" event) with
    | Js.Normal text =>
        after_call OnChunk f (payload "content" event)
          (set_fullContent (fullContent st +:+ text) st)
    | Js.Throw e =>
        add_effect (ConsoleError "Error parsing stream data:" (Caught e)) st
    end.
Proof.
  intros (data & -> & Ht)%Streaming.has_type_Str. unfold payload.
  unfold_reader. rewrite Ht. simpl.
  destruct (Js.get data "content") as [v|] eqn:Hv; [|by destruct data].
  simpl. unfold Js.add_string. destruct (Js.to_string v) as [text|e]; simpl; [|done].
  unfold after_call. by destruct (f _ _).
Qed.

Ltac unchanged :=
  split; [exists ""; by rewrite Streaming.append_empty_r|];
  split; [exists []; by rewrite app_nil_r|];
  split; [exists []; by rewrite app_nil_r|];
  done.

(** One event changes the accumulated text, the actions and the trace
    only by appending, and never reopens the stream. *)
Lemma step_appends f g st ev :
  (exists text, fullContent (step f g st ev) = fullContent st +:+ text)
  /\ (exists more, actions (step f g st ev) = actions st ++ more)
  /\ (exists es, trace (step f g st ev) = trace st ++ es)
  /\ (closed st = true -> closed (step f g st ev) = true).
Proof.
  destruct ev as [event| |e|k]; simpl; [| | |unchanged].
  - destruct (has_type "done" event) eqn:Hd.
    + rewrite Streaming.onmessage_done by done. simpl.
      split; [exists ""; by rewrite Streaming.append_empty_r|].
      split; [exists []; by rewrite app_nil_r|].
      split; [eauto|]. done.
    + destruct (Streaming.onmessage_not_done f g event st Hd)
        as (Ha & _ & Hcl & _).
      cbv zeta in *.
      split; [|split; [eauto|split; [|by rewrite Hcl]]].
      * destruct (has_type "content" event) eqn:Hcontent.
        -- rewrite onmessage_content_value by done.
           destruct (Js.to_string _) as [text|e]; simpl.
           ++ exists text.
              by destruct (Streaming.after_call_fields OnChunk f (payload "content" event)
                             (set_fullContent (fullContent st +:+ text) st)) as (-> & _).
           ++ exists "". by rewrite Streaming.append_empty_r.
        -- exists "". rewrite Streaming.append_empty_r.
           destruct (has_type "action" event) eqn:Haction.
           ++ destruct g as [h|].
              ** rewrite (Streaming.onmessage_action f h event (payload "action" event) st)
                   by done.
                 by destruct (Streaming.after_call_fields OnAction h (payload "action" event)
                                (push_action (payload "action" event) st)) as (-> & _).
              ** by rewrite Streaming.onmessage_action_unhandled.
           ++ rewrite Streaming.onmessage_unrecognised
                by (apply Streaming.unrecognised_iff; done). done.
      * destruct (has_type "content" event) eqn:Hcontent.
        -- rewrite onmessage_content_value by done.
           destruct (Js.to_string _) as [text|e]; simpl; [|eauto].
           destruct (Streaming.after_call_fields OnChunk f (payload "content" event)
                       (set_fullContent (fullContent st +:+ text) st))
             as (_ & _ & _ & _ & out & log & -> & _). simpl. eauto.
        -- destruct (has_type "action" event) eqn:Haction.
           ++ destruct g as [h|].
              ** rewrite (Streaming.onmessage_action f h event (payload "action" event) st)
                   by done.
                 destruct (Streaming.after_call_fields OnAction h (payload "action" event)
                             (push_action (payload "action" event) st))
                   as (_ & _ & _ & _ & out & log & -> & _). simpl. eauto.
              ** rewrite Streaming.onmessage_action_unhandled by done.
                 exists []. by rewrite app_nil_r.
           ++ rewrite Streaming.onmessage_unrecognised
                by (apply Streaming.unrecognised_iff; done). simpl. eauto.
  - split; [exists ""; by rewrite Streaming.append_empty_r|].
    split; [exists []; by rewrite app_nil_r|].
    split; [rewrite <- app_assoc; eauto|]. done.
  - unchanged.
Qed.

(** X5.  Whatever arrives, and in whatever order: the accumulated text, the
    list of actions and the record of effects only ever grow at their
    end (what was accumulated is never rewritten), and a closed stream
    stays closed. *)
Theorem reader_only_appends (onChunk : Callback) (onAction : option Callback)
    (history : list Event) (st : StreamState) :
  (exists text, fullContent (run onChunk onAction history st) = fullContent st +:+ text)
  /\ (exists more, actions (run onChunk onAction history st) = actions st ++ more)
  /\ (exists es, trace (run onChunk onAction history st) = trace st ++ es)
  /\ closed st && negb (closed (run onChunk onAction history st)) = false.
Proof.
  revert st. induction history as [|ev history IH]; intros st.
  - simpl. split; [exists ""; by rewrite Streaming.append_empty_r|].
    split; [exists []; by rewrite app_nil_r|].
    split; [exists []; by rewrite app_nil_r|]. by destruct (closed st).
  - simpl.
    destruct (step_appends onChunk onAction st ev)
      as ((t1 & Ht) & (a1 & Ha) & (e1 & He) & Hc).
    destruct (IH (step onChunk onAction st ev)) as ((t2 & Ht2) & (a2 & Ha2) & (e2 & He2) & Hc2).
    fold (run onChunk onAction history (step onChunk onAction st ev)) in *.
    split; [exists (t1 +:+ t2); by rewrite Ht2, Ht, Streaming.append_assoc|].
    split; [exists (a1 ++ a2); by rewrite Ha2, Ha, app_assoc|].
    split; [exists (e1 ++ e2); by rewrite He2, He, app_assoc|].
    destruct (closed st); [|done]. by rewrite Hc in Hc2.
Qed.

(** What one event, and a whole history, adds to the array [actions]. *)
Lemma pushed_actions_cons g ev history :
  pushed_actions g (ev :: history) = pushed_actions g [ev] ++ pushed_actions g history.
Proof.
  destruct g; [|done]. unfold pushed_actions, messages_of, actions_of.
  change (ev :: history) with ([ev] ++ history). by rewrite !omap_app.
Qed.

Lemma step_actions f g st ev :
  actions (step f g st ev) = actions st ++ pushed_actions g [ev].
Proof.
  destruct ev as [event| |e|k]; simpl; [|destruct g; by rewrite app_nil_r..].
  destruct (has_type "done" event) eqn:Hd.
  - rewrite Streaming.onmessage_done by done. simpl.
    destruct g; [|by rewrite app_nil_r].
    unfold pushed_actions, messages_of, actions_of. cbn.
    rewrite (Streaming.has_type_other "done" "action" event Hd) by done.
    by rewrite app_nil_r.
  - destruct (Streaming.onmessage_not_done f g event st Hd) as (-> & _).
    destruct g; [|done]. unfold pushed_actions.
    change (messages_of [Message event]) with [event].
    rewrite Streaming.actions_of_cons. change (actions_of []) with (@nil Js.value).
    by rewrite app_nil_r.
Qed.

Lemma run_actions f g history st :
  actions (run f g history st) = actions st ++ pushed_actions g history.
Proof.
  revert st. induction history as [|ev history IH]; intros st.
  - destruct g; by rewrite app_nil_r.
  - simpl. fold (run f g history (step f g st ev)).
    by rewrite IH, step_actions, (pushed_actions_cons g ev history), app_assoc.
Qed.

(** A fulfilled promise stays fulfilled. *)
Lemma step_stays_fulfilled f g st ev v :
  promise st = Fulfilled v -> exists v', promise (step f g st ev) = Fulfilled v'.
Proof.
  intros Hp. destruct ev as [event| |e|k]; simpl; rewrite ?Hp; eauto.
  destruct (has_type "done" event) eqn:Hd.
  - rewrite Streaming.onmessage_done by done. simpl. rewrite Hp. eauto.
  - destruct (Streaming.onmessage_not_done f g event st Hd) as (_ & [-> | [_ ->]] & _);
      rewrite Hp; [eauto|]. destruct v; simpl; eauto.
Qed.

Lemma run_stays_fulfilled f g history st v :
  promise st = Fulfilled v -> exists v', promise (run f g history st) = Fulfilled v'.
Proof.
  revert st v. induction history as [|ev history IH]; intros st v Hp; [eauto|].
  simpl. destruct (step_stays_fulfilled f g st ev v Hp) as (v' & Hv'). eauto.
Qed.

(** Once the done branch has fulfilled the promise with the response
    built around the array [actions], the response keeps its content and
    its [actions] member is what the array holds. *)
Lemma step_fulfilled f g st ev content :
  closed st = true ->
  promise st = Fulfilled (chat_response content (actions st)) ->
  closed (step f g st ev) = true
  /\ promise (step f g st ev)
     = Fulfilled (chat_response content (actions (step f g st ev))).
Proof.
  intros Hc Hp. destruct ev as [event| |e|k]; simpl; rewrite ?Hp; try done.
  destruct (has_type "done" event) eqn:Hd.
  - rewrite Streaming.onmessage_done by done. simpl. by rewrite Hp.
  - destruct (has_type "content" event) eqn:Hcontent.
    + by destruct (Streaming.onmessage_content_any f g event st Hcontent)
        as (-> & -> & -> & _).
    + destruct (has_type "action" event) eqn:Ha.
      * destruct g as [h|].
        -- rewrite (Streaming.onmessage_action f h event (payload "action" event) st)
             by done.
           destruct (Streaming.after_call_fields OnAction h (payload "action" event)
                       (push_action (payload "action" event) st))
             as (_ & -> & -> & -> & _).
           simpl. by rewrite Hc, Hp.
        -- by rewrite Streaming.onmessage_action_unhandled.
      * by rewrite Streaming.onmessage_unrecognised
          by (apply Streaming.unrecognised_iff; done).
Qed.

Lemma run_fulfilled f g history st content :
  closed st = true ->
  promise st = Fulfilled (chat_response content (actions st)) ->
  closed (run f g history st) = true
  /\ promise (run f g history st)
     = Fulfilled (chat_response content (actions (run f g history st))).
Proof.
  revert st. induction history as [|ev history IH]; intros st Hc Hp; [done|].
  simpl. destruct (step_fulfilled f g st ev content Hc Hp) as (Hc' & Hp').
  by apply IH.
Qed.

(** The only event that fulfils the promise is a done envelope, and the
    response it builds holds the array [actions]. *)
Lemma step_fulfils f g st ev v :
  (forall v', promise st <> Fulfilled v') ->
  promise (step f g st ev) = Fulfilled v ->
  closed (step f g st ev) = true
  /\ exists content, v = chat_response content (actions (step f g st ev)).
Proof.
  intros Hnone. destruct (promise st) as [|v'|e'] eqn:Hp; [|by destruct (Hnone v')|].
  - destruct ev as [event| |e|k]; simpl; rewrite ?Hp; try done.
    destruct (has_type "done" event) eqn:Hd.
    + rewrite Streaming.onmessage_done by done. simpl. rewrite Hp.
      intros [= <-]. eauto.
    + destruct (Streaming.onmessage_not_done f g event st Hd) as (_ & [-> | [_ ->]] & _);
        by rewrite Hp.
  - by rewrite (Streaming.step_rejected f g st ev e' Hp).
Qed.

Lemma run_fulfils f g history st v :
  (forall v', promise st <> Fulfilled v') ->
  promise (run f g history st) = Fulfilled v ->
  closed (run f g history st) = true
  /\ exists content, v = chat_response content (actions (run f g history st)).
Proof.
  revert st. induction history as [|ev history IH]; intros st Hnone Hv.
  - by destruct (Hnone v).
  - simpl in *. fold (run f g history (step f g st ev)) in *.
    destruct (promise (step f g st ev)) as [|v1|e1] eqn:Hp1.
    + apply IH; [|done]. intros v'. by rewrite Hp1.
    + destruct (step_fulfils f g st ev v1 Hnone Hp1) as (Hc1 & content & ->).
      destruct (run_fulfilled f g history _ content Hc1 Hp1) as (Hc & Hp).
      split; [done|]. exists content. rewrite Hp in Hv. by injection Hv as <-.
    + apply IH; [|done]. intros v'. by rewrite Hp1.
Qed.

Lemma streamChatMessage_unsettled this cfg request :
  (forall v, promise (streamChatMessage this cfg request) <> Fulfilled v)
  /\ actions (streamChatMessage this cfg request) = [].
Proof. unfold streamChatMessage. by destruct (client this). Qed.

(** X6.  The promise of a streaming call settles at most once, but a
    response it was fulfilled with is not frozen.  A rejection stays as
    it is, and a fulfilment keeps its content; the [actions] member of
    the response, however, is the array the reader goes on pushing to,
    so it holds the actions of all action envelopes handled so far,
    those handled after the done envelope included. *)
Theorem settled_promise_shares_actions
    (this : CodessaApiClient) (cfg : CodessaConfig)
    (respond : Axios.Request ChatRequest -> Js.Completion Js.value)
    (request : ChatRequest) (onChunk : Callback) (onAction : option Callback)
    (before after : list Event) :
  config this = Some cfg ->
  streamResponses cfg = true ->
  let earlier := sendChatMessage this (MkNetwork respond before) request
                   (Some onChunk) onAction in
  let out := sendChatMessage this (MkNetwork respond (before ++ after)) request
               (Some onChunk) onAction in
  (forall e, result earlier = Rejected e -> result out = Rejected e)
  /\ (forall v, result earlier = Fulfilled v ->
        exists content,
          v = chat_response content (pushed_actions onAction before)
          /\ result out
             = Fulfilled (chat_response content
                            (pushed_actions onAction (before ++ after)))).
Proof.
  intros Hcfg Hs. cbv zeta.
  rewrite !(Streaming.sendChatMessage_streaming _ _ _ _ _ _ Hcfg Hs).
  cbv zeta. simpl. rewrite Streaming.run_app.
  destruct (streamChatMessage_unsettled this cfg request) as (Hnone & Hacts).
  set (st0 := streamChatMessage this cfg request) in *.
  split.
  - intros e He. by apply Streaming.run_rejected.
  - intros v Hv.
    destruct (run_fulfils onChunk onAction before st0 v Hnone Hv) as (Hc & content & ->).
    exists content.
    destruct (run_fulfilled onChunk onAction after _ content Hc Hv) as (_ & ->).
    rewrite <- !Streaming.run_app, !run_actions, Hacts. done.
Qed.

Lemma settled_promise_shares_actions_witness :
  let earlier := sendChatMessage client_streaming
                   (MkNetwork (fun _ => Js.Normal greeting)
                      [Message (content_message "Hi"); Message done_message])
                   hello (Some immediate) (Some deferred) in
  let out := sendChatMessage client_streaming
               (MkNetwork (fun _ => Js.Normal greeting)
                  ([Message (content_message "Hi"); Message done_message]
                   ++ [Message (action_message edit_action); StreamError]))
               hello (Some immediate) (Some deferred) in
  result earlier = Fulfilled (chat_response "Hi" [])
  /\ result out = Fulfilled (chat_response "Hi" [edit_action]).
Proof.
  destruct (settled_promise_shares_actions client_streaming config_streaming
              (fun _ => Js.Normal greeting) hello immediate (Some deferred)
              [Message (content_message "Hi"); Message done_message]
              [Message (action_message edit_action); StreamError]
              eq_refl eq_refl) as (_ & H).
  destruct (H (chat_response "Hi" []) eq_refl) as (content & Hcontent & Hout).
  injection Hcontent as <-. split; [reflexivity|exact Hout].
Defined.


(** Steps of two runs that differ only in what the callbacks do. *)
Lemma core_step_callbacks f f' g g' ev st1 st2 :
  same_presence g g' = true ->
  core st1 = core st2 ->
  core (step f g st1 ev) = core (step f' g' st2 ev).
Proof.
  unfold core. destruct st1 as [f1 a1 p1 c1 t1], st2 as [f2 a2 p2 c2 t2]; simpl.
  intros Hg H. injection H as -> -> -> -> Hi.
  destruct g as [h|], g' as [h'|]; try discriminate Hg;
    (destruct ev as [event| |e|k]; simpl; [| | by rewrite Hi..];
     [ unfold_reader; simpl;
       repeat (case_match; cbn in *; simplify_eq);
       unfold invocations in *; cbn; rewrite ?omap_app; cbn;
       rewrite ?app_nil_r, ?Hi; reflexivity
     | by rewrite !Streaming.invocations_app, Hi ]).
Qed.

Lemma core_run_callbacks f f' g g' history st1 st2 :
  same_presence g g' = true ->
  core st1 = core st2 ->
  core (run f g history st1) = core (run f' g' history st2).
Proof.
  intros Hg. revert st1 st2.
  induction history as [|ev history IH]; intros st1 st2 H; [exact H|].
  simpl. apply IH. by apply core_step_callbacks.
Qed.

(** X7.  What the callbacks do when invoked (return, leave work pending, or
    throw) has no influence on the stream: for the same events, the
    promise ends up the same and the callbacks are invoked with the
    same arguments in the same order.  A throwing callback is logged,
    it does not abort the stream or lose the chunk. *)
Theorem callbacks_cannot_disturb_stream
    (this : CodessaApiClient) (net : Network) (request : ChatRequest)
    (onChunk onChunk' : Callback) (onAction onAction' : option Callback) :
  same_presence onAction onAction' = true ->
  let out := sendChatMessage this net request (Some onChunk) onAction in
  let out' := sendChatMessage this net request (Some onChunk') onAction' in
  result out = result out'
  /\ invocations (effects out) = invocations (effects out').
Proof.
  intros Hg. cbv zeta. unfold sendChatMessage.
  destruct (config this) as [cfg|]; [|done].
  destruct (streamResponses cfg); [|done]. simpl.
  pose proof (core_run_callbacks onChunk onChunk' onAction onAction' (history net)
                (streamChatMessage this cfg request) (streamChatMessage this cfg request)
                Hg eq_refl) as H.
  unfold core in H. by injection H as _ _ -> _ ->.
Qed.

(** A callback that throws on every invocation. *)
Lemma callbacks_cannot_disturb_stream_witness :
  let throwing : Callback := fun _ _ => Threw (Js.new_Error "render failed") in
  let net := network [Message (content_message "Hello! ");
                      Message (action_message edit_action);
                      Message (content_message "How can I help?");
                      Message done_message] in
  result (sendChatMessage client_streaming net hello (Some throwing) (Some throwing))
  = result (sendChatMessage client_streaming net hello (Some immediate) (Some deferred))
  /\ invocations (effects (sendChatMessage client_streaming net hello
                             (Some throwing) (Some throwing)))
     = invocations (effects (sendChatMessage client_streaming net hello
                               (Some immediate) (Some deferred))).
Proof.
  apply (callbacks_cannot_disturb_stream client_streaming
           (network [Message (content_message "Hello! ");
                     Message (action_message edit_action);
                     Message (content_message "How can I help?");
                     Message done_message])
           hello (fun _ _ => Threw (Js.new_Error "render failed")) immediate
           (Some (fun _ _ => Threw (Js.new_Error "render failed"))) (Some deferred)).
  reflexivity.
Defined.

(** X8.  The [content] member of a content envelope is not checked to be a
    string.  It is appended as string concatenation converts it (a
    missing member as the text [undefined], [null] as [null], a number
    as its digits) and handed to [onChunk] as it is; when the conversion
    throws, the envelope is skipped: logged, nothing appended, [onChunk]
    not invoked. *)
Theorem content_member_is_coerced
    (onChunk : Callback) (onAction : option Callback)
    (event : MessageEvent) (st : StreamState) :
  has_type "content" event = true ->
  closed st = false ->
  let st' := step onChunk onAction st (Message event) in
  match Js.to_string (payload "content" event) with
  | Js.Normal text =>
      fullContent st' = fullContent st +:+ text
      /\ chunk_calls (trace st') = chunk_calls (trace st) ++ [payload "content" event]
  | Js.Throw e =>
      fullContent st' = fullContent st
      /\ chunk_calls (trace st') = chunk_calls (trace st)
      /\ logged (trace st')
         = logged (trace st) ++ [("Error parsing stream data:", Caught e)]
  end.
Proof.
  intros Ht Hopen. cbv zeta. simpl.
  rewrite onmessage_content_value by done.
  destruct (Js.to_string (payload "content" event)) as [text|e].
  - set (st0 := set_fullContent _ _).
    destruct (Streaming.after_call_fields OnChunk onChunk (payload "content" event) st0)
      as (-> & _).
    by destruct (Streaming.after_OnChunk onChunk (payload "content" event) st0) as (-> & _).
  - simpl. rewrite Streaming.chunk_calls_app, Streaming.logged_app. simpl.
    by rewrite app_nil_r.
Qed.

Lemma content_member_is_coerced_witness :
  let start := streamChatMessage client_streaming config_streaming hello in
  let st' := step immediate None start (Message bare_content_message) in
  fullContent st' = "undefined"
  /\ chunk_calls (trace st') = [Js.Undefined].
Proof.
  apply (content_member_is_coerced immediate None bare_content_message
           (streamChatMessage client_streaming config_streaming hello)).
  - reflexivity.
  - reflexivity.
Defined.

(** Content envelopes are handled in the same way whether or not the
    stream has been closed. *)
Lemma run_contents_any f g cs events st :
  Forall2 content_envelope cs events ->
  let st' := run f g (map Message events) st in
  promise st' = promise st
  /\ chunk_calls (trace st') = chunk_calls (trace st) ++ map Js.Str cs
  /\ closes (trace st') = closes (trace st).
Proof.
  intros H. revert st.
  induction H as [|c event cs events Hc _ IH]; intros st; cbv zeta.
  - simpl. by rewrite app_nil_r.
  - simpl. rewrite (Streaming.onmessage_content _ _ _ _ _ Hc).
    set (st0 := set_fullContent (fullContent st +:+ c) st).
    destruct (Streaming.after_call_fields OnChunk f (Js.Str c) st0) as (_ & _ & Hp & _).
    destruct (Streaming.after_OnChunk f (Js.Str c) st0) as (Hcc & _ & _ & _ & Hcl).
    cbv zeta in *.
    destruct (IH (after_call OnChunk f (Js.Str c) st0)) as (IHp & IHcc & IHcl).
    fold (run f g (map Message events) (after_call OnChunk f (Js.Str c) st0)).
    rewrite IHp, IHcc, IHcl, Hp, Hcc, Hcl. subst st0. simpl.
    by rewrite <- app_assoc.
Qed.



End ReaderInvariants.

(** ** Further properties of the diagnostics provider *)

Module DiagnosticsProps.
Import Policy Observations Examples.

(** Rounding a whole number to a double leaves it as it is below 2^53,
    and keeps its sign in any case. *)
Lemma to_double_safe (z : Z) : (Z.abs z < 2 ^ 53)%Z -> Js.to_double z = z.
Proof.
  intros H. unfold Js.to_double. apply Z.ltb_lt in H. by rewrite H.
Qed.

Lemma to_double_magnitude (z : Z) :
  (2 ^ 53 <= Z.abs z)%Z -> exists m, (0 < m)%Z /\ Js.to_double z = (Z.sgn z * m)%Z.
Proof.
  intros H. unfold Js.to_double.
  replace (Z.abs z <? 2 ^ 53)%Z with false by (symmetry; apply Z.ltb_ge; lia).
  set (a := Z.abs z) in *.
  assert (Ha : (0 < a)%Z) by (assert (0 < 2 ^ 53)%Z by done; lia).
  assert (Hlog : (53 <= Z.log2 a)%Z) by (apply Z.log2_le_pow2; lia).
  set (ulp := (2 ^ (Z.log2 a - 52))%Z).
  assert (Hulp : (0 < ulp)%Z) by (apply Z.pow_pos_nonneg; lia).
  assert (Hle : (ulp <= a)%Z).
  { transitivity (2 ^ Z.log2 a)%Z; [apply Z.pow_le_mono_r; lia|].
    by apply Z.log2_spec. }
  assert (Hq : (1 <= a / ulp)%Z) by (apply Z.div_le_lower_bound; lia).
  eexists. split; [|reflexivity].
  repeat case_match; nia.
Qed.

Lemma to_double_nonneg (z : Z) : (0 <= z)%Z -> (0 <= Js.to_double z)%Z.
Proof.
  intros Hz. destruct (Z_lt_le_dec (Z.abs z) (2 ^ 53)) as [H|H].
  - by rewrite to_double_safe.
  - destruct (to_double_magnitude z H) as (m & Hm & ->).
    assert (0 <= Z.sgn z)%Z by (by apply Z.sgn_nonneg). nia.
Qed.

Lemma to_double_neg (z : Z) : (z < 0)%Z -> (Js.to_double z < 0)%Z.
Proof.
  intros Hz. destruct (Z_lt_le_dec (Z.abs z) (2 ^ 53)) as [H|H].
  - by rewrite to_double_safe.
  - destruct (to_double_magnitude z H) as (m & Hm & ->).
    rewrite (Z.sgn_neg z Hz). lia.
Qed.

Lemma end_accepted_coordinate (n : option Z) (fallback : Z) :
  end_accepted n = true -> (0 <= fallback)%Z ->
  (0 <= if_number n (fun v => Js.minus v 1) fallback)%Z.
Proof.
  unfold end_accepted, if_number. destruct n as [v|]; [|done].
  intros Hv%Z.leb_le Hf. destruct (Z.eqb_spec v 0); [done|].
  apply to_double_nonneg. lia.
Qed.

Lemma end_rejected_coordinate (n : option Z) (fallback : Z) :
  end_accepted n = false -> (if_number n (fun v => Js.minus v 1) fallback < 0)%Z.
Proof.
  unfold end_accepted, if_number. destruct n as [v|]; [|done].
  intros Hv%Z.leb_gt. destruct (Z.eqb_spec v 0); [lia|].
  apply to_double_neg. lia.
Qed.

Lemma new_Range_accepts (sl sc el ec : Z) :
  (0 <= sl)%Z -> (0 <= sc)%Z -> (0 <= el)%Z -> (0 <= ec)%Z ->
  exists r, new_Range sl sc el ec = Js.Normal r.
Proof.
  intros. unfold new_Range.
  replace (sl <? 0)%Z with false by (symmetry; apply Z.ltb_ge; lia).
  replace (sc <? 0)%Z with false by (symmetry; apply Z.ltb_ge; lia).
  replace (el <? 0)%Z with false by (symmetry; apply Z.ltb_ge; lia).
  replace (ec <? 0)%Z with false by (symmetry; apply Z.ltb_ge; lia).
  simpl. destruct (_ || _); eauto.
Qed.

Lemma new_Range_rejects (sl sc el ec : Z) :
  (sl < 0 \/ sc < 0 \/ el < 0 \/ ec < 0)%Z ->
  new_Range sl sc el ec = Js.Throw (Js.new_Error "illegal argument").
Proof.
  intros H. unfold new_Range.
  replace ((sl <? 0) || (sc <? 0) || (el <? 0) || (ec <? 0))%Z with true; [done|].
  symmetry. rewrite !orb_true_iff, !Z.ltb_lt. tauto.
Qed.

(** Exactly the well positioned violations can be turned into a
    diagnostic. *)
Lemma to_diagnostic_accepts (v : PolicyViolation) :
  well_positioned v = true ->
  exists d, to_diagnostic v = Js.Normal d
            /\ code d = rule v
            /\ source d = "GitGuard"
            /\ diag_severity d = mapSeverity (severity v)
            /\ diag_message d = "[" +:+ rule v +:+ "] " +:+ message v
            /\ diag_fix d = stored_fix (fix_ v).
Proof.
  unfold well_positioned. rewrite !andb_true_iff, !Z.leb_le.
  intros [[[Hl Hc] Hel] Hec]. unfold to_diagnostic.
  destruct (new_Range_accepts (Js.minus (line v) 1) (Js.minus (column v) 1)
              (if_number (endLine v) (fun n => Js.minus n 1) (Js.minus (line v) 1))
              (if_number (endColumn v) (fun n => Js.minus n 1) (Js.plus (column v) 10)))
    as [r ->].
  - apply to_double_nonneg. lia.
  - apply to_double_nonneg. lia.
  - apply end_accepted_coordinate; [done|]. apply to_double_nonneg. lia.
  - apply end_accepted_coordinate; [done|]. apply to_double_nonneg. lia.
  - simpl. eauto 10.
Qed.

Lemma to_diagnostic_rejects (v : PolicyViolation) :
  well_positioned v = false ->
  to_diagnostic v = Js.Throw (Js.new_Error "illegal argument").
Proof.
  unfold well_positioned. rewrite !andb_false_iff, !Z.leb_gt.
  intros H. unfold to_diagnostic. rewrite new_Range_rejects; [done|].
  destruct H as [[[H|H]|H]|H].
  - left. apply to_double_neg. lia.
  - right. left. apply to_double_neg. lia.
  - right. right. left. by apply end_rejected_coordinate.
  - right. right. right. by apply end_rejected_coordinate.
Qed.

Lemma map_diagnostics_accepts (violations : list PolicyViolation) :
  forallb well_positioned violations = true ->
  exists ds, map_diagnostics violations = Js.Normal ds
             /\ map code ds = map rule violations
             /\ map diag_severity ds = map (fun v => mapSeverity (severity v)) violations
             /\ Forall (fun d => source d = "GitGuard") ds.
Proof.
  induction violations as [|v vs IH]; simpl.
  - intros _. exists []. by repeat split.
  - rewrite andb_true_iff. intros [Hv Hvs].
    destruct (to_diagnostic_accepts v Hv) as (d & -> & Hcode & Hsrc & Hsev & _).
    destruct (IH Hvs) as (ds & -> & Hcodes & Hsevs & Hsrcs). simpl.
    exists (d :: ds). simpl. rewrite Hcode, Hcodes, Hsev, Hsevs.
    repeat split. by constructor.
Qed.

Lemma map_diagnostics_rejects (violations : list PolicyViolation) :
  forallb well_positioned violations = false ->
  map_diagnostics violations = Js.Throw (Js.new_Error "illegal argument").
Proof.
  induction violations as [|v vs IH]; simpl; [done|].
  destruct (well_positioned v) eqn:Hv.
  - simpl. intros Hvs. destruct (to_diagnostic_accepts v Hv) as (d & -> & _).
    simpl. by rewrite IH.
  - intros _. by rewrite to_diagnostic_rejects.
Qed.

(** X10.  A successful check replaces the diagnostics of the checked document
    and of no other: one diagnostic per violation, in the order
    reported, each carrying the rule as its code, the mapped severity
    and the source GitGuard; an empty report clears the document's
    diagnostics.  Nothing is shown to the user. *)
Theorem successful_check_sets_diagnostics
    (host : Host) (document : TextDocument) (collection : DiagnosticCollection)
    (violations : list PolicyViolation) :
  scheme (uri document) = "file" ->
  backend host (request_of document) = Js.Normal violations ->
  forallb well_positioned violations = true ->
  exists diagnostics,
    checkDocumentPolicies host document collection
    = (<[ uri document := diagnostics ]> collection, [CheckPolicies (request_of document)])
    /\ map code diagnostics = map rule violations
    /\ map diag_severity diagnostics = map (fun v => mapSeverity (severity v)) violations
    /\ Forall (fun d => source d = "GitGuard") diagnostics
    /\ length diagnostics = length violations.
Proof.
  intros Hs Hb Hv. unfold checkDocumentPolicies. rewrite Hs. simpl.
  fold (request_of document). unfold checkPolicies. rewrite Hb.
  destruct (map_diagnostics_accepts violations Hv) as (ds & Hds & Hc & Hsev & Hsrc).
  unfold updateDiagnostics. rewrite Hds. simpl.
  exists ds. repeat split; try done.
  by rewrite <- (length_map code), Hc, length_map.
Qed.

Lemma successful_check_sets_diagnostics_witness :
  exists diagnostics,
    checkDocumentPolicies cancelling_host document_a ∅
    = (<[ file_a := diagnostics ]> ∅, [CheckPolicies (request_of document_a)])
    /\ map code diagnostics = ["no-unused"]
    /\ map diag_severity diagnostics = [Warning]
    /\ Forall (fun d => source d = "GitGuard") diagnostics
    /\ length diagnostics = 1.
Proof.
  apply (successful_check_sets_diagnostics cancelling_host document_a ∅ [unused_import]).
  - reflexivity.
  - reflexivity.
  - reflexivity.
Defined.

Lemma wrapped_error_text (error : Js.Error) :
  Js.Error_toString
    (Js.new_Error ("Failed to check policies: " +:+ Js.Error_toString error))
  = "Error: Failed to check policies: " +:+ Js.Error_toString error.
Proof. reflexivity. Qed.

(** X11.  When the backend call fails, the diagnostics collection is left as
    it was (earlier diagnostics of the document are neither cleared nor
    replaced), and the user is shown one error message, in which the
    prefix occurs twice: once from the client and once from the
    provider. *)
Theorem failed_check_keeps_diagnostics
    (host : Host) (document : TextDocument) (collection : DiagnosticCollection)
    (error : Js.Error) :
  scheme (uri document) = "file" ->
  backend host (request_of document) = Js.Throw error ->
  fst (checkDocumentPolicies host document collection) = collection
  /\ checks_sent (snd (checkDocumentPolicies host document collection))
     = [request_of document]
  /\ error_messages (snd (checkDocumentPolicies host document collection))
     = ["Failed to check policies: Error: Failed to check policies: "
        +:+ Js.Error_toString error].
Proof.
  intros Hs Hb. unfold checkDocumentPolicies. rewrite Hs. simpl.
  fold (request_of document). unfold checkPolicies. rewrite Hb. simpl.
  split; [done|]. split; [done|]. by rewrite wrapped_error_text.
Qed.

Lemma failed_check_keeps_diagnostics_witness :
  fst (checkDocumentPolicies failing_host document_a ∅) = ∅
  /\ checks_sent (snd (checkDocumentPolicies failing_host document_a ∅))
     = [request_of document_a]
  /\ error_messages (snd (checkDocumentPolicies failing_host document_a ∅))
     = ["Failed to check policies: Error: Failed to check policies: Error: Network Error"].
Proof.
  apply (failed_check_keeps_diagnostics failing_host document_a ∅
           (Js.new_Error "Network Error")).
  - reflexivity.
  - reflexivity.
Defined.

(** X12.  One violation reported at line 0 or column 0 (or with a negative
    end) is enough to lose the whole report: no diagnostic of that
    response is set, not even for its well positioned violations; the
    collection is left as it was and an error message is shown. *)
Theorem misplaced_violation_discards_report
    (host : Host) (document : TextDocument) (collection : DiagnosticCollection)
    (violations : list PolicyViolation) :
  scheme (uri document) = "file" ->
  backend host (request_of document) = Js.Normal violations ->
  forallb well_positioned violations = false ->
  fst (checkDocumentPolicies host document collection) = collection
  /\ length (error_messages (snd (checkDocumentPolicies host document collection))) = 1.
Proof.
  intros Hs Hb Hv. unfold checkDocumentPolicies. rewrite Hs. simpl.
  fold (request_of document). unfold checkPolicies. rewrite Hb.
  unfold updateDiagnostics. by rewrite (map_diagnostics_rejects violations Hv).
Qed.

Lemma misplaced_violation_discards_report_witness :
  fst (checkDocumentPolicies misplacing_host document_a ∅) = ∅
  /\ length (error_messages (snd (checkDocumentPolicies misplacing_host document_a ∅))) = 1.
Proof.
  apply (misplaced_violation_discards_report misplacing_host document_a ∅
           [unused_import; misplaced_violation]).
  - reflexivity.
  - reflexivity.
  - reflexivity.
Defined.

(** X13.  A violation without an end position, or with end line and end
    column 0 (which the conditional treats as absent), whose line and
    column are at least 1 and small enough for the arithmetic to be
    exact (the line and the column plus ten are safe integers), is
    underlined on its own line from its column for eleven characters. *)
Theorem default_range_of_violation (v : PolicyViolation) :
  (1 <= line v)%Z ->
  (1 <= column v)%Z ->
  safe_integer (line v) = true ->
  safe_integer (column v + 10) = true ->
  absent_or_zero (endLine v) = true ->
  absent_or_zero (endColumn v) = true ->
  exists d,
    to_diagnostic v = Js.Normal d
    /\ range d = MkRange (line v - 1) (column v - 1) (line v - 1) (column v + 10)
    /\ (endCharacter (range d) - startCharacter (range d) = 11)%Z.
Proof.
  unfold safe_integer. intros Hl Hc Hsl%Z.leb_le Hsc%Z.leb_le Hel Hec.
  unfold to_diagnostic, Js.minus, Js.plus.
  assert (H53 : (2 ^ 53 = 9007199254740992)%Z) by done.
  rewrite !to_double_safe by lia.
  assert (Hline : if_number (endLine v) (fun n => Js.to_double (n - 1)) (line v - 1)%Z
                  = (line v - 1)%Z).
  { unfold if_number, absent_or_zero in *. destruct (endLine v) as [n|]; [|done].
    by rewrite Hel. }
  assert (Hcol : if_number (endColumn v) (fun n => Js.to_double (n - 1)) (column v + 10)%Z
                 = (column v + 10)%Z).
  { unfold if_number, absent_or_zero in *. destruct (endColumn v) as [n|]; [|done].
    by rewrite Hec. }
  rewrite Hline, Hcol. unfold new_Range.
  replace (line v - 1 <? 0)%Z with false by (symmetry; apply Z.ltb_ge; lia).
  replace (column v - 1 <? 0)%Z with false by (symmetry; apply Z.ltb_ge; lia).
  replace (column v + 10 <? 0)%Z with false by (symmetry; apply Z.ltb_ge; lia).
  replace (line v - 1 <? line v - 1)%Z with false by (symmetry; apply Z.ltb_ge; lia).
  replace (column v + 10 <? column v - 1)%Z with false by (symmetry; apply Z.ltb_ge; lia).
  simpl. rewrite andb_false_r. simpl. eexists. split; [reflexivity|]. simpl.
  split; [done|lia].
Qed.

Lemma default_range_of_violation_witness :
  exists d,
    to_diagnostic unused_import = Js.Normal d
    /\ range d = MkRange 0 4 0 15
    /\ (endCharacter (range d) - startCharacter (range d) = 11)%Z.
Proof.
  apply (default_range_of_violation unused_import).
  - simpl. lia.
  - simpl. lia.
  - reflexivity.
  - reflexivity.
  - reflexivity.
  - reflexivity.
Defined.

End DiagnosticsProps.

(** ** Further properties of the bulk scan *)

Module ScanProps.
Import Policy Observations Examples.

Lemma progress_reports_app es es' :
  progress_reports (es ++ es') = progress_reports es ++ progress_reports es'.
Proof. apply omap_app. Qed.

Lemma completion_messages_app es es' :
  completion_messages (es ++ es') = completion_messages es ++ completion_messages es'.
Proof. apply omap_app. Qed.

(** What [checkDocumentPolicies] can do to the collection. *)
Lemma checkDocumentPolicies_collection host document collection :
  fst (checkDocumentPolicies host document collection) = collection
  \/ exists ds,
       fst (checkDocumentPolicies host document collection)
       = <[ uri document := ds ]> collection.
Proof.
  unfold checkDocumentPolicies.
  destruct (negb _); [by left|].
  destruct (checkPolicies host _) as [[violations|error] called]; [|by left].
  unfold updateDiagnostics. destruct (map_diagnostics violations); simpl; eauto.
Qed.

(** Working on a file reports no progress and no completion by itself. *)
Lemma check_file_silent host file collection :
  progress_reports (snd (check_file host file collection)) = []
  /\ completion_messages (snd (check_file host file collection)) = [].
Proof.
  unfold check_file, checkDocumentPolicies, checkPolicies.
  destruct (openTextDocument host file) as [document|error]; [|done].
  destruct (negb _); [done|].
  destruct (backend host _) as [violations|error]; simpl; [|done].
  destruct (updateDiagnostics _ _ _); done.
Qed.

Lemma scan_never_cancelled host total files completed collection :
  (forall i, completed <= i < completed + length files ->
             isCancellationRequested host i = false) ->
  scan host total files completed collection
  = scan (uninterrupted host) total files completed collection.
Proof.
  revert completed collection.
  induction files as [|file files IH]; intros completed collection Hnever; [done|].
  simpl. rewrite Hnever by (simpl; lia).
  rewrite PolicyScan.check_file_uninterrupted.
  destruct (check_file host file collection) as [collection1 done1].
  rewrite IH; [done|]. intros i Hi. apply Hnever. simpl. lia.
Qed.

Lemma scan_uninterrupted_reports host total files completed collection :
  let '(_, _, done) := scan (uninterrupted host) total files completed collection in
  progress_reports done
  = map (fun i => (i, total)) (seq (S completed) (length files))
  /\ completion_messages done = [].
Proof.
  revert completed collection.
  induction files as [|file files IH]; intros completed collection; simpl; [done|].
  rewrite PolicyScan.check_file_uninterrupted.
  destruct (check_file_silent host file collection) as [Hp Hc].
  destruct (check_file host file collection) as [collection1 done1]; simpl in *.
  specialize (IH (S completed) collection1).
  destruct (scan (uninterrupted host) total files (S completed) collection1)
    as [[completed2 collection2] later].
  destruct IH as [IHp IHc].
  rewrite progress_reports_app, completion_messages_app, Hp, Hc. simpl.
  by rewrite IHp, IHc.
Qed.

(** X14.  A scan that is never cancelled works on every file found, in order,
    and counts every one of them as checked whether or not it could be
    opened or its check succeeded: progress is reported after each file
    as 1 of n, 2 of n, ..., n of n, and the completion message gives n,
    the number of files found. *)
Theorem uncancelled_scan_counts_every_file
    (host : Host) (collection : DiagnosticCollection) (folders : list string) :
  workspaceFolders host = Some folders ->
  (forall i, i <= length (findFiles host) -> isCancellationRequested host i = false) ->
  let n := length (findFiles host) in
  let es := snd (checkAllPolicies host collection) in
  opened es = findFiles host
  /\ progress_reports es = map (fun i => (i, n)) (seq 1 n)
  /\ completion_messages es = [n]
  /\ progress_showing es = false.
Proof.
  intros Hfolders Hnever. cbv zeta. unfold checkAllPolicies. rewrite Hfolders.
  rewrite scan_never_cancelled by (intros; apply Hnever; lia).
  pose proof (PolicyScan.scan_uninterrupted host (length (findFiles host))
                (findFiles host) 0 collection) as H1.
  pose proof (scan_uninterrupted_reports host (length (findFiles host))
                (findFiles host) 0 collection) as H2.
  destruct (scan (uninterrupted host) _ _ 0 collection) as [[completed kept] done].
  destruct H1 as (-> & Ho & _). destruct H2 as [Hp Hc]. simpl.
  rewrite Hnever by done. simpl.
  assert (Hshape :
    ProgressOpened "Checking GitGuard Policies"
    :: done ++ [ShowInformationMessage (length (findFiles host)); ProgressClosed]
    = (ProgressOpened "Checking GitGuard Policies"
       :: done ++ [ShowInformationMessage (length (findFiles host))]) ++ [ProgressClosed]).
  { simpl. by rewrite <- app_assoc. }
  rewrite Hshape, PolicyScan.progress_showing_closed.
  rewrite PolicyScan.opened_app, progress_reports_app, completion_messages_app, Ho, Hp, Hc.
  simpl. by rewrite !app_nil_r.
Qed.

Lemma uncancelled_scan_counts_every_file_witness :
  let es := snd (checkAllPolicies failing_host ∅) in
  opened es = [file_a; file_b; file_c]
  /\ progress_reports es = [(1, 3); (2, 3); (3, 3)]
  /\ completion_messages es = [3]
  /\ progress_showing es = false.
Proof.
  apply (uncancelled_scan_counts_every_file failing_host ∅ ["/w"]).
  - reflexivity.
  - reflexivity.
Defined.

Lemma scan_other_uri host total files completed collection (u : Uri) :
  Forall (fun document => uri document <> u) (documents_of host files) ->
  snd (fst (scan host total files completed collection)) !! u = collection !! u.
Proof.
  revert completed collection.
  induction files as [|file files IH]; intros completed collection Hu; [done|].
  simpl. destruct (isCancellationRequested host completed); [done|].
  unfold documents_of in Hu. simpl in Hu. fold (documents_of host files) in Hu.
  unfold check_file.
  destruct (openTextDocument host file) as [document|error].
  - apply Forall_cons in Hu as [Hdoc Hrest].
    destruct (checkDocumentPolicies_collection host document collection) as [H|[ds H]];
      destruct (checkDocumentPolicies host document collection) as [collection1 done1];
      simpl in H; subst collection1;
      specialize (IH (S completed)) as IH';
      match goal with |- context [scan host total files (S completed) ?c] =>
        specialize (IH' c Hrest); destruct (scan host total files (S completed) c)
          as [[completed2 collection2] later]
      end; simpl in *; rewrite IH'; [done|]. by rewrite lookup_insert_ne.
  - specialize (IH (S completed) collection Hu).
    destruct (scan host total files (S completed) collection)
      as [[completed2 collection2] later]. done.
Qed.

(** X15.  The scan, cancelled or not, touches the diagnostics of no resource
    other than the documents its files open as. *)
Theorem scan_leaves_other_diagnostics
    (host : Host) (collection : DiagnosticCollection) (u : Uri) :
  Forall (fun document => uri document <> u) (documents_of host (findFiles host)) ->
  fst (checkAllPolicies host collection) !! u = collection !! u.
Proof.
  intros Hu. unfold checkAllPolicies.
  destruct (workspaceFolders host); [|done].
  pose proof (scan_other_uri host (length (findFiles host)) (findFiles host) 0
                collection u Hu) as H.
  destruct (scan host _ _ 0 collection) as [[completed kept] done]. done.
Qed.

Lemma scan_leaves_other_diagnostics_witness :
  fst (checkAllPolicies cancelling_host {[ Policy.MkUri "file" "/w/z.ts" := [] ]})
    !! Policy.MkUri "file" "/w/z.ts"
  = ({[ Policy.MkUri "file" "/w/z.ts" := [] ]} : DiagnosticCollection)
      !! Policy.MkUri "file" "/w/z.ts".
Proof.
  apply (scan_leaves_other_diagnostics cancelling_host
           {[ Policy.MkUri "file" "/w/z.ts" := [] ]} (Policy.MkUri "file" "/w/z.ts")).
  repeat constructor; discriminate.
Defined.

End ScanProps.

(** ** Properties of the web variants *)

Module WebProps.
Import ApiClient Observations Examples.

Lemma cors_keeps_authorization (i : Axios.Instance) :
  Axios.headers_common (Web.add_cors_headers i) !! "Authorization"
  = Axios.headers_common i !! "Authorization".
Proof.
  unfold Web.add_cors_headers, Axios.set_common. simpl.
  by rewrite !lookup_insert_ne.
Qed.

Lemma cors_entries (i : Axios.Instance) :
  Axios.headers_common (Web.add_cors_headers i) !! "Access-Control-Allow-Origin" = Some "*"
  /\ Axios.headers_common (Web.add_cors_headers i) !! "Access-Control-Allow-Methods"
     = Some "GET, POST, PUT, DELETE, OPTIONS"
  /\ Axios.headers_common (Web.add_cors_headers i) !! "Access-Control-Allow-Headers"
     = Some "Content-Type, Authorization".
Proof.
  unfold Web.add_cors_headers, Axios.set_common. simpl.
  repeat split.
  - rewrite lookup_insert_ne by done. rewrite lookup_insert_ne by done.
    by rewrite lookup_insert_eq.
  - rewrite lookup_insert_ne by done. by rewrite lookup_insert_eq.
  - by rewrite lookup_insert_eq.
Qed.

(** X16.  Outside a web session the web-compatible client is the base client:
    every object it can be is one the base class can be, so everything
    shown of constructed base clients holds of it. *)
Theorem desktop_web_client_is_base_client (this : CodessaApiClient) :
  Web.constructed false this -> constructed this.
Proof.
  induction 1 as [s | s this _ IH].
  - apply (constructed_new (Web.codessa s)).
  - apply (constructed_update (Web.codessa s)), IH.
Qed.

Lemma desktop_web_client_is_base_client_witness :
  constructed (Web.updateConfiguration false web_settings (Web.constructor false web_settings)).
Proof.
  apply (desktop_web_client_is_base_client
           (Web.updateConfiguration false web_settings (Web.constructor false web_settings))).
  apply Web.constructed_update, Web.constructed_new.
Defined.

(** X17.  In a web session the constructor does set the base URL (to the web
    endpoint if one is configured and not empty, else to the
    [apiEndpoint] setting, else to nothing) and the three CORS entries,
    but, like the base constructor, no Authorization entry. *)
Theorem web_constructor_defaults (s : Web.WebConfiguration) :
  exists c cfg,
    client (Web.constructor true s) = Some c
    /\ config (Web.constructor true s) = Some cfg
    /\ apiKey cfg = get (setting_apiKey (Web.codessa s)) ""
    /\ Axios.baseURL c
       = Web.or_setting (Web.setting_webApiEndpoint s) (setting_apiEndpoint (Web.codessa s))
    /\ Axios.headers_common c !! "Authorization" = None
    /\ Axios.headers_common c !! "Access-Control-Allow-Origin" = Some "*"
    /\ Axios.headers_common c !! "Access-Control-Allow-Methods"
       = Some "GET, POST, PUT, DELETE, OPTIONS"
    /\ Axios.headers_common c !! "Access-Control-Allow-Headers"
       = Some "Content-Type, Authorization".
Proof.
  eexists _, _. split; [reflexivity|]. split; [reflexivity|].
  split; [reflexivity|]. split; [reflexivity|].
  split; [by rewrite cors_keeps_authorization|]. apply cors_entries.
Qed.

Lemma web_constructed_client (this : CodessaApiClient) :
  Web.constructed true this ->
  exists c cfg, client this = Some c /\ config this = Some cfg
                /\ Axios.headers c = Axios.cc_headers create_config.
Proof.
  induction 1 as [s | s this _ (c & cfg & Hc & Hcfg & Hh)].
  - eexists _, _. repeat split; reflexivity.
  - unfold Web.updateConfiguration, Web.setupWebCompatibility, updateConfiguration.
    rewrite Hc. simpl. eexists _, _. repeat split; try reflexivity. exact Hh.
Qed.

(** X18.  After a refresh in a web session, POSTs go to the web endpoint (or,
    without one, to the [apiEndpoint] setting as it stands, without the
    built-in default) and carry the bearer header, but the stream of a
    streaming call is opened against the endpoint held in the
    configuration, that is the [apiEndpoint] setting or the built-in
    default: with a web endpoint configured, the init POST and the
    stream go to different hosts. *)
Theorem web_refresh_endpoints
    (s : Web.WebConfiguration) (this : CodessaApiClient) (request : ChatRequest) :
  Web.constructed true this ->
  exists c cfg hdrs req,
    client (Web.updateConfiguration true s this) = Some c
    /\ config (Web.updateConfiguration true s this) = Some cfg
    /\ Axios.baseURL c
       = Web.or_setting (Web.setting_webApiEndpoint s) (setting_apiEndpoint (Web.codessa s))
    /\ Axios.headers_common c !! "Authorization"
       = Some (bearer (setting_apiKey (Web.codessa s)))
    /\ trace (streamChatMessage (Web.updateConfiguration true s this) cfg request)
       = [NewEventSource
            (get (setting_apiEndpoint (Web.codessa s)) "https://api.codessa.dev"
             +:+ "/chat/stream") hdrs;
          Post req]
    /\ Axios.req_baseURL req
       = Web.or_setting (Web.setting_webApiEndpoint s) (setting_apiEndpoint (Web.codessa s))
    /\ Axios.req_url req = "/chat/stream/init".
Proof.
  intros (c0 & cfg0 & Hc & _ & _)%web_constructed_client.
  unfold Web.updateConfiguration, Web.setupWebCompatibility, updateConfiguration.
  rewrite Hc. simpl. eexists _, _, _, _.
  split; [reflexivity|]. split; [reflexivity|]. split; [reflexivity|].
  split.
  { rewrite cors_keeps_authorization. simpl. rewrite lookup_insert_eq. f_equal.
    by apply Configuration.authorization_bearer. }
  unfold streamChatMessage. simpl. split; [reflexivity|]. done.
Qed.

Lemma web_refresh_endpoints_witness :
  exists c cfg hdrs req,
    client (Web.updateConfiguration true web_settings (Web.constructor true web_settings))
    = Some c
    /\ config (Web.updateConfiguration true web_settings (Web.constructor true web_settings))
       = Some cfg
    /\ Axios.baseURL c = Some "https://web.codessa.dev"
    /\ Axios.headers_common c !! "Authorization" = Some "Bearer test-api-key"
    /\ trace (streamChatMessage
                (Web.updateConfiguration true web_settings (Web.constructor true web_settings))
                cfg hello)
       = [NewEventSource "https://api.codessa.dev/chat/stream" hdrs; Post req]
    /\ Axios.req_baseURL req = Some "https://web.codessa.dev"
    /\ Axios.req_url req = "/chat/stream/init".
Proof.
  apply (web_refresh_endpoints web_settings (Web.constructor true web_settings) hello).
  apply Web.constructed_new.
Defined.

(** The documents the web provider selects are never [file:] documents. *)
Lemma openDocuments_vfs (textDocuments : list Web.OpenDocument) :
  Forall (fun document => Policy.scheme (Policy.uri document) = "vscode-vfs")
         (Web.openDocuments textDocuments).
Proof.
  unfold Web.openDocuments.
  induction textDocuments as [|doc docs IH]; simpl; [constructor|].
  destruct (negb (Web.isUntitled doc)); simpl; [|exact IH].
  destruct (String.eqb_spec (Policy.scheme (Policy.uri (Web.document doc))) "vscode-vfs");
    simpl; [|exact IH].
  by constructor.
Qed.

Lemma web_completion_messages_app es es' :
  web_completion_messages (es ++ es')
  = web_completion_messages es ++ web_completion_messages es'.
Proof. apply omap_app. Qed.

Lemma web_checks_sent_app es es' :
  Web.checks_sent (es ++ es') = Web.checks_sent es ++ Web.checks_sent es'.
Proof. apply omap_app. Qed.

(** The loop of the web scan over documents that are not [file:]
    documents: it only counts. *)
Lemma web_scan_idle host total documents completed collection :
  Forall (fun document => Policy.scheme (Policy.uri document) = "vscode-vfs") documents ->
  let '(completed', collection', done) :=
    Web.scan host total documents completed collection in
  collection' = collection
  /\ Web.checks_sent done = []
  /\ web_completion_messages done = []
  /\ completed <= completed' <= completed + length documents
  /\ (forall i, completed <= i < completed' ->
                Policy.isCancellationRequested host i = false)
  /\ (Policy.isCancellationRequested host completed' = false ->
      completed' = completed + length documents).
Proof.
  intros H. revert completed collection.
  induction H as [|document documents Hs _ IH]; intros completed collection; simpl.
  - repeat split; try lia; intros; lia.
  - destruct (Policy.isCancellationRequested host completed) eqn:Hc.
    + repeat split; try lia; try (intros; lia). intros Hn. by rewrite Hn in Hc.
    + unfold Policy.checkDocumentPolicies. rewrite Hs. simpl.
      specialize (IH (S completed) collection).
      destruct (Web.scan host total documents (S completed) collection)
        as [[completed2 collection2] later].
      destruct IH as (-> & Hchecks & Hmsgs & Hle & Hbefore & Hall).
      repeat split; try done; try lia.
      * intros i Hi. destruct (decide (i = completed)) as [->|Hne]; [done|].
        apply Hbefore. lia.
      * intros Hn. rewrite Hall by done. lia.
Qed.

Lemma never_cancelled_true host n :
  never_cancelled host n = true
  <-> forall i, i <= n -> Policy.isCancellationRequested host i = false.
Proof.
  unfold never_cancelled. rewrite forallb_forall. split.
  - intros H i Hi. apply negb_true_iff, H, in_seq. lia.
  - intros H i Hi%in_seq. apply negb_true_iff, H. lia.
Qed.

(** X19.  In a web session the bulk scan never sends a policy check and never
    changes a diagnostic: the documents it selects have the scheme
    [vscode-vfs], and [checkDocumentPolicies] returns at once for every
    document whose scheme is not [file].  It counts them all the same:
    unless it is cancelled (or selects nothing), it announces all the
    selected documents as checked. *)
Theorem web_scan_checks_nothing
    (host : Policy.Host) (textDocuments : list Web.OpenDocument)
    (collection : Policy.DiagnosticCollection) :
  let es := snd (Web.checkAllPolicies true host textDocuments collection) in
  let n := length (Web.openDocuments textDocuments) in
  fst (Web.checkAllPolicies true host textDocuments collection) = collection
  /\ Web.checks_sent es = []
  /\ web_completion_messages es
     = match Web.openDocuments textDocuments with
       | [] => []
       | _ :: _ => if never_cancelled host n then [n] else []
       end.
Proof.
  cbv zeta. unfold Web.checkAllPolicies.
  pose proof (openDocuments_vfs textDocuments) as Hvfs.
  destruct (Web.openDocuments textDocuments) as [|document documents] eqn:Hdocs; [done|].
  pose proof (web_scan_idle host (length (document :: documents)) (document :: documents)
                0 collection Hvfs) as H.
  destruct (Web.scan host _ (document :: documents) 0 collection)
    as [[completed kept] done].
  destruct H as (-> & Hchecks & Hmsgs & Hle & Hbefore & Hall).
  cbn [fst snd]. split; [done|].
  change (Web.Desktop (Policy.ProgressOpened "Checking GitGuard Policies (Web Mode)")
          :: done ++ ?tail)
    with ([Web.Desktop (Policy.ProgressOpened "Checking GitGuard Policies (Web Mode)")]
          ++ done ++ tail).
  rewrite !web_checks_sent_app, !web_completion_messages_app, Hchecks, Hmsgs.
  destruct (Policy.isCancellationRequested host completed) eqn:Hc;
    cbn -[never_cancelled].
  - split; [done|].
    destruct (never_cancelled host (S (length documents))) eqn:Hn; [|done].
    apply never_cancelled_true with (i := completed) in Hn; [|simpl in Hle; lia].
    by rewrite Hn in Hc.
  - split; [done|]. rewrite (Hall eq_refl). cbn -[never_cancelled].
    replace (never_cancelled host (S (length documents))) with true; [done|].
    symmetry. apply never_cancelled_true. intros i Hi.
    destruct (decide (i = S (length documents))) as [->|Hne].
    + rewrite <- Hc. f_equal. rewrite (Hall eq_refl). simpl. lia.
    + apply Hbefore. rewrite (Hall eq_refl). simpl. lia.
Qed.

(** X20.  [configureWebHeaders] does not survive a refresh as a whole: the
    next [updateConfiguration] puts the base URL back to the configured
    [apiEndpoint] (the web endpoint is lost), while the three CORS
    entries stay in the shared defaults and the Authorization entry is
    the one of the refresh. *)
Theorem refresh_undoes_web_endpoint
    (webEndpoint : option string) (s : WorkspaceConfiguration) (this : CodessaApiClient) :
  constructed this ->
  exists c,
    client (updateConfiguration s (Web.configureWebHeaders webEndpoint this)) = Some c
    /\ Axios.baseURL c = Some (get (setting_apiEndpoint s) "https://api.codessa.dev")
    /\ Axios.headers_common c !! "Authorization" = Some (bearer (setting_apiKey s))
    /\ Axios.headers_common c !! "Access-Control-Allow-Origin" = Some "*"
    /\ Axios.headers_common c !! "Access-Control-Allow-Methods"
       = Some "GET, POST, PUT, DELETE, OPTIONS"
    /\ Axios.headers_common c !! "Access-Control-Allow-Headers"
       = Some "Content-Type, Authorization".
Proof.
  intros (c0 & cfg0 & Hc & _ & _)%Configuration.constructed_client.
  unfold Web.configureWebHeaders, updateConfiguration. rewrite Hc. simpl.
  eexists. split; [reflexivity|]. split; [reflexivity|]. cbn [Axios.headers_common Axios.set_common Axios.set_baseURL].
  split.
  { rewrite lookup_insert_eq. f_equal. by apply Configuration.authorization_bearer. }
  rewrite !(lookup_insert_ne _ "Authorization") by done.
  match goal with |- context [Web.add_cors_headers ?i] => apply (cors_entries i) end.
Qed.

Lemma refresh_undoes_web_endpoint_witness :
  exists c,
    client (updateConfiguration settings_with_key
              (Web.configureWebHeaders (Some "https://web.codessa.dev") client_streaming))
    = Some c
    /\ Axios.baseURL c = Some "https://api.codessa.dev"
    /\ Axios.headers_common c !! "Authorization" = Some "Bearer test-api-key"
    /\ Axios.headers_common c !! "Access-Control-Allow-Origin" = Some "*"
    /\ Axios.headers_common c !! "Access-Control-Allow-Methods"
       = Some "GET, POST, PUT, DELETE, OPTIONS"
    /\ Axios.headers_common c !! "Access-Control-Allow-Headers"
       = Some "Content-Type, Authorization".
Proof.
  apply (refresh_undoes_web_endpoint (Some "https://web.codessa.dev") settings_with_key
           client_streaming).
  apply constructed_new.
Defined.

End WebProps.

(** ** Properties of the Monaco message bridge *)

Module MonacoProps.
Import ApiClient Observations Examples.

(** X21.  Every [ai-assist] request is answered by exactly one message
    to the panel, carrying the request's [requestId].  The bridge calls
    [sendChatMessage] without callbacks, so whatever the configuration
    says about streaming no stream is opened and exactly one POST goes
    to [/chat], with [stream: false] and the default file name where the
    panel gave none.  The answer is [ai-response] with the [content] and
    [actions] members of the response body, and [ai-error] when the POST
    failed (with the client's prefixed message) or the body is [null]. *)
Theorem ai_assist_answers_once
    (this : CodessaApiClient) (net : Network) (workspaceRoot : option string)
    (data : Monaco.AssistData) :
  constructed this ->
  let done := fst (Monaco.handleAiAssist this net workspaceRoot data) in
  let posted := snd (Monaco.handleAiAssist this net workspaceRoot data) in
  exists c,
    client this = Some c
    /\ opens done = 0
    /\ posts done
       = [Axios.post c "/chat"
            (with_stream (Monaco.assist_request workspaceRoot data) false)]
    /\ length posted = 1
    /\ Forall (fun m => Monaco.requestId_of m = Monaco.assist_requestId data) posted
    /\ match respond net
               (Axios.post c "/chat"
                  (with_stream (Monaco.assist_request workspaceRoot data) false)) with
       | Js.Throw error =>
           posted = [Monaco.AiError (Monaco.assist_requestId data)
                       ("Failed to send chat message: " +:+ Js.Error_toString error)]
       | Js.Normal body =>
           if nullish body then
             exists text, posted = [Monaco.AiError (Monaco.assist_requestId data) text]
           else
             exists content acts,
               Js.get body "content" = Js.Normal content
               /\ Js.get body "actions" = Js.Normal acts
               /\ posted = [Monaco.AiResponse (Monaco.assist_requestId data) content acts]
       end.
Proof.
  intros (c & cfg & Hc & Hcfg & _)%Configuration.constructed_client. cbv zeta.
  exists c. split; [done|].
  unfold Monaco.handleAiAssist, sendChatMessage. rewrite Hcfg.
  assert (Hsync :
    (if streamResponses cfg
     then sendChatMessageSync this (respond net) (Monaco.assist_request workspaceRoot data)
     else sendChatMessageSync this (respond net) (Monaco.assist_request workspaceRoot data))
    = sendChatMessageSync this (respond net) (Monaco.assist_request workspaceRoot data))
    by (by destruct (streamResponses cfg)).
  rewrite Hsync. unfold sendChatMessageSync. rewrite Hc.
  destruct (respond net _) as [body|error]; cbn [fst snd effects result].
  - destruct body; cbn; repeat split; eauto; repeat constructor.
  - cbn. repeat split; eauto; repeat constructor.
Qed.

Lemma ai_assist_answers_once_witness :
  let done := fst (Monaco.handleAiAssist client_streaming (network []) None assist_data) in
  let posted := snd (Monaco.handleAiAssist client_streaming (network []) None assist_data) in
  exists c,
    client client_streaming = Some c
    /\ opens done = 0
    /\ posts done
       = [Axios.post c "/chat" (with_stream (Monaco.assist_request None assist_data) false)]
    /\ length posted = 1
    /\ Forall (fun m => Monaco.requestId_of m = Js.Number "1700000000000") posted
    /\ exists content acts,
         Js.get greeting "content" = Js.Normal content
         /\ Js.get greeting "actions" = Js.Normal acts
         /\ posted = [Monaco.AiResponse (Js.Number "1700000000000") content acts].
Proof.
  apply (ai_assist_answers_once client_streaming (network []) None assist_data).
  apply constructed_new.
Defined.

End MonacoProps.

(** ** Properties of the chat participant *)

Module ChatProps.
Import ApiClient Observations Examples.

Lemma errors_shown_app out out' :
  Chat.errors_shown (out ++ out') = Chat.errors_shown out ++ Chat.errors_shown out'.
Proof. apply omap_app. Qed.

Lemma rendered_no_errors new : Chat.errors_shown (Chat.rendered new) = [].
Proof.
  induction new as [|e new IH]; [done|].
  unfold Chat.rendered in *. cbn. destruct e as [| |chunk [p|err]| | |]; cbn; done.
Qed.

(** The error messages written while the events of a streaming call
    arrive. *)
Lemma follow_errors markdown handleAction history st awaiting :
  (awaiting = true -> promise st = Pending) ->
  Chat.errors_shown (Chat.follow markdown handleAction history st awaiting)
  = if awaiting then
      match promise (run markdown (Some handleAction) history st) with
      | Rejected e => ["❌ **Error**: " +:+ Js.message e]
      | _ => []
      end
    else [].
Proof.
  revert st awaiting.
  induction history as [|ev history IH]; intros st awaiting Hp.
  - simpl. destruct awaiting; [by rewrite Hp|done].
  - cbn [Chat.follow]. cbv zeta.
    set (st' := step markdown (Some handleAction) st ev).
    change (run markdown (Some handleAction) (ev :: history) st)
      with (run markdown (Some handleAction) history st').
    destruct awaiting.
    + unfold Chat.resume.
      destruct (promise st') as [|v|e] eqn:Hp'.
      * rewrite !errors_shown_app, rendered_no_errors. simpl.
        by rewrite (IH st' true).
      * rewrite !errors_shown_app, rendered_no_errors. simpl.
        rewrite (IH st' false) by done.
        by destruct (ReaderInvariants.run_stays_fulfilled markdown (Some handleAction)
                       history st' v Hp') as (v' & ->).
      * rewrite !errors_shown_app, rendered_no_errors. simpl.
        rewrite (IH st' false) by done.
        by rewrite (Streaming.run_rejected markdown (Some handleAction) history st' e Hp').
    + unfold Chat.resume.
      rewrite !errors_shown_app, rendered_no_errors. simpl.
      by rewrite (IH st' false).
Qed.

(** X22.  No failure of a chat request is silent, and none is reported
    twice: in either mode, and whatever arrives in whatever order, the
    [catch] clause of the handler writes exactly one error message to
    the chat when the promise of the client ends up rejected (with the
    message of that rejection), and none otherwise. *)
Theorem chat_rejection_rendered_once
    (this : CodessaApiClient) (net : Network) (w : Chat.Workspace) (prompt : string)
    (markdown handleAction : Callback) :
  Chat.errors_shown (snd (Chat.handleChatRequest this net w prompt markdown handleAction))
  = match result (sendChatMessage this net (Chat.chat_request w prompt)
                    (Some markdown) (Some handleAction)) with
    | Rejected e => ["❌ **Error**: " +:+ Js.message e]
    | _ => []
    end.
Proof.
  unfold Chat.handleChatRequest. cbn [snd].
  unfold sendChatMessage.
  destruct (config this) as [cfg|]; [|done].
  destruct (streamResponses cfg).
  - cbn [result].
    set (st := streamChatMessage this cfg (Chat.chat_request w prompt)).
    unfold Chat.resume.
    destruct (promise st) as [|v|e] eqn:Hp.
    + change (Chat.errors_shown
                (Chat.follow markdown handleAction (history net) st true)
              = match promise (run markdown (Some handleAction) (history net) st) with
                | Rejected e => ["❌ **Error**: " +:+ Js.message e]
                | _ => []
                end).
      by rewrite follow_errors.
    + change (Chat.errors_shown
                (Chat.follow markdown handleAction (history net) st false)
              = match promise (run markdown (Some handleAction) (history net) st) with
                | Rejected e => ["❌ **Error**: " +:+ Js.message e]
                | _ => []
                end).
      rewrite follow_errors by done.
      by destruct (ReaderInvariants.run_stays_fulfilled markdown (Some handleAction)
                     (history net) st v Hp) as (v' & ->).
    + change (Chat.errors_shown
                (Chat.render_error e
                 ++ Chat.follow markdown handleAction (history net) st false)
              = match promise (run markdown (Some handleAction) (history net) st) with
                | Rejected e => ["❌ **Error**: " +:+ Js.message e]
                | _ => []
                end).
      rewrite errors_shown_app, follow_errors by done.
      by rewrite (Streaming.run_rejected markdown (Some handleAction) (history net) st e Hp).
  - unfold Chat.resume.
    destruct (result (sendChatMessageSync this (respond net) (Chat.chat_request w prompt)));
      done.
Qed.

(** X23.  With streaming disabled the handler shows nothing of the
    response: the client answers through its return value, which the
    handler discards, and never through the callbacks.  After the
    progress note the chat stays empty when the POST succeeds, whatever
    the body holds; when it fails, the error of the client is shown. *)
Theorem synchronous_chat_shows_no_response
    (this : CodessaApiClient) (cfg : CodessaConfig) (c : Axios.Instance)
    (net : Network) (w : Chat.Workspace) (prompt : string)
    (markdown handleAction : Callback) :
  client this = Some c ->
  config this = Some cfg ->
  streamResponses cfg = false ->
  snd (Chat.handleChatRequest this net w prompt markdown handleAction)
  = Chat.Progress "Thinking..." ::
    match respond net
            (Axios.post c "/chat" (with_stream (Chat.chat_request w prompt) false)) with
    | Js.Normal _ => []
    | Js.Throw error =>
        Chat.render_error
          (Js.new_Error ("Failed to send chat message: " +:+ Js.Error_toString error))
    end.
Proof.
  intros Hc Hcfg Hs. unfold Chat.handleChatRequest, sendChatMessage.
  rewrite Hcfg, Hs. cbn [snd]. unfold sendChatMessageSync. rewrite Hc.
  by destruct (respond net _).
Qed.

Lemma synchronous_chat_shows_no_response_witness :
  snd (Chat.handleChatRequest client_sync (network []) workspace "Hello, world!"
         immediate deferred)
  = [Chat.Progress "Thinking..."].
Proof.
  apply (synchronous_chat_shows_no_response client_sync config_sync
            (Axios.create create_config) (network []) workspace "Hello, world!"
            immediate deferred).
  - reflexivity.
  - reflexivity.
  - reflexivity.
Defined.




Lemma rendered_app new new' :
  Chat.rendered (new ++ new') = Chat.rendered new ++ Chat.rendered new'.
Proof. apply omap_app. Qed.

Lemma run_appends_trace f g history st :
  exists es, trace (run f g history st) = trace st ++ es.
Proof.
  revert st. induction history as [|ev history IH]; intros st.
  - exists []. by rewrite app_nil_r.
  - simpl. destruct (ReaderInvariants.step_appends f g st ev) as (_ & _ & (es & Hes) & _).
    destruct (IH (step f g st ev)) as (es' & Hes').
    fold (run f g history (step f g st ev)) in *.
    exists (es ++ es'). by rewrite Hes', Hes, app_assoc.
Qed.

(** Once the handler has returned, its output is what the chunk callback
    goes on writing. *)
Lemma follow_after_return markdown handleAction history st :
  Chat.follow markdown handleAction history st false
  = Chat.rendered (drop (length (trace st))
                     (trace (run markdown (Some handleAction) history st))).
Proof.
  revert st. induction history as [|ev history IH]; intros st.
  - simpl. by rewrite drop_all.
  - cbn [Chat.follow]. cbv zeta. cbn [Chat.resume app].
    change (run markdown (Some handleAction) (ev :: history) st)
      with (run markdown (Some handleAction) history
              (step markdown (Some handleAction) st ev)).
    destruct (ReaderInvariants.step_appends markdown (Some handleAction) st ev)
      as (_ & _ & (es & Hes) & _).
    destruct (run_appends_trace markdown (Some handleAction) history
                (step markdown (Some handleAction) st ev)) as (es' & Hes').
    rewrite IH, Hes', Hes, !drop_app_length, <- app_assoc, drop_app_length.
    by rewrite rendered_app.
Qed.

(** What the chunk callback writes over content envelopes, when
    [stream.markdown] returns on every call and when it throws on every
    call. *)
Lemma rendered_contents_returned markdown handleAction cs events st :
  (forall t v, exists p, markdown t v = Returned p) ->
  Forall2 content_envelope cs events ->
  Chat.rendered (trace (run markdown (Some handleAction) (map Message events) st))
  = Chat.rendered (trace st) ++ map (fun c => Chat.MarkdownChunk (Js.Str c)) cs.
Proof.
  intros Hret H. revert st.
  induction H as [|c event cs events Hc _ IH]; intros st; [by rewrite app_nil_r|].
  simpl. rewrite IH, (Streaming.onmessage_content _ _ _ _ _ Hc). unfold after_call.
  cbn [trace set_fullContent]. destruct (Hret (trace st) (Js.Str c)) as [p ->].
  cbn [add_effect trace]. rewrite rendered_app. cbn. by rewrite <- app_assoc.
Qed.

Lemma rendered_contents_thrown markdown handleAction cs events st :
  (forall t v, exists err, markdown t v = Threw err) ->
  Forall2 content_envelope cs events ->
  Chat.rendered (trace (run markdown (Some handleAction) (map Message events) st))
  = Chat.rendered (trace st).
Proof.
  intros Hthrow H. revert st.
  induction H as [|c event cs events Hc _ IH]; intros st; [done|].
  simpl. rewrite IH, (Streaming.onmessage_content _ _ _ _ _ Hc). unfold after_call.
  cbn [trace set_fullContent]. destruct (Hthrow (trace st) (Js.Str c)) as [err ->].
  cbn [add_effect trace]. rewrite !rendered_app. cbn. by rewrite !app_nil_r.
Qed.

(** X25.  A failed [/chat/stream/init] POST ends the request in the chat
    but not the stream.  The handler logs and shows the error and
    returns, and nothing closes the event source: every content envelope
    that arrives afterwards is still handed to [stream.markdown].  What
    reaches the chat after the error message are the chunks for which
    that call returns: all of them, in order, if it always returns, and
    none if it always throws (the reader catches and logs the throw). *)
Theorem chat_stream_outlives_init_failure
    (this : CodessaApiClient) (cfg : CodessaConfig) (net : Network)
    (w : Chat.Workspace) (prompt : string) (markdown handleAction : Callback)
    (e : Js.Error) (cs : list string) (events : list MessageEvent) :
  constructed this ->
  config this = Some cfg ->
  streamResponses cfg = true ->
  Forall2 content_envelope cs events ->
  history net = InitRejected e :: map Message events ->
  let out := Chat.handleChatRequest this net w prompt markdown handleAction in
  snd out
  = Chat.Progress "Thinking..." :: Chat.render_error e ++ Chat.rendered (fst out)
  /\ chunk_calls (fst out) = map Js.Str cs
  /\ closes (fst out) = 0
  /\ ((forall t v, exists p, markdown t v = Returned p) ->
      Chat.rendered (fst out) = map (fun c => Chat.MarkdownChunk (Js.Str c)) cs)
  /\ ((forall t v, exists err, markdown t v = Threw err) ->
      Chat.rendered (fst out) = []).
Proof.
  intros Hthis Hcfg Hs Hcs Hh. cbv zeta.
  unfold Chat.handleChatRequest. cbn [fst snd].
  rewrite (Streaming.sendChatMessage_streaming _ _ _ _ _ _ Hcfg Hs). cbv zeta.
  cbn [effects]. rewrite Hcfg, Hs, Hh.
  destruct (Streaming.streamChatMessage_constructed this cfg (Chat.chat_request w prompt)
              Hthis) as (c & _ & ->).
  cbn [promise Chat.resume app].
  set (st0 := MkStream _ _ _ _ _).
  change (run markdown (Some handleAction) (InitRejected e :: map Message events) st0)
    with (run markdown (Some handleAction) (map Message events) (reject e st0)).
  set (st1 := reject e st0).
  destruct (Streaming.run_contents markdown (Some handleAction) cs events st1 Hcs eq_refl)
    as (_ & _ & _ & _ & Hcc & _).
  destruct (ReaderInvariants.run_contents_any markdown (Some handleAction) cs events st1 Hcs)
    as (_ & _ & Hcl).
  cbv zeta in *. split; [|split; [exact Hcc|split; [exact Hcl|split]]].
  - f_equal. cbn [Chat.follow]. cbv zeta.
    change (step markdown (Some handleAction) st0 (InitRejected e)) with st1.
    change (promise st1) with (Rejected e).
    cbn [Chat.resume]. change (trace st1) with (trace st0). rewrite drop_all.
    change (Chat.rendered []) with (@nil Chat.Output). cbn [app]. f_equal.
    rewrite follow_after_return.
    destruct (run_appends_trace markdown (Some handleAction) (map Message events) st1)
      as (es & ->).
    change (trace st1) with (trace st0). by rewrite drop_app_length, rendered_app.
  - intros Hret. by rewrite (rendered_contents_returned _ _ cs events st1 Hret Hcs).
  - intros Hthrow. by rewrite (rendered_contents_thrown _ _ cs events st1 Hthrow Hcs).
Qed.

Lemma chat_stream_outlives_init_failure_witness :
  let out := Chat.handleChatRequest client_streaming
               (network [InitRejected (Js.new_Error "Request failed with status code 500");
                         Message (content_message "Hello! ")])
               workspace "Hello, world!" immediate deferred in
  snd out
  = Chat.Progress "Thinking..." ::
    Chat.render_error (Js.new_Error "Request failed with status code 500")
    ++ Chat.rendered (fst out)
  /\ chunk_calls (fst out) = map Js.Str ["Hello! "]
  /\ closes (fst out) = 0
  /\ ((forall t v, exists p, immediate t v = Returned p) ->
      Chat.rendered (fst out)
      = map (fun c => Chat.MarkdownChunk (Js.Str c)) ["Hello! "])
  /\ ((forall t v, exists err, immediate t v = Threw err) ->
      Chat.rendered (fst out) = []).
Proof.
  apply (chat_stream_outlives_init_failure client_streaming config_streaming
           (network [InitRejected (Js.new_Error "Request failed with status code 500");
                     Message (content_message "Hello! ")])
           workspace "Hello, world!" immediate deferred
           (Js.new_Error "Request failed with status code 500")
           ["Hello! "] [content_message "Hello! "]).
  - apply constructed_new.
  - reflexivity.
  - reflexivity.
  - repeat constructor.
  - reflexivity.
Defined.

End ChatProps.
